(** * Vireon simulation backend: job orchestration and aggregation

    A shallow embedding of [backend/simulation.py] together with the parts of
    [backend/config.py], [backend/schemas.py], [backend/agents.py] and
    [backend/backboard.py] it depends on and the handlers of
    [backend/main.py], followed by the properties of the specification that
    concern them.

    Conventions of the embedding.
    - A Python [float] is a binary64 value: Rocq's primitive [float], whose
      operations are the IEEE 754 ones with round-to-nearest-even.
    - A Python [int] is a [Z]; text is a [string] over the code points below
      256.
    - Code that may raise returns a [res]; the orchestrator, which also
      mutates the job record, runs in the monad [Orch] that threads the job,
      logs every field write and carries the pending exception.
    - The module-level catalogue [ARCHETYPES] is passed explicitly to the
      functions that read it, and the shipped catalogue is [Agents.ARCHETYPES].
    - Library calls whose behaviour is fixed outside this repository (the JSON
      decoder, [repr], [int] applied to text) are fields of the class
      [PyRuntime]. *)

From Stdlib Require Import ZArith Floats List String Ascii Bool Lia.
From Stdlib Require Import Permutation.
Import ListNotations.

#[local] Set Warnings "-inexact-float,-register-all".
#[local] Open Scope string_scope.
#[local] Open Scope Z_scope.

(** ** Results and exceptions *)

Inductive res (E A : Type) : Type :=
| Ok (a : A)
| Err (e : E).

Arguments Ok {E A} a.
Arguments Err {E A} e.

(** The exception classes that occur in the modelled code.  [External] stands
    for any other class, such as the transport errors of the HTTP client. *)
Inductive exn : Type :=
| TimeoutError
| RuntimeError (msg : string)
| AttributeError
| TypeError
| ValueError
| OverflowError
| ZeroDivisionError
| ValidationError
| External (cls msg : string).


(** [type(exc).__name__] *)
Definition exn_name (e : exn) : string :=
  match e with
  | TimeoutError => "TimeoutError"
  | RuntimeError _ => "RuntimeError"
  | AttributeError => "AttributeError"
  | TypeError => "TypeError"
  | ValueError => "ValueError"
  | OverflowError => "OverflowError"
  | ZeroDivisionError => "ZeroDivisionError"
  | ValidationError => "ValidationError"
  | External cls _ => cls
  end.

Definition bind {E A B : Type} (m : res E A) (k : A -> res E B) : res E B :=
  match m with
  | Ok a => k a
  | Err e => Err e
  end.

Notation "x <- m ;; k" := (bind m (fun x => k))
  (at level 61, m at next level, right associativity).

(** ** Python numbers *)

Module PyFloat.

(** [float(z)] for an integer [z]: the nearest binary64 value. *)
Definition float_of_int (z : Z) : float :=
  SF2Prim (binary_normalize prec emax z 0 false).

(** The binary64 value nearest to the rational [n / d] for [0 <= n] and
    [0 < d], with sign [s]. *)
Definition nearest_ratio (s : bool) (n d : Z) : float :=
  match n with
  | Z0 => SF2Prim (S754_zero s)
  | _ =>
      let '(q, e, l) := SFdiv_core_binary prec emax n 0 d 0 in
      SF2Prim (binary_round_aux prec emax s q e l)
  end.

(** [n / d] rounded to the nearest integer, ties to even ([0 <= n], [0 < d]). *)
Definition round_half_even (n d : Z) : Z :=
  let q := n / d in
  match 2 * (n mod d) ?= d with
  | Lt => q
  | Gt => q + 1
  | Eq => if Z.even q then q else q + 1
  end.

(** [round(x, 1)]: the decimal with one fractional digit nearest to the exact
    value of [x] (ties to even), converted back to binary64.  Infinities, NaN
    and integral values round to themselves. *)
Definition round1 (x : float) : float :=
  match Prim2SF x with
  | S754_finite s m e =>
      if 0 <=? e then x
      else nearest_ratio s (round_half_even (10 * Zpos m) (2 ^ (- e))) 10
  | _ => x
  end.

(** Truth value of a float: [bool(x)] is false exactly for [0.0] and [-0.0]. *)
Definition truthy (x : float) : bool := negb (PrimFloat.eqb x 0%float).

(** [x / y] on floats raises [ZeroDivisionError] on a zero divisor. *)
Definition truediv (x y : float) : res exn float :=
  if PrimFloat.eqb y 0%float then Err ZeroDivisionError else Ok (x / y)%float.

(** [a / b] on integers: the correctly rounded quotient. *)
Definition int_truediv (a b : Z) : res exn float :=
  if b =? 0 then Err ZeroDivisionError
  else Ok (nearest_ratio (xorb (a <? 0) (b <? 0)) (Z.abs a) (Z.abs b)).

(** [int(x)]: truncation toward zero. *)
Definition int_of_float (x : float) : res exn Z :=
  match Prim2SF x with
  | S754_zero _ => Ok 0
  | S754_finite s m e =>
      let n := if 0 <=? e then Zpos m * 2 ^ e else Zpos m / 2 ^ (- e) in
      Ok (if s then - n else n)
  | S754_infinity _ => Err OverflowError
  | S754_nan => Err ValueError
  end.

End PyFloat.

(** ** Text helpers *)

Module PyStr.

Definition digit_char (d : Z) : ascii := ascii_of_nat (48 + Z.to_nat d).

Fixpoint digits_fuel (fuel : nat) (n : Z) (acc : string) : string :=
  match fuel with
  | O => acc
  | S fuel' =>
      let acc' := String (digit_char (n mod 10)) acc in
      if n <? 10 then acc' else digits_fuel fuel' (n / 10) acc'
  end.

(** [str(z)] for an integer. *)
Definition of_int (z : Z) : string :=
  let n := Z.abs z in
  let body := digits_fuel (S (Z.to_nat (Z.log2 n))) n "" in
  if z <? 0 then String "-" body else body.

(** [format(x, ".0f")] *)
Definition format_0f (x : float) : string :=
  match Prim2SF x with
  | S754_nan => "nan"
  | S754_infinity s => if s then "-inf" else "inf"
  | S754_zero s => if s then "-0" else "0"
  | S754_finite s m e =>
      let n := if 0 <=? e then Zpos m * 2 ^ e
               else PyFloat.round_half_even (Zpos m) (2 ^ (- e)) in
      if s then String "-" (of_int n) else of_int n
  end.

(** [str.isspace] on one code point below 256. *)
Definition is_space (c : ascii) : bool :=
  let n := nat_of_ascii c in
  ((9 <=? n) && (n <=? 13) || (28 <=? n) && (n <=? 32)
   || (n =? 133) || (n =? 160))%nat.

(** [str.lower] on one code point below 256. *)
Definition lower_char (c : ascii) : ascii :=
  let n := nat_of_ascii c in
  if ((65 <=? n) && (n <=? 90)
      || (192 <=? n) && (n <=? 222) && negb (n =? 215))%nat
  then ascii_of_nat (n + 32) else c.

Fixpoint lower (s : string) : string :=
  match s with
  | EmptyString => EmptyString
  | String c s' => String (lower_char c) (lower s')
  end.

Fixpoint lstrip (s : string) : string :=
  match s with
  | String c s' => if is_space c then lstrip s' else s
  | EmptyString => EmptyString
  end.

Fixpoint rstrip (s : string) : string :=
  match s with
  | EmptyString => EmptyString
  | String c s' =>
      match rstrip s' with
      | EmptyString => if is_space c then EmptyString else String c EmptyString
      | t => String c t
      end
  end.

(** [s.strip()] *)
Definition strip (s : string) : string := rstrip (lstrip s).

(** [s.startswith(p)] *)
Definition startswith (s p : string) : bool := String.prefix p s.

(** [s.endswith(p)] *)
Definition endswith (s p : string) : bool :=
  (String.length p <=? String.length s)%nat
  && String.eqb (String.substring (String.length s - String.length p) (String.length p) s) p.

(** [s.index(c)] when [c in s], as [Some]. *)
Fixpoint index_char (c : ascii) (s : string) : option nat :=
  match s with
  | EmptyString => None
  | String c' s' =>
      if Ascii.eqb c c' then Some O
      else match index_char c s' with
           | Some n => Some (S n)
           | None => None
           end
  end.

(** [s[n:]] *)
Fixpoint drop (n : nat) (s : string) : string :=
  match n, s with
  | O, _ => s
  | S n', String _ s' => drop n' s'
  | S _, EmptyString => EmptyString
  end.

(** [s[:-n]] for [n > 0] *)
Definition drop_last (n : nat) (s : string) : string :=
  String.substring 0 (String.length s - n) s.

Definition newline : ascii := ascii_of_nat 10.

End PyStr.

(** ** Python objects, as the JSON decoder produces them *)

Inductive pyobj : Type :=
| PNone
| PBool (b : bool)
| PInt (z : Z)
| PFloat (x : float)
| PStr (s : string)
| PList (items : list pyobj)
| PDict (items : list (string * pyobj)).

Module PyObj.

(** [d.get(key)] on the items of a dict *)
Fixpoint get (key : string) (d : list (string * pyobj)) : option pyobj :=
  match d with
  | [] => None
  | (k, v) :: d' => if String.eqb k key then Some v else get key d'
  end.

(** [d.get(key, default)] *)
Definition get_default (key : string) (default : pyobj) (d : list (string * pyobj)) : pyobj :=
  match get key d with
  | Some v => v
  | None => default
  end.

(** [d[key] = v]: replaces the value of a key already present. *)
Fixpoint set (key : string) (v : pyobj) (d : list (string * pyobj)) : list (string * pyobj) :=
  match d with
  | [] => [(key, v)]
  | (k, v') :: d' => if String.eqb k key then (k, v) :: d' else (k, v') :: set key v d'
  end.

(** [bool(v)] *)
Definition truthy (v : pyobj) : bool :=
  match v with
  | PNone => false
  | PBool b => b
  | PInt z => negb (z =? 0)
  | PFloat x => PyFloat.truthy x
  | PStr s => negb (String.eqb s "")
  | PList l => match l with [] => false | _ => true end
  | PDict d => match d with [] => false | _ => true end
  end.

(** The attribute [get] exists on dicts only. *)
Definition as_dict (v : pyobj) : res exn (list (string * pyobj)) :=
  match v with
  | PDict d => Ok d
  | _ => Err AttributeError
  end.

Fixpoint chars (s : string) : list pyobj :=
  match s with
  | EmptyString => []
  | String c s' => PStr (String c EmptyString) :: chars s'
  end.

(** The items a [for] loop over [v] visits. *)
Definition iter (v : pyobj) : res exn (list pyobj) :=
  match v with
  | PList l => Ok l
  | PDict d => Ok (map (fun kv => PStr (fst kv)) d)
  | PStr s => Ok (chars s)
  | _ => Err TypeError
  end.

End PyObj.

(** The library behaviour the code relies on and this repository does not
    define. *)
Class PyRuntime : Type := {
  (** [json.loads]; [None] stands for [JSONDecodeError]. *)
  json_loads : string -> option pyobj;
  (** [str(v)] for a [v] that is not text. *)
  py_repr : pyobj -> string;
  (** [int(s)] for text [s]; [None] stands for [ValueError]. *)
  int_of_text : string -> option Z;
  (** [str(exc)] for an exception raised by the interpreter or a library. *)
  builtin_message : exn -> string
}.

Section Builtins.
Context {RT : PyRuntime}.

(** [str(v)] *)
Definition py_str (v : pyobj) : string :=
  match v with
  | PStr s => s
  | _ => py_repr v
  end.

(** [int(v)] *)
Definition py_int (v : pyobj) : res exn Z :=
  match v with
  | PInt z => Ok z
  | PBool b => Ok (if b then 1 else 0)
  | PFloat x => PyFloat.int_of_float x
  | PStr s =>
      match int_of_text s with
      | Some z => Ok z
      | None => Err ValueError
      end
  | PNone | PList _ | PDict _ => Err TypeError
  end.

(** [str(exc)] *)
Definition exn_str (e : exn) : string :=
  match e with
  | RuntimeError msg => msg
  | External _ msg => msg
  | _ => builtin_message e
  end.

End Builtins.

(** ** config.py *)

Module Config.

Definition ALPHA : float := 0.7%float.

Definition AGENT_TIMEOUT_S : float := 25.0%float.

(** The allow-list of models. *)
Definition ALLOWED_MODELS : list string := [
  "amazon/nova-micro-v1";
  "amazon/nova-lite-v1";
  "anthropic/claude-3-haiku";
  "anthropic/claude-3.5-sonnet";
  "gemini-2.0-flash-lite-001";
  "gemini-2.0-flash";
  "meta/llama-3.1-8b-instruct";
  "mistral/mistral-small-latest"
].

End Config.

(** ** schemas.py *)

Module Schemas.

Record BuildingPayload : Type := {
  building_id : string;
  name : string;
  type : string;
  description : string;
  height_m : float;
  cost_estimate : float
}.

Record ImpactScores : Type := {
  environmental_sensitivity : float;
  infrastructure_strain : float;
  livability_proxy : float;
  economic_benefit : float;
  deterministic_acceptance : float
}.

Record ImpactDrivers : Type := {
  d_to_park_m : float;
  d_to_water_m : float;
  overlap_sensitive_m2 : float;
  d_to_major_road_m : float;
  d_to_residential_m : float;
  intensity : float;
  center_proximity_score : float
}.

Record ImpactFlags : Type := {
  near_sensitive_zone : bool;
  near_residential : bool;
  near_major_road : bool
}.

Record ImpactPayload : Type := {
  scores : ImpactScores;
  drivers : ImpactDrivers;
  flags : ImpactFlags
}.

Record DriverCitation : Type := {
  driver : string;
  value : pyobj;
  effect : string
}.

Record AgentReaction : Type := {
  agent_id : string;
  display_name : string;
  stance : string;
  score : Z;
  concerns : list string;
  why : list string;
  would_change_mind_if : list string;
  proposed_amendments : list string;
  driver_citations : list DriverCitation
}.

Record AggregateResult : Type := {
  sentiment_score : float;
  final_score : float;
  notes : list string
}.

Record SimulationMetadata : Type := {
  model_id : string;
  run_ms : Z;
  created_at : string
}.

Record SimulateResult : Type := {
  impacts : ImpactPayload;
  agents : list AgentReaction;
  aggregate : AggregateResult;
  metadata : SimulationMetadata
}.

(** Validation of a field declared [str]: text is accepted as it is, anything
    else is refused. *)
Definition validate_str (v : pyobj) : res exn string :=
  match v with
  | PStr s => Ok s
  | _ => Err ValidationError
  end.

(** Validation of a field declared [Union[float, int, str]]: scalars are
    accepted, [None] and containers are refused.  The record keeps the value
    it was given. *)
Definition validate_scalar (v : pyobj) : res exn pyobj :=
  match v with
  | PInt _ | PFloat _ | PStr _ | PBool _ => Ok v
  | PNone | PList _ | PDict _ => Err ValidationError
  end.

(** [DriverCitation(driver=..., value=..., effect=...)] *)
Definition new_DriverCitation (driver : string) (value : pyobj) (effect : string)
  : res exn DriverCitation :=
  value' <- validate_scalar value ;;
  Ok {| driver := driver; value := value'; effect := effect |}.

(** [AgentReaction(...)]: [agent_id] and [display_name] must be text and
    [score] must satisfy [ge=0, le=100]. *)
Definition new_AgentReaction (agent_id display_name : pyobj) (stance : string)
    (score : Z) (concerns why would_change_mind_if proposed_amendments : list string)
    (driver_citations : list DriverCitation) : res exn AgentReaction :=
  agent_id' <- validate_str agent_id ;;
  display_name' <- validate_str display_name ;;
  if (0 <=? score) && (score <=? 100) then
    Ok {| agent_id := agent_id'; display_name := display_name';
          stance := stance; score := score; concerns := concerns; why := why;
          would_change_mind_if := would_change_mind_if;
          proposed_amendments := proposed_amendments;
          driver_citations := driver_citations |}
  else Err ValidationError.

Record JobCreated : Type := {
  job_id : string
}.

Record PartialProgress : Type := {
  agents_done : Z;
  agents_total : Z
}.

Record SimulateStatus : Type := {
  status : string;
  progress : Z;
  phase : string;
  message : string;
  partial : option PartialProgress
}.

(** [SimulateStatus(...)]: [progress] must satisfy [ge=0, le=100]. *)
Definition new_SimulateStatus (status : string) (progress : Z) (phase message : string)
    (partial : option PartialProgress) : res exn SimulateStatus :=
  if (0 <=? progress) && (progress <=? 100) then
    Ok {| status := status; progress := progress; phase := phase;
          message := message; partial := partial |}
  else Err ValidationError.

End Schemas.

(** ** agents.py *)

Module Agents.

Record AgentArchetype : Type := {
  id : string;
  display_name : string;
  persona_summary : string;
  priorities : list string;
  weight : float
}.

(** The default of the field [weight]. *)
Definition default_weight : float := 1.0%float.

Definition ARCHETYPES : list AgentArchetype := [
  {| id := "student_renter";
     display_name := "Marcus Thompson";
     persona_summary :=
       "A 22-year-old Queen's University student renting a basement apartment near campus.  Works part-time and relies on walking and transit.";
     priorities := ["affordability"; "walkability"; "campus access"; "nightlife/noise tolerance"];
     weight := default_weight |};
  {| id := "nearby_homeowner";
     display_name := "Patricia Chen";
     persona_summary :=
       "A 58-year-old homeowner who has lived two blocks from the site for 25 years. Concerned about property values, shadow, and neighbourhood character.";
     priorities := ["noise"; "shadow/intrusion proxy"; "green space protection"; "property stability"];
     weight := default_weight |};
  {| id := "environmental_advocate";
     display_name := "Sarah Greenfield";
     persona_summary :=
       "An environmental scientist and volunteer with the local conservation authority.  Focuses on ecological corridors and sensitive habitats.";
     priorities := ["sensitive-area risk"; "runoff/green buffers"; "long-term ecological health"];
     weight := default_weight |};
  {| id := "small_business_owner";
     display_name := "David Kowalski";
     persona_summary :=
       "Owns a family bakery on Princess Street for 15 years. Depends on foot traffic and worries about construction disruption.";
     priorities := ["foot traffic"; "construction disruption duration"; "parking/access"];
     weight := default_weight |};
  {| id := "city_planner";
     display_name := "James Rivera";
     persona_summary :=
       "A senior planner with the City of Kingston planning department. Evaluates developments for balanced community benefit and policy compliance.";
     priorities := ["balanced tradeoffs"; "corridor access"; "context mismatch"; "feasibility of mitigations"];
     weight := default_weight |};
  {| id := "accessibility_advocate";
     display_name := "Amara Okafor";
     persona_summary :=
       "A disability-rights organiser and wheelchair user.  Champions universal design and equitable access to services.";
     priorities := ["equitable access"; "safe mobility"; "proximity to services"; "inclusive design signals"];
     weight := default_weight |}
].

End Agents.

(** ** backboard.py *)

Module Backboard.

(** What the three HTTP calls of [one_shot], run under
    [asyncio.wait_for(..., timeout=AGENT_TIMEOUT_S)], come to: an exception
    (expiry of the timeout, a transport error, the [RuntimeError] of a status
    other than success) or the text of the assistant's message. *)
Inductive service_reply : Type :=
| Raised (e : exn)
| Delivered (raw : string).

Definition fence : string := "```".

(** The cleaning [one_shot] applies to the text before it decodes it. *)
Definition strip_fences (raw : string) : string :=
  let cleaned := PyStr.strip raw in
  let cleaned :=
    if PyStr.startswith cleaned fence then
      let first_nl :=
        match PyStr.index_char PyStr.newline cleaned with
        | Some n => n
        | None => 3%nat
        end in
      PyStr.drop (first_nl + 1) cleaned
    else cleaned in
  let cleaned :=
    if PyStr.endswith cleaned fence then PyStr.drop_last 3 cleaned else cleaned in
  PyStr.strip cleaned.

(** The dict [one_shot] returns when decoding fails. *)
Definition parse_error_dict (raw : string) : pyobj :=
  PDict [("_raw", PStr raw); ("_parse_error", PBool true)].

Definition one_shot {RT : PyRuntime} (reply : service_reply) : res exn pyobj :=
  match reply with
  | Raised e => Err e
  | Delivered raw =>
      match json_loads (strip_fences raw) with
      | Some parsed => Ok parsed
      | None => Ok (parse_error_dict raw)
      end
  end.

(** *** The client, call by call *)

(** What the client reads of an HTTP response: the status code, the body and
    what [resp.json()] comes to. *)
Record Response : Type := {
  status_code : Z;
  text : string;
  json : res exn pyobj
}.

(** [await client.post(url, ..., json=payload)]: the response, or the
    exception of the transport or of its timeout. *)
Definition transport : Type := string -> pyobj -> res exn Response.

(** The dict [_assistant_cache]. *)
Definition assistant_cache : Type := list (string * pyobj).

(** [data.get(key)] *)
Definition get_field (key : string) (data : pyobj) : res exn pyobj :=
  d <- PyObj.as_dict data ;;
  Ok (PyObj.get_default key PNone d).

(** [get_or_create_assistant]: the cache it leaves and the identifier it
    returns.  The entries of the debug log are not modelled. *)
Definition get_or_create_assistant (base_url : string) (post : transport)
    (_assistant_cache : assistant_cache) (cache_key name system_prompt : string)
  : assistant_cache * res exn pyobj :=
  match PyObj.get cache_key _assistant_cache with
  | Some assistant_id => (_assistant_cache, Ok assistant_id)
  | None =>
      let url := base_url ++ "/assistants" in
      let payload := PDict [("name", PStr name); ("system_prompt", PStr system_prompt)] in
      match post url payload with
      | Err exc => (_assistant_cache, Err exc)
      | Ok resp =>
          if negb ((status_code resp =? 200) || (status_code resp =? 201)) then
            (_assistant_cache,
             Err (RuntimeError ("Backboard create_assistant failed ("
                                ++ PyStr.of_int (status_code resp) ++ "): "
                                ++ text resp)))
          else
            match (data <- json resp ;;
                   assistant_id <- get_field "assistant_id" data ;;
                   if PyObj.truthy assistant_id then Ok assistant_id
                   else get_field "id" data) with
            | Err exc => (_assistant_cache, Err exc)
            | Ok assistant_id =>
                (PyObj.set cache_key assistant_id _assistant_cache, Ok assistant_id)
            end
      end
  end.

(** [model.split("/")[0]] *)
Fixpoint before_slash (s : string) : string :=
  match s with
  | EmptyString => EmptyString
  | String c s' => if Ascii.eqb c "/" then EmptyString else String c (before_slash s')
  end.

(** The provider [send_message] names in its form data:
    [model.split("/")[0] if "/" in model else "amazon"]. *)
Definition provider (model : string) : string :=
  match PyStr.index_char "/" model with
  | Some _ => before_slash model
  | None => "amazon"
  end.

End Backboard.

(** ** simulation.py *)

Module Simulation.

(** *** Job model *)

Record Job : Type := {
  id : string;
  model_id : string;
  building : Schemas.BuildingPayload;
  impacts : Schemas.ImpactPayload;
  status : string;
  progress : Z;
  phase : string;
  message : string;
  agents_done : Z;
  agents_total : Z;
  result : option Schemas.SimulateResult;
  error : option string;
  created_at : string;
  started_at : float
}.

(** [create_job]: [fresh_id], [now] and [clock] are the readings of
    [uuid.uuid4()], [datetime.now(timezone.utc).isoformat()] and
    [time.monotonic()]. *)
Definition create_job (ARCHETYPES : list Agents.AgentArchetype)
    (fresh_id now : string) (clock : float)
    (model_id : string) (building : Schemas.BuildingPayload)
    (impacts : Schemas.ImpactPayload) : Job :=
  {| id := fresh_id; model_id := model_id; building := building;
     impacts := impacts; status := "queued"; progress := 0; phase := "";
     message := ""; agents_done := 0;
     agents_total := Z.of_nat (List.length ARCHETYPES);
     result := None; error := None; created_at := now; started_at := clock |}.

(** *** In-memory store *)

(** The dict [_jobs]: the jobs by identifier, in the order of insertion.  An
    entry stands for the job object itself, so that the entry of a running
    job is the job in its current state. *)
Definition job_store : Type := list (string * Job).

(** [_jobs[job.id] = job] *)
Fixpoint store_job (_jobs : job_store) (job : Job) : job_store :=
  match _jobs with
  | [] => [(id job, job)]
  | (k, j) :: rest =>
      if String.eqb k (id job) then (k, job) :: rest
      else (k, j) :: store_job rest job
  end.

(** [create_job] with its effect on the store. *)
Definition create_job_in (_jobs : job_store) (ARCHETYPES : list Agents.AgentArchetype)
    (fresh_id now : string) (clock : float)
    (model_id : string) (building : Schemas.BuildingPayload)
    (impacts : Schemas.ImpactPayload) : job_store * Job :=
  let job := create_job ARCHETYPES fresh_id now clock model_id building impacts in
  (store_job _jobs job, job).

(** [_jobs.get(job_id)] *)
Fixpoint get_job (_jobs : job_store) (job_id : string) : option Job :=
  match _jobs with
  | [] => None
  | (k, j) :: rest => if String.eqb k job_id then Some j else get_job rest job_id
  end.

(** *** Single-agent execution *)

Section SingleAgent.
Context {RT : PyRuntime}.

Definition _str_list (val : pyobj) : list string :=
  match val with
  | PList l => map py_str l
  | _ => []
  end.

(** One pass of the loop over [raw.get("driver_citations", [])]: the citation
    built from [c], or nothing when building it raises. *)
Definition citation_of (c : pyobj) : list Schemas.DriverCitation :=
  match (cd <- PyObj.as_dict c ;;
         Schemas.new_DriverCitation
           (py_str (PyObj.get_default "driver" (PStr "") cd))
           (PyObj.get_default "value" (PInt 0) cd)
           (py_str (PyObj.get_default "effect" (PStr "neutral") cd))) with
  | Ok citation => [citation]
  | Err _ => []
  end.

Definition allowed_stance (stance : string) : bool :=
  String.eqb stance "support" || String.eqb stance "neutral"
  || String.eqb stance "oppose".

Definition _parse_reaction (archetype_id display_name : string) (raw : pyobj)
  : res exn Schemas.AgentReaction :=
  d <- PyObj.as_dict raw ;;
  if PyObj.truthy (PyObj.get_default "_parse_error" PNone d) then
    Schemas.new_AgentReaction (PStr archetype_id) (PStr display_name)
      "neutral" 50
      ["Agent response could not be parsed."]
      ["Response was not valid JSON."]
      [] [] []
  else
    items <- PyObj.iter (PyObj.get_default "driver_citations" (PList []) d) ;;
    let citations := flat_map citation_of items in
    raw_score <- py_int (PyObj.get_default "score" (PInt 50) d) ;;
    let score := Z.max 0 (Z.min 100 raw_score) in
    let stance := PyStr.lower (py_str (PyObj.get_default "stance" (PStr "neutral") d)) in
    let stance := if allowed_stance stance then stance else "neutral" in
    Schemas.new_AgentReaction
      (PyObj.get_default "agent_id" (PStr archetype_id) d)
      (PyObj.get_default "display_name" (PStr display_name) d)
      stance score
      (_str_list (PyObj.get_default "concerns" PNone d))
      (_str_list (PyObj.get_default "why" PNone d))
      (_str_list (PyObj.get_default "would_change_mind_if" PNone d))
      (_str_list (PyObj.get_default "proposed_amendments" PNone d))
      citations.

(** [_run_single_agent]: [reply] is what awaiting [client.one_shot(...)]
    under the timeout comes to, up to the decoding of the text; the prompts and
    the model only travel to the service. *)
Definition _run_single_agent (archetype_id display_name : string)
    (reply : Backboard.service_reply) : res exn Schemas.AgentReaction :=
  match (raw <- Backboard.one_shot reply ;;
         _parse_reaction archetype_id display_name raw) with
  | Ok reaction => Ok reaction
  | Err exc =>
      Schemas.new_AgentReaction (PStr archetype_id) (PStr display_name)
        "neutral" 50
        ["Agent timed out or failed: " ++ exn_name exc]
        ["Could not generate a reaction in time."]
        [] [] []
  end.

End SingleAgent.

(** *** Aggregation *)

(** [next((a for a in ARCHETYPES if a.id == agent_id), None)] *)
Definition find_archetype (ARCHETYPES : list Agents.AgentArchetype) (agent_id : string)
  : option Agents.AgentArchetype :=
  find (fun a => String.eqb (Agents.id a) agent_id) ARCHETYPES.

(** [arch.weight if arch else 1.0] *)
Definition weight_of (ARCHETYPES : list Agents.AgentArchetype) (r : Schemas.AgentReaction)
  : float :=
  match find_archetype ARCHETYPES (Schemas.agent_id r) with
  | Some arch => Agents.weight arch
  | None => 1.0%float
  end.

(** One pass of the loop of [_aggregate] over the pair
    [(total_weight, weighted_sum)]. *)
Definition accumulate (ARCHETYPES : list Agents.AgentArchetype)
    (acc : float * float) (r : Schemas.AgentReaction) : float * float :=
  let w := weight_of ARCHETYPES r in
  (fst acc + w, snd acc + PyFloat.float_of_int (Schemas.score r) * w)%float.

Definition weigh (ARCHETYPES : list Agents.AgentArchetype)
    (reactions : list Schemas.AgentReaction) : float * float :=
  fold_left (accumulate ARCHETYPES) reactions (0.0, 0.0)%float.

(** [sorted(reactions, key=lambda r: r.score)]: a stable sort. *)
Fixpoint insert_by_score (r : Schemas.AgentReaction) (l : list Schemas.AgentReaction)
  : list Schemas.AgentReaction :=
  match l with
  | [] => [r]
  | x :: l' =>
      if Schemas.score r <=? Schemas.score x then r :: l
      else x :: insert_by_score r l'
  end.

Definition sorted_by_score (reactions : list Schemas.AgentReaction)
  : list Schemas.AgentReaction :=
  fold_right insert_by_score [] reactions.

Definition extreme_notes (sorted : list Schemas.AgentReaction) : list string :=
  match sorted with
  | [] => []
  | lowest :: _ =>
      let highest := last sorted lowest in
      [ "Most critical: " ++ Schemas.display_name lowest
          ++ " (" ++ PyStr.of_int (Schemas.score lowest) ++ ")";
        "Most supportive: " ++ Schemas.display_name highest
          ++ " (" ++ PyStr.of_int (Schemas.score highest) ++ ")" ]
  end.

(** The blend of the two scores. *)
Definition blend (deterministic_acceptance sentiment : float) : float :=
  PyFloat.round1 (Config.ALPHA * deterministic_acceptance
                  + (1 - Config.ALPHA) * sentiment)%float.

Definition _aggregate (ARCHETYPES : list Agents.AgentArchetype)
    (reactions : list Schemas.AgentReaction) (deterministic_acceptance : float)
  : res exn Schemas.AggregateResult :=
  match reactions with
  | [] =>
      Ok {| Schemas.sentiment_score := 50%float;
            Schemas.final_score := deterministic_acceptance;
            Schemas.notes := ["No agent reactions available."] |}
  | _ =>
      let '(total_weight, weighted_sum) := weigh ARCHETYPES reactions in
      sentiment <-
        (if PyFloat.truthy total_weight then
           q <- PyFloat.truediv weighted_sum total_weight ;;
           Ok (PyFloat.round1 q)
         else Ok 50.0%float) ;;
      let final := blend deterministic_acceptance sentiment in
      let notes :=
        [ "Sentiment score: " ++ PyStr.format_0f sentiment
            ++ " (weighted avg of "
            ++ PyStr.of_int (Z.of_nat (List.length reactions)) ++ " agents)";
          "Blended: " ++ PyStr.format_0f (Config.ALPHA * 100)%float
            ++ "% deterministic ("
            ++ PyStr.format_0f deterministic_acceptance ++ ") + "
            ++ PyStr.format_0f ((1 - Config.ALPHA) * 100)%float
            ++ "% sentiment (" ++ PyStr.format_0f sentiment
            ++ ") = " ++ PyStr.format_0f final ] in
      Ok {| Schemas.sentiment_score := sentiment;
            Schemas.final_score := final;
            Schemas.notes := (notes ++ extreme_notes (sorted_by_score reactions))%list |}
  end.

(** *** Orchestration *)

(** The assignments to a field of the job, and the events of a run: an
    assignment, or an [await] at which the event loop may run a poll. *)
Inductive field_write : Type :=
| W_status (s : string)
| W_phase (p : string)
| W_progress (n : Z)
| W_message (m : string)
| W_agents_done (n : Z)
| W_result (r : Schemas.SimulateResult)
| W_error (e : string).

Inductive event : Type :=
| Wrote (w : field_write)
| Suspended.

(** The job with its mutable fields replaced. *)
Definition update (job : Job) (st : string) (pr : Z) (ph me : string) (ad : Z)
    (re : option Schemas.SimulateResult) (er : option string) : Job :=
  {| id := id job; model_id := model_id job; building := building job;
     impacts := impacts job; status := st; progress := pr; phase := ph;
     message := me; agents_done := ad; agents_total := agents_total job;
     result := re; error := er; created_at := created_at job;
     started_at := started_at job |}.

Definition apply_write (job : Job) (w : field_write) : Job :=
  let st := status job in
  let pr := progress job in
  let ph := phase job in
  let me := message job in
  let ad := agents_done job in
  let re := result job in
  let er := error job in
  match w with
  | W_status s => update job s pr ph me ad re er
  | W_phase p => update job st pr p me ad re er
  | W_progress n => update job st n ph me ad re er
  | W_message m => update job st pr ph m ad re er
  | W_agents_done n => update job st pr ph me n re er
  | W_result r => update job st pr ph me ad (Some r) er
  | W_error e => update job st pr ph me ad re (Some e)
  end.

Definition apply_event (job : Job) (ev : event) : Job :=
  match ev with
  | Wrote w => apply_write job w
  | Suspended => job
  end.

(** The job a trace leaves. *)
Definition replay (job : Job) (trace : list event) : Job :=
  fold_left apply_event trace job.

(** The job after each event of a trace, in order. *)
Fixpoint states (job : Job) (trace : list event) : list Job :=
  match trace with
  | [] => []
  | ev :: trace' =>
      let job' := apply_event job ev in
      job' :: states job' trace'
  end.

(** The job as a poll can read it: at each [await] of a trace. *)
Fixpoint snapshots (job : Job) (trace : list event) : list Job :=
  match trace with
  | [] => []
  | Wrote w :: trace' => snapshots (apply_write job w) trace'
  | Suspended :: trace' => job :: snapshots job trace'
  end.

(** A computation of the orchestrator: from the job it starts with, the events
    it produces, the job it leaves and its value or the exception it raises. *)
Definition Orch (A : Type) : Type := Job -> list event * Job * res exn A.

Definition ret {A : Type} (a : A) : Orch A := fun job => ([], job, Ok a).

Definition obind {A B : Type} (m : Orch A) (k : A -> Orch B) : Orch B :=
  fun job =>
    let '(t1, job1, r) := m job in
    match r with
    | Ok a => let '(t2, job2, r2) := k a job1 in ((t1 ++ t2)%list, job2, r2)
    | Err e => (t1, job1, Err e)
    end.

Notation "x <~ m ;; k" := (obind m (fun x => k))
  (at level 61, m at next level, right associativity).
Notation "m >> k" := (obind m (fun _ => k))
  (at level 61, right associativity).

Definition write (w : field_write) : Orch unit :=
  fun job => ([Wrote w], apply_write job w, Ok tt).

Definition suspend : Orch unit := fun job => ([Suspended], job, Ok tt).

Definition lift {A : Type} (r : res exn A) : Orch A := fun job => ([], job, r).

Definition read {A : Type} (f : Job -> A) : Orch A := fun job => ([], job, Ok (f job)).

(** [try: body except Exception as exc: handler(exc)] *)
Definition try_except {A : Type} (body : Orch A) (handler : exn -> Orch A) : Orch A :=
  fun job =>
    let '(t1, job1, r) := body job in
    match r with
    | Ok a => (t1, job1, Ok a)
    | Err exc => let '(t2, job2, r2) := handler exc job1 in ((t1 ++ t2)%list, job2, r2)
    end.

(** What a run of the orchestrator receives from outside the modelled core:
    the prompts built by [agents.py] (or the exception building them raises),
    the reply of the service to each archetype's task, the order in which
    [asyncio.as_completed] hands the tasks back, and the reading of
    [time.monotonic()] after aggregation. *)
Record Env : Type := {
  env_user_message : res exn string;
  env_system_prompt : Agents.AgentArchetype -> res exn string;
  env_reply : Agents.AgentArchetype -> Backboard.service_reply;
  env_picks : list nat;
  env_monotonic : float
}.

Fixpoint remove_nth {T : Type} (n : nat) (l : list T) : list T :=
  match n, l with
  | _, [] => []
  | O, _ :: l' => l'
  | S n', x :: l' => x :: remove_nth n' l'
  end.

Fixpoint as_completed_fuel {T : Type} (fuel : nat) (picks : list nat) (pending : list T)
  : list T :=
  match fuel, pending with
  | S fuel', first :: _ =>
      let k := (hd O picks mod List.length pending)%nat in
      nth k pending first :: as_completed_fuel fuel' (tl picks) (remove_nth k pending)
  | _, _ => []
  end.

(** [asyncio.as_completed(tasks)]: the tasks in the order they finish; the
    [k]-th pick names, among the tasks still pending, the next to finish. *)
Definition as_completed {T : Type} (picks : list nat) (tasks : list T) : list T :=
  as_completed_fuel (List.length tasks) picks tasks.

Section Orchestrator.
Context {RT : PyRuntime}.

(** The loop that builds one task per archetype. *)
Fixpoint make_tasks (env : Env) (archetypes : list Agents.AgentArchetype)
  : res exn (list (res exn Schemas.AgentReaction)) :=
  match archetypes with
  | [] => Ok []
  | arch :: rest =>
      sys_prompt <- env_system_prompt env arch ;;
      tasks <- make_tasks env rest ;;
      Ok (_run_single_agent (Agents.id arch) (Agents.display_name arch)
            (env_reply env arch) :: tasks)
  end.

(** [20 + int(70 * len(reactions) / len(ARCHETYPES))] *)
Definition agents_progress (done total : Z) : res exn Z :=
  q <- PyFloat.int_truediv (70 * done) total ;;
  p <- PyFloat.int_of_float q ;;
  Ok (20 + p).

(** The loop over [asyncio.as_completed(tasks)], from the reactions collected
    so far. *)
Fixpoint collect (total : Z) (completed : list (res exn Schemas.AgentReaction))
    (reactions : list Schemas.AgentReaction) : Orch (list Schemas.AgentReaction) :=
  match completed with
  | [] => ret reactions
  | coro :: rest =>
      suspend >>
      reaction <~ lift coro ;;
      let reactions := (reactions ++ [reaction])%list in
      let done := Z.of_nat (List.length reactions) in
      write (W_agents_done done) >>
      p <~ lift (agents_progress done total) ;;
      write (W_progress p) >>
      write (W_message ("Agent " ++ PyStr.of_int done ++ "/"
                        ++ PyStr.of_int total ++ " complete...")) >>
      collect total rest reactions
  end.

Definition simulation_body (ARCHETYPES : list Agents.AgentArchetype) (env : Env)
  : Orch unit :=
  write (W_status "running") >>
  write (W_phase "impacts") >>
  write (W_progress 15) >>
  write (W_message "Processing impact data...") >>
  suspend >>
  write (W_phase "agents") >>
  write (W_progress 20) >>
  write (W_message "Generating stakeholder reactions...") >>
  user_msg <~ lift (env_user_message env) ;;
  tasks <~ lift (make_tasks env ARCHETYPES) ;;
  reactions <~ collect (Z.of_nat (List.length ARCHETYPES))
                 (as_completed (env_picks env) tasks) [] ;;
  write (W_phase "aggregate") >>
  write (W_progress 92) >>
  write (W_message "Aggregating sentiment...") >>
  job <~ read (fun job => job) ;;
  aggregate <~ lift (_aggregate ARCHETYPES reactions
                       (Schemas.deterministic_acceptance
                          (Schemas.scores (impacts job)))) ;;
  elapsed_ms <~ lift (PyFloat.int_of_float
                        ((env_monotonic env - started_at job) * 1000)%float) ;;
  write (W_result
           {| Schemas.impacts := impacts job;
              Schemas.agents := reactions;
              Schemas.aggregate := aggregate;
              Schemas.metadata :=
                {| Schemas.model_id := model_id job;
                   Schemas.run_ms := elapsed_ms;
                   Schemas.created_at := created_at job |} |}) >>
  write (W_status "complete") >>
  write (W_progress 100) >>
  write (W_phase "complete") >>
  write (W_message "Simulation complete.").

Definition simulation_handler (exc : exn) : Orch unit :=
  write (W_status "error") >>
  write (W_error (exn_str exc)) >>
  write (W_message ("Error: " ++ exn_str exc)).

Definition run_simulation (ARCHETYPES : list Agents.AgentArchetype) (env : Env)
  : Orch unit :=
  try_except (simulation_body ARCHETYPES env) simulation_handler.

End Orchestrator.

End Simulation.

(** ** main.py *)

Module Main.

(** The request body of [POST /api/simulate] ([SimulateRequest] of
    schemas.py). *)
Record SimulateRequest : Type := {
  model_id : string;
  building : Schemas.BuildingPayload;
  impacts : Schemas.ImpactPayload
}.

(** How a handler ends other than by returning: an [HTTPException] with its
    status code and detail, or another exception. *)
Inductive failure : Type :=
| HTTPException (status_code : Z) (detail : string)
| Raises (e : exn).

(** [x in l] for texts *)
Definition contains (l : list string) (x : string) : bool :=
  existsb (String.eqb x) l.

(** [str(l)] for a list of texts without quotes, backslashes and control
    characters, as the models of the allow-list are. *)
Definition repr_texts (l : list string) : string :=
  "[" ++ String.concat ", " (map (fun s => "'" ++ s ++ "'") l) ++ "]".

(** [start_simulation]: the store it leaves, the job whose run it schedules
    with [asyncio.create_task], and its response. *)
Definition start_simulation (_jobs : Simulation.job_store)
    (ARCHETYPES : list Agents.AgentArchetype)
    (fresh_id now : string) (clock : float) (req : SimulateRequest)
  : Simulation.job_store * option Simulation.Job * res failure Schemas.JobCreated :=
  if negb (contains Config.ALLOWED_MODELS (model_id req)) then
    (_jobs, None,
     Err (HTTPException 400
            ("Model '" ++ model_id req ++ "' is not in the allowlist. "
             ++ "Allowed: " ++ repr_texts Config.ALLOWED_MODELS)))
  else
    let '(_jobs, job) :=
      Simulation.create_job_in _jobs ARCHETYPES fresh_id now clock
        (model_id req) (building req) (impacts req) in
    (_jobs, Some job, Ok {| Schemas.job_id := Simulation.id job |}).

Definition simulation_status (_jobs : Simulation.job_store) (job_id : string)
  : res failure Schemas.SimulateStatus :=
  match Simulation.get_job _jobs job_id with
  | None => Err (HTTPException 404 "Job not found")
  | Some job =>
      match Schemas.new_SimulateStatus (Simulation.status job)
              (Simulation.progress job) (Simulation.phase job)
              (Simulation.message job)
              (Some {| Schemas.agents_done := Simulation.agents_done job;
                       Schemas.agents_total := Simulation.agents_total job |}) with
      | Ok st => Ok st
      | Err e => Err (Raises e)
      end
  end.

(** [job.error or "Simulation failed"] *)
Definition error_detail (error : option string) : string :=
  match error with
  | Some e => if String.eqb e "" then "Simulation failed" else e
  | None => "Simulation failed"
  end.

Definition simulation_result (_jobs : Simulation.job_store) (job_id : string)
  : res failure Schemas.SimulateResult :=
  match Simulation.get_job _jobs job_id with
  | None => Err (HTTPException 404 "Job not found")
  | Some job =>
      if String.eqb (Simulation.status job) "error" then
        Err (HTTPException 500 (error_detail (Simulation.error job)))
      else
        match String.eqb (Simulation.status job) "complete", Simulation.result job with
        | true, Some result => Ok result
        | _, _ => Err (HTTPException 409 "Simulation not yet complete")
        end
  end.

End Main.

(** ** A runtime to run the model on concrete inputs

    Its decoder reads the fragment of JSON without escapes, fractions and
    exponents; its [int] reads an optional sign followed by decimal digits;
    its [repr] covers [None], booleans and integers. *)

Module SampleRuntime.

Definition dquote : ascii := ascii_of_nat 34.

Definition is_json_space (c : ascii) : bool :=
  let n := nat_of_ascii c in
  ((n =? 32) || (n =? 9) || (n =? 10) || (n =? 13))%nat.

Fixpoint skip_space (s : string) : string :=
  match s with
  | String c s' => if is_json_space c then skip_space s' else s
  | EmptyString => EmptyString
  end.

Definition is_digit (c : ascii) : bool :=
  let n := nat_of_ascii c in ((48 <=? n) && (n <=? 57))%nat.

(** The longest run of digits at the head of [s], read after [acc]. *)
Fixpoint read_digits (s : string) (acc : Z) (seen : bool) : Z * bool * string :=
  match s with
  | String c s' =>
      if is_digit c
      then read_digits s' (10 * acc + Z.of_nat (nat_of_ascii c - 48)) true
      else (acc, seen, s)
  | EmptyString => (acc, seen, s)
  end.

Definition read_int (s : string) : option (Z * string) :=
  let '(negative, body) :=
    match s with
    | String c s' => if Ascii.eqb c "-" then (true, s') else (false, s)
    | EmptyString => (false, s)
    end in
  let '(n, seen, rest) := read_digits body 0 false in
  if seen then Some (if negative then - n else n, rest) else None.

(** The text up to the closing quote. *)
Fixpoint read_text (s : string) : option (string * string) :=
  match s with
  | EmptyString => None
  | String c s' =>
      if Ascii.eqb c dquote then Some (EmptyString, s')
      else if Ascii.eqb c "\" || (nat_of_ascii c <? 32)%nat then None
      else match read_text s' with
           | Some (t, rest) => Some (String c t, rest)
           | None => None
           end
  end.

Definition expect (c : ascii) (s : string) : option string :=
  match skip_space s with
  | String c' s' => if Ascii.eqb c c' then Some s' else None
  | EmptyString => None
  end.

Definition read_word (w : string) (v : pyobj) (s : string) : option (pyobj * string) :=
  if String.prefix w s then Some (v, PyStr.drop (String.length w) s) else None.

Fixpoint read_value (fuel : nat) (s : string) : option (pyobj * string) :=
  match fuel with
  | O => None
  | S fuel' =>
      let fix read_items (n : nat) (s : string) (acc : list pyobj)
        : option (pyobj * string) :=
        match n with
        | O => None
        | S n' =>
            match read_value fuel' s with
            | None => None
            | Some (v, rest) =>
                match skip_space rest with
                | String c rest' =>
                    if Ascii.eqb c "," then read_items n' rest' (acc ++ [v])%list
                    else if Ascii.eqb c "]" then Some (PList (acc ++ [v])%list, rest')
                    else None
                | EmptyString => None
                end
            end
        end in
      let fix read_members (n : nat) (s : string) (acc : list (string * pyobj))
        : option (pyobj * string) :=
        match n with
        | O => None
        | S n' =>
            match expect dquote s with
            | None => None
            | Some s1 =>
                match read_text s1 with
                | None => None
                | Some (key, s2) =>
                    match expect ":" s2 with
                    | None => None
                    | Some s3 =>
                        match read_value fuel' s3 with
                        | None => None
                        | Some (v, rest) =>
                            match skip_space rest with
                            | String c rest' =>
                                if Ascii.eqb c ","
                                then read_members n' rest' (PyObj.set key v acc)
                                else if Ascii.eqb c "}"
                                then Some (PDict (PyObj.set key v acc), rest')
                                else None
                            | EmptyString => None
                            end
                        end
                    end
                end
            end
        end in
      match skip_space s with
      | EmptyString => None
      | String c s' =>
          if Ascii.eqb c "{" then
            match expect "}" s' with
            | Some rest => Some (PDict [], rest)
            | None => read_members fuel' s' []
            end
          else if Ascii.eqb c "[" then
            match expect "]" s' with
            | Some rest => Some (PList [], rest)
            | None => read_items fuel' s' []
            end
          else if Ascii.eqb c dquote then
            match read_text s' with
            | Some (t, rest) => Some (PStr t, rest)
            | None => None
            end
          else if Ascii.eqb c "n" then read_word "null" PNone (String c s')
          else if Ascii.eqb c "t" then read_word "true" (PBool true) (String c s')
          else if Ascii.eqb c "f" then read_word "false" (PBool false) (String c s')
          else match read_int (String c s') with
               | Some (z, rest) => Some (PInt z, rest)
               | None => None
               end
      end
  end.

Definition loads (s : string) : option pyobj :=
  match read_value (S (String.length s)) s with
  | Some (v, rest) =>
      match skip_space rest with
      | EmptyString => Some v
      | _ => None
      end
  | None => None
  end.

Definition int_of (s : string) : option Z :=
  let body := PyStr.strip s in
  let '(negative, body) :=
    match body with
    | String c s' =>
        if Ascii.eqb c "+" then (false, s')
        else if Ascii.eqb c "-" then (true, s')
        else (false, body)
    | EmptyString => (false, body)
    end in
  match read_digits body 0 false with
  | (n, true, EmptyString) => Some (if negative then - n else n)
  | _ => None
  end.

Definition repr (v : pyobj) : string :=
  match v with
  | PNone => "None"
  | PBool true => "True"
  | PBool false => "False"
  | PInt z => PyStr.of_int z
  | _ => ""
  end.

#[export] Instance runtime : PyRuntime := {|
  json_loads := loads;
  py_repr := repr;
  int_of_text := int_of;
  builtin_message := exn_name
|}.

End SampleRuntime.

(** ** Notions used by the statements *)

Module Spec.

(** The binary64 representation of an integer [0 < z < 2^53]: mantissa and
    exponent. *)
Definition canon_e (z : Z) : Z := Z.log2 z - 52.

Definition canon_m (z : Z) : positive := Z.to_pos (z * 2 ^ (52 - Z.log2 z)).

Definition canon (z : Z) : spec_float := S754_finite false (canon_m z) (canon_e z).

(** The sum of a list of floats, from the left. *)
Definition fsum (l : list float) : float :=
  fold_left (fun acc x => (acc + x)%float) l 0.0%float.

(** The sums the specification names: of the weights looked up for the
    reactions, and of the scores multiplied by them. *)
Definition total_weight (ARCHETYPES : list Agents.AgentArchetype)
    (reactions : list Schemas.AgentReaction) : float :=
  fsum (map (Simulation.weight_of ARCHETYPES) reactions).

Definition weighted_sum (ARCHETYPES : list Agents.AgentArchetype)
    (reactions : list Schemas.AgentReaction) : float :=
  fsum (map (fun r => (PyFloat.float_of_int (Schemas.score r)
                       * Simulation.weight_of ARCHETYPES r)%float) reactions).

(** The weighted mean of the specification:
    [round(sum(score * weight) / sum(weight), 1)]. *)
Definition weighted_mean (ARCHETYPES : list Agents.AgentArchetype)
    (reactions : list Schemas.AgentReaction) : res exn float :=
  q <- PyFloat.truediv (weighted_sum ARCHETYPES reactions)
         (total_weight ARCHETYPES reactions) ;;
  Ok (PyFloat.round1 q).

(** The sentiment the aggregator derives from the two sums. *)
Definition sentiment_of (total_weight weighted_sum : float) : float :=
  if PrimFloat.eqb total_weight 0%float then 50.0%float
  else PyFloat.round1 (weighted_sum / total_weight)%float.

(** Every archetype of the catalogue has the default weight. *)
Definition unit_weights (ARCHETYPES : list Agents.AgentArchetype) : Prop :=
  Forall (fun a => Agents.weight a = 1.0%float) ARCHETYPES.

(** The reactions satisfy the bounds the schema puts on [score]. *)
Definition valid_scores (reactions : list Schemas.AgentReaction) : Prop :=
  Forall (fun r => 0 <= Schemas.score r <= 100) reactions.

Definition score_sum (reactions : list Schemas.AgentReaction) : Z :=
  fold_right (fun r acc => Schemas.score r + acc) 0 reactions.

(** The two reactions the runner substitutes for a failed invocation: after
    an exception of class [cls], and after a reply that does not decode. *)
Definition failure_fallback (archetype_id display_name cls : string)
  : Schemas.AgentReaction :=
  {| Schemas.agent_id := archetype_id; Schemas.display_name := display_name;
     Schemas.stance := "neutral"; Schemas.score := 50;
     Schemas.concerns := ["Agent timed out or failed: " ++ cls];
     Schemas.why := ["Could not generate a reaction in time."];
     Schemas.would_change_mind_if := []; Schemas.proposed_amendments := [];
     Schemas.driver_citations := [] |}.

Definition parse_fallback (archetype_id display_name : string)
  : Schemas.AgentReaction :=
  {| Schemas.agent_id := archetype_id; Schemas.display_name := display_name;
     Schemas.stance := "neutral"; Schemas.score := 50;
     Schemas.concerns := ["Agent response could not be parsed."];
     Schemas.why := ["Response was not valid JSON."];
     Schemas.would_change_mind_if := []; Schemas.proposed_amendments := [];
     Schemas.driver_citations := [] |}.

(** The shape the specification gives the fallback. *)
Definition fallback_shape (archetype_id display_name : string)
    (r : Schemas.AgentReaction) : Prop :=
  Schemas.agent_id r = archetype_id /\ Schemas.display_name r = display_name /\
  Schemas.stance r = "neutral" /\ Schemas.score r = 50 /\
  (exists concern, Schemas.concerns r = [concern] /\ concern <> "") /\
  (exists line, Schemas.why r = [line]) /\
  Schemas.proposed_amendments r = [] /\ Schemas.driver_citations r = [].

(** The invocation of an archetype fails: the service call raises, the reply
    does not decode, or the decoded reply cannot be read as a reaction. *)
Definition invocation_fails {RT : PyRuntime} (archetype_id display_name : string)
    (reply : Backboard.service_reply) : Prop :=
  match reply with
  | Backboard.Raised _ => True
  | Backboard.Delivered raw =>
      match json_loads (Backboard.strip_fences raw) with
      | None => True
      | Some v =>
          exists exc, Simulation._parse_reaction archetype_id display_name v = Err exc
      end
  end.

(** The reaction the task of an archetype ends with. *)
Definition reaction_of {RT : PyRuntime} (env : Simulation.Env)
    (arch : Agents.AgentArchetype) : Schemas.AgentReaction :=
  match Simulation._run_single_agent (Agents.id arch) (Agents.display_name arch)
          (Simulation.env_reply env arch) with
  | Ok r => r
  | Err _ => failure_fallback (Agents.id arch) (Agents.display_name arch) ""
  end.

(** The events of a run, phase by phase. *)
Definition opening_events : list Simulation.event :=
  [ Simulation.Wrote (Simulation.W_status "running");
    Simulation.Wrote (Simulation.W_phase "impacts");
    Simulation.Wrote (Simulation.W_progress 15);
    Simulation.Wrote (Simulation.W_message "Processing impact data...");
    Simulation.Suspended;
    Simulation.Wrote (Simulation.W_phase "agents");
    Simulation.Wrote (Simulation.W_progress 20);
    Simulation.Wrote (Simulation.W_message "Generating stakeholder reactions...") ].

Definition completion_events (total done : Z) : list Simulation.event :=
  [ Simulation.Suspended;
    Simulation.Wrote (Simulation.W_agents_done done);
    Simulation.Wrote (Simulation.W_progress (20 + 70 * done / total));
    Simulation.Wrote
      (Simulation.W_message ("Agent " ++ PyStr.of_int done ++ "/"
                             ++ PyStr.of_int total ++ " complete...")) ].

(** The completions number [first + 1] to [first + count]. *)
Definition fan_in_events (total : Z) (first count : nat) : list Simulation.event :=
  flat_map (fun d => completion_events total (Z.of_nat d)) (seq (S first) count).

Definition aggregate_events : list Simulation.event :=
  [ Simulation.Wrote (Simulation.W_phase "aggregate");
    Simulation.Wrote (Simulation.W_progress 92);
    Simulation.Wrote (Simulation.W_message "Aggregating sentiment...") ].

Definition closing_events (r : Schemas.SimulateResult) : list Simulation.event :=
  [ Simulation.Wrote (Simulation.W_result r);
    Simulation.Wrote (Simulation.W_status "complete");
    Simulation.Wrote (Simulation.W_progress 100);
    Simulation.Wrote (Simulation.W_phase "complete");
    Simulation.Wrote (Simulation.W_message "Simulation complete.") ].

Definition error_events {RT : PyRuntime} (exc : exn) : list Simulation.event :=
  [ Simulation.Wrote (Simulation.W_status "error");
    Simulation.Wrote (Simulation.W_error (exn_str exc));
    Simulation.Wrote (Simulation.W_message ("Error: " ++ exn_str exc)) ].

(** Along a trace, [progress] and [agents_done] never decrease. *)
Fixpoint nondecreasing (job : Simulation.Job) (trace : list Simulation.event) : Prop :=
  match trace with
  | [] => True
  | ev :: trace' =>
      let job' := Simulation.apply_event job ev in
      Simulation.progress job <= Simulation.progress job' /\
      Simulation.agents_done job <= Simulation.agents_done job' /\
      nondecreasing job' trace'
  end.

(** A job that is complete shows a progress of 100. *)
Definition settled (job : Simulation.Job) : Prop :=
  Simulation.status job = "complete" -> Simulation.progress job = 100.

(** The entries of [driver_citations] that become a citation: objects whose
    [value] is a scalar. *)
Definition well_formed_citation (c : pyobj) : bool :=
  match c with
  | PDict cd =>
      match PyObj.get_default "value" (PInt 0) cd with
      | PInt _ | PFloat _ | PStr _ | PBool _ => true
      | PNone | PList _ | PDict _ => false
      end
  | _ => false
  end.

(** The stance read from the value [v] of the response. *)
Definition normal_stance {RT : PyRuntime} (v : pyobj) : string :=
  let stance := PyStr.lower (py_str v) in
  if Simulation.allowed_stance stance then stance else "neutral".

(** On the catalogue, the progress the orchestrator computes in binary64
    is the quotient of the integers rounded down. *)
Definition progress_table (ARCHETYPES : list Agents.AgentArchetype) : Prop :=
  forall d, 1 <= d <= Z.of_nat (List.length ARCHETYPES) ->
            Simulation.agents_progress d (Z.of_nat (List.length ARCHETYPES))
            = Ok (20 + 70 * d / Z.of_nat (List.length ARCHETYPES)).

(** The reactions of a run, in the order of completion. *)
Definition reactions_of {RT : PyRuntime} (env : Simulation.Env)
    (ARCHETYPES : list Agents.AgentArchetype) : list Schemas.AgentReaction :=
  map (reaction_of env)
    (Simulation.as_completed (Simulation.env_picks env) ARCHETYPES).

Definition simulate_result (job : Simulation.Job)
    (reactions : list Schemas.AgentReaction)
    (aggregate : Schemas.AggregateResult) (elapsed_ms : Z) : Schemas.SimulateResult :=
  {| Schemas.impacts := Simulation.impacts job;
     Schemas.agents := reactions;
     Schemas.aggregate := aggregate;
     Schemas.metadata :=
       {| Schemas.model_id := Simulation.model_id job;
          Schemas.run_ms := elapsed_ms;
          Schemas.created_at := Simulation.created_at job |} |}.

(** The events of a run up to the start of aggregation. *)
Definition collected_events (ARCHETYPES : list Agents.AgentArchetype)
  : list Simulation.event :=
  (opening_events
   ++ fan_in_events (Z.of_nat (List.length ARCHETYPES)) 0 (List.length ARCHETYPES)
   ++ aggregate_events)%list.

(** [exec evs m job0]: the computation [m] run after the events [evs] of a
    run that started from [job0]. *)
Definition exec {A : Type} (evs : list Simulation.event) (m : Simulation.Orch A)
    (job0 : Simulation.Job) : list Simulation.event * Simulation.Job * res exn A :=
  let '(t, j, r) := m (Simulation.replay job0 evs) in ((evs ++ t)%list, j, r).

(** A reaction and an archetype with the given identity and score or weight,
    to state examples. *)
Definition reaction (agent_id : string) (score : Z) : Schemas.AgentReaction :=
  {| Schemas.agent_id := agent_id; Schemas.display_name := agent_id;
     Schemas.stance := "neutral"; Schemas.score := score;
     Schemas.concerns := []; Schemas.why := [];
     Schemas.would_change_mind_if := []; Schemas.proposed_amendments := [];
     Schemas.driver_citations := [] |}.

Definition archetype (id : string) (weight : float) : Agents.AgentArchetype :=
  {| Agents.id := id; Agents.display_name := id; Agents.persona_summary := "";
     Agents.priorities := []; Agents.weight := weight |}.

(** The traces a run can leave: the exception came before the fan-in, or
    after it, or the run went through. *)
Inductive run_shape {RT : PyRuntime} (ARCHETYPES : list Agents.AgentArchetype)
    (env : Simulation.Env) (job : Simulation.Job) : list Simulation.event -> Prop :=
| shape_early (exc : exn) :
    run_shape ARCHETYPES env job (opening_events ++ error_events exc)
| shape_late (exc : exn) :
    run_shape ARCHETYPES env job
      (collected_events ARCHETYPES ++ error_events exc)
| shape_complete (agg : Schemas.AggregateResult) (ms : Z) :
    Simulation._aggregate ARCHETYPES (reactions_of env ARCHETYPES)
      (Schemas.deterministic_acceptance (Schemas.scores (Simulation.impacts job)))
    = Ok agg ->
    run_shape ARCHETYPES env job
      (collected_events ARCHETYPES
       ++ closing_events
            (simulate_result job (reactions_of env ARCHETYPES) agg ms)).

(** A job as [create_job] leaves it. *)
Definition fresh (ARCHETYPES : list Agents.AgentArchetype) (job : Simulation.Job)
  : Prop :=
  Simulation.status job = "queued" /\ Simulation.progress job = 0 /\
  Simulation.agents_done job = 0 /\
  Simulation.agents_total job = Z.of_nat (List.length ARCHETYPES) /\
  Simulation.result job = None /\ Simulation.error job = None.

(** What a poll can read while the orchestrator runs. *)
Definition in_flight (job : Simulation.Job) : Prop :=
  Simulation.status job = "running" /\
  15 <= Simulation.progress job <= 90 /\
  0 <= Simulation.agents_done job <= Simulation.agents_total job /\
  Simulation.result job = None /\ Simulation.error job = None.

(** The job a run leaves: complete with its result, or in error with the
    description of the exception. *)
Definition finished_complete {RT : PyRuntime}
    (ARCHETYPES : list Agents.AgentArchetype)
    (env : Simulation.Env) (job final : Simulation.Job) : Prop :=
  Simulation.status final = "complete" /\ Simulation.progress final = 100 /\
  Simulation.phase final = "complete" /\
  Simulation.message final = "Simulation complete." /\
  Simulation.agents_done final = Simulation.agents_total final /\
  Simulation.error final = None /\
  exists agg ms,
    Simulation._aggregate ARCHETYPES (reactions_of env ARCHETYPES)
      (Schemas.deterministic_acceptance (Schemas.scores (Simulation.impacts job)))
    = Ok agg /\
    Simulation.result final
    = Some (simulate_result job (reactions_of env ARCHETYPES) agg ms).

Definition finished_error {RT : PyRuntime} (final : Simulation.Job) : Prop :=
  Simulation.status final = "error" /\ Simulation.result final = None /\
  (Simulation.progress final = 20 /\ Simulation.agents_done final = 0
   \/ Simulation.progress final = 92
      /\ Simulation.agents_done final = Simulation.agents_total final) /\
  exists exc,
    Simulation.error final = Some (exn_str exc) /\
    Simulation.message final = "Error: " ++ exn_str exc.

(** The pairs [(agents_done, progress)] a trace writes one after the other. *)
Fixpoint recomputations (trace : list Simulation.event) : list (Z * Z) :=
  match trace with
  | [] => []
  | Simulation.Wrote (Simulation.W_agents_done d) :: rest =>
      match rest with
      | Simulation.Wrote (Simulation.W_progress p) :: _ =>
          (d, p) :: recomputations rest
      | _ => recomputations rest
      end
  | _ :: rest => recomputations rest
  end.

(** Inputs to run the orchestrator on. *)
Definition sample_building : Schemas.BuildingPayload :=
  {| Schemas.building_id := "b-1"; Schemas.name := "Tower";
     Schemas.type := "residential"; Schemas.description := "";
     Schemas.height_m := 45%float; Schemas.cost_estimate := 0%float |}.

Definition sample_impacts : Schemas.ImpactPayload :=
  {| Schemas.scores :=
       {| Schemas.environmental_sensitivity := 20%float;
          Schemas.infrastructure_strain := 30%float;
          Schemas.livability_proxy := 40%float;
          Schemas.economic_benefit := 60%float;
          Schemas.deterministic_acceptance := 80%float |};
     Schemas.drivers :=
       {| Schemas.d_to_park_m := 9999%float; Schemas.d_to_water_m := 9999%float;
          Schemas.overlap_sensitive_m2 := 0%float;
          Schemas.d_to_major_road_m := 9999%float;
          Schemas.d_to_residential_m := 9999%float;
          Schemas.intensity := 0%float;
          Schemas.center_proximity_score := 0%float |};
     Schemas.flags :=
       {| Schemas.near_sensitive_zone := false; Schemas.near_residential := false;
          Schemas.near_major_road := false |} |}.

Definition sample_job : Simulation.Job :=
  Simulation.create_job Agents.ARCHETYPES "job-1" "2025-01-01T00:00:00+00:00"
    10%float "amazon/nova-micro-v1" sample_building sample_impacts.

(** An environment in which the city planner's call times out, the others
    answer an empty object, and the tasks finish in a shuffled order. *)
Definition sample_env : Simulation.Env :=
  {| Simulation.env_user_message := Ok "facts";
     Simulation.env_system_prompt := fun _ => Ok "persona";
     Simulation.env_reply :=
       fun arch =>
         if String.eqb (Agents.id arch) "city_planner"
         then Backboard.Raised TimeoutError
         else Backboard.Delivered "{}";
     Simulation.env_picks := [3; 1; 4; 1; 5]%nat;
     Simulation.env_monotonic := 12.5%float |}.

(** The same replies, with the tasks finishing in the order of submission. *)
Definition sample_env_in_order : Simulation.Env :=
  {| Simulation.env_user_message := Ok "facts";
     Simulation.env_system_prompt := fun _ => Ok "persona";
     Simulation.env_reply := Simulation.env_reply sample_env;
     Simulation.env_picks := [];
     Simulation.env_monotonic := 12.5%float |}.

(** An environment in which building the user message raises. *)
Definition failing_env : Simulation.Env :=
  {| Simulation.env_user_message := Err (RuntimeError "boom");
     Simulation.env_system_prompt := fun _ => Ok "persona";
     Simulation.env_reply := fun _ => Backboard.Delivered "{}";
     Simulation.env_picks := [];
     Simulation.env_monotonic := 12.5%float |}.

(** [isinstance(v, str)] *)
Definition is_text (v : pyobj) : bool :=
  match v with
  | PStr _ => true
  | _ => false
  end.

(** A reaction written as the object the system prompt asks the model for. *)
Definition encode_citation (c : Schemas.DriverCitation) : pyobj :=
  PDict [("driver", PStr (Schemas.driver c)); ("value", Schemas.value c);
         ("effect", PStr (Schemas.effect c))].

Definition encode_reaction (r : Schemas.AgentReaction) : pyobj :=
  PDict [("agent_id", PStr (Schemas.agent_id r));
         ("display_name", PStr (Schemas.display_name r));
         ("stance", PStr (Schemas.stance r));
         ("score", PInt (Schemas.score r));
         ("concerns", PList (map PStr (Schemas.concerns r)));
         ("why", PList (map PStr (Schemas.why r)));
         ("would_change_mind_if", PList (map PStr (Schemas.would_change_mind_if r)));
         ("proposed_amendments", PList (map PStr (Schemas.proposed_amendments r)));
         ("driver_citations", PList (map encode_citation (Schemas.driver_citations r)))].

(** The values validation stores as they are whatever the order in which it
    tries the members of the union: floats and text. *)
Definition kept_value (v : pyobj) : bool :=
  match v with
  | PFloat _ | PStr _ => true
  | _ => false
  end.

(** A reaction the model may answer with: the score within the bounds of the
    schema, the stance one of the three, the cited values floats or text. *)
Definition expressible (r : Schemas.AgentReaction) : Prop :=
  0 <= Schemas.score r <= 100 /\
  Simulation.allowed_stance (Schemas.stance r) = true /\
  Forall (fun c => kept_value (Schemas.value c) = true) (Schemas.driver_citations r).

(** A field of the decoded reply [d] that makes reading it raise an exception
    of class [cls]: [driver_citations] cannot be iterated, [score] does not
    convert to an integer, or an identity field is not text. *)
Inductive bad_field {RT : PyRuntime} (archetype_id display_name : string)
    (d : list (string * pyobj)) : string -> Prop :=
| bad_citations (exc : exn) :
    PyObj.iter (PyObj.get_default "driver_citations" (PList []) d) = Err exc ->
    bad_field archetype_id display_name d (exn_name exc)
| bad_score (items : list pyobj) (exc : exn) :
    PyObj.iter (PyObj.get_default "driver_citations" (PList []) d) = Ok items ->
    py_int (PyObj.get_default "score" (PInt 50) d) = Err exc ->
    bad_field archetype_id display_name d (exn_name exc)
| bad_identity (items : list pyobj) (z : Z) :
    PyObj.iter (PyObj.get_default "driver_citations" (PList []) d) = Ok items ->
    py_int (PyObj.get_default "score" (PInt 50) d) = Ok z ->
    is_text (PyObj.get_default "agent_id" (PStr archetype_id) d) = false
    \/ is_text (PyObj.get_default "display_name" (PStr display_name) d) = false ->
    bad_field archetype_id display_name d "ValidationError".

(** [s] between double quotes. *)
Definition quoted (s : string) : string :=
  String SampleRuntime.dquote (s ++ String SampleRuntime.dquote "").

(** Replies to run the runner on: a reaction that answers under another
    identity, and a null list of citations. *)
Definition sample_reaction : Schemas.AgentReaction :=
  {| Schemas.agent_id := "someone_else"; Schemas.display_name := "Nobody";
     Schemas.stance := "support"; Schemas.score := 90;
     Schemas.concerns := ["traffic"]; Schemas.why := ["jobs"; "housing"];
     Schemas.would_change_mind_if := []; Schemas.proposed_amendments := ["trees"];
     Schemas.driver_citations :=
       [ {| Schemas.driver := "intensity"; Schemas.value := PStr "high";
            Schemas.effect := "positive" |} ] |}.

Definition sample_reaction_text : string :=
  "{" ++ quoted "agent_id" ++ ": " ++ quoted "someone_else" ++ ", "
  ++ quoted "display_name" ++ ": " ++ quoted "Nobody" ++ ", "
  ++ quoted "stance" ++ ": " ++ quoted "support" ++ ", "
  ++ quoted "score" ++ ": 90, "
  ++ quoted "concerns" ++ ": [" ++ quoted "traffic" ++ "], "
  ++ quoted "why" ++ ": [" ++ quoted "jobs" ++ ", " ++ quoted "housing" ++ "], "
  ++ quoted "would_change_mind_if" ++ ": [], "
  ++ quoted "proposed_amendments" ++ ": [" ++ quoted "trees" ++ "], "
  ++ quoted "driver_citations" ++ ": [{" ++ quoted "driver" ++ ": "
  ++ quoted "intensity" ++ ", " ++ quoted "value" ++ ": " ++ quoted "high" ++ ", "
  ++ quoted "effect" ++ ": " ++ quoted "positive" ++ "}]}".

Definition null_citations_reply : string :=
  "{" ++ quoted "score" ++ ": 80, " ++ quoted "driver_citations" ++ ": null}".

(** [c not in s] *)
Definition lacks (c : ascii) (s : string) : Prop := PyStr.index_char c s = None.

(** A line break, as text. *)
Definition newline_text : string := String PyStr.newline "".

(** [lo] is the first reaction of [reactions] with the lowest score, [hi] the
    last with the highest. *)
Definition first_lowest (lo : Schemas.AgentReaction)
    (reactions : list Schemas.AgentReaction) : Prop :=
  exists before after,
    reactions = (before ++ lo :: after)%list /\
    Forall (fun r => Schemas.score lo < Schemas.score r) before /\
    Forall (fun r => Schemas.score lo <= Schemas.score r) after.

Definition last_highest (hi : Schemas.AgentReaction)
    (reactions : list Schemas.AgentReaction) : Prop :=
  exists before after,
    reactions = (before ++ hi :: after)%list /\
    Forall (fun r => Schemas.score r <= Schemas.score hi) before /\
    Forall (fun r => Schemas.score r < Schemas.score hi) after.

(** The line of the notes that names a reaction. *)
Definition note_for (label : string) (r : Schemas.AgentReaction) : string :=
  label ++ Schemas.display_name r ++ " (" ++ PyStr.of_int (Schemas.score r) ++ ")".

(** The response of the status endpoint for a job in the state [s]. *)
Definition status_of (s : Simulation.Job) : Schemas.SimulateStatus :=
  {| Schemas.status := Simulation.status s;
     Schemas.progress := Simulation.progress s;
     Schemas.phase := Simulation.phase s;
     Schemas.message := Simulation.message s;
     Schemas.partial :=
       Some {| Schemas.agents_done := Simulation.agents_done s;
               Schemas.agents_total := Simulation.agents_total s |} |}.

(** The answer of the result endpoint for a job that has not ended. *)
Definition not_yet_complete : Main.failure :=
  Main.HTTPException 409 "Simulation not yet complete".

(** A request for the sample building with the model [model_id]. *)
Definition sample_request (model_id : string) : Main.SimulateRequest :=
  {| Main.model_id := model_id; Main.building := sample_building;
     Main.impacts := sample_impacts |}.

(** An environment in which every call to the service times out. *)
Definition silent_env : Simulation.Env :=
  {| Simulation.env_user_message := Ok "facts";
     Simulation.env_system_prompt := fun _ => Ok "persona";
     Simulation.env_reply := fun _ => Backboard.Raised TimeoutError;
     Simulation.env_picks := [2; 0; 1]%nat;
     Simulation.env_monotonic := 35.5%float |}.

End Spec.

(** * Properties *)

(** ** Exact arithmetic of binary64 on small integers *)

Lemma iter_pos_nat {A : Type} (f : A -> A) (p : positive) (x : A) :
  iter_pos f p x = Nat.iter (Pos.to_nat p) f x.
Proof.
  revert x. induction p as [p IH | p IH |]; intro x; simpl iter_pos.
  - rewrite !IH, Pos2Nat.inj_xI.
    replace (S (2 * Pos.to_nat p))%nat
      with (Pos.to_nat p + (Pos.to_nat p + 1))%nat by lia.
    rewrite !Nat.iter_add. reflexivity.
  - rewrite !IH, Pos2Nat.inj_xO.
    replace (2 * Pos.to_nat p)%nat with (Pos.to_nat p + Pos.to_nat p)%nat by lia.
    rewrite Nat.iter_add. reflexivity.
  - reflexivity.
Qed.

(** Shifting right the zeros that a shift left appended loses nothing. *)
Lemma shr_1_iter (k : nat) (m : positive) :
  Nat.iter k shr_1 {| shr_m := Zpos (Nat.iter k xO m); shr_r := false; shr_s := false |}
  = {| shr_m := Zpos m; shr_r := false; shr_s := false |}.
Proof.
  induction k as [| k IH]; [reflexivity |].
  rewrite Nat.iter_succ_r. exact IH.
Qed.

Lemma Zpos_iter_xO (k : nat) (m : positive) :
  Zpos (Nat.iter k xO m) = Zpos m * 2 ^ Z.of_nat k.
Proof.
  induction k as [| k IH].
  - simpl. lia.
  - rewrite Nat2Z.inj_succ, Z.pow_succ_r by lia.
    change (Nat.iter (S k) xO m) with (xO (Nat.iter k xO m)).
    rewrite Pos2Z.inj_xO, IH. ring.
Qed.

Lemma digits2_log2 (p : positive) : Zpos (digits2_pos p) = Z.log2 (Zpos p) + 1.
Proof.
  induction p as [p IH | p IH |]; simpl digits2_pos.
  - rewrite Pos2Z.inj_succ, IH, Pos2Z.inj_xI, Z.log2_succ_double by lia. lia.
  - rewrite Pos2Z.inj_succ, IH, Pos2Z.inj_xO, Z.log2_double by lia. lia.
  - reflexivity.
Qed.

(** Rounding [P * 2^x] is exact when it equals [m * 2^e] for a mantissa [m] of
    53 bits and an exponent [e >= x] in range. *)
Lemma round_aux_exact (s : bool) (P m : positive) (x e : Z) :
  Z.log2 (Zpos m) = 52 -> -1074 <= e <= 971 -> x <= e ->
  Zpos P = Zpos m * 2 ^ (e - x) ->
  binary_round_aux prec emax s (Zpos P) x loc_Exact = S754_finite s m e.
Proof.
  intros Hm He Hx HP.
  assert (HPk : P = Nat.iter (Z.to_nat (e - x)) xO m).
  { apply Pos2Z.inj. rewrite Zpos_iter_xO, Z2Nat.id by lia. exact HP. }
  assert (Hd : Zdigits2 (Zpos P) = 53 + (e - x)).
  { simpl Zdigits2. rewrite digits2_log2, HP, Z.log2_mul_pow2 by lia. lia. }
  unfold binary_round_aux, shr_fexp. rewrite Hd.
  replace (fexp prec emax (53 + (e - x) + x) - x) with (e - x)
    by (unfold fexp, emin, prec, emax; lia).
  assert (Hshr : shr (shr_record_of_loc (Zpos P) loc_Exact) x (e - x)
                 = ({| shr_m := Zpos m; shr_r := false; shr_s := false |}, e)).
  { unfold shr. destruct (e - x) as [| p | p] eqn:Hn; try lia.
    - simpl in HPk. subst P. f_equal. lia.
    - rewrite iter_pos_nat. simpl shr_record_of_loc. rewrite HPk.
      rewrite Z2Nat.inj_pos, shr_1_iter. f_equal. lia. }
  rewrite Hshr. simpl shr_m. simpl loc_of_shr_record. simpl round_nearest_even.
  simpl Zdigits2. rewrite digits2_log2, Hm.
  replace (fexp prec emax (52 + 1 + e) - e) with 0
    by (unfold fexp, emin, prec, emax; lia).
  simpl. destruct (e <=? 971) eqn:Hle; [reflexivity | apply Z.leb_gt in Hle; lia].
Qed.

Lemma round_exact (s : bool) (P m : positive) (x e : Z) :
  Z.log2 (Zpos m) = 52 -> -1074 <= e <= 971 ->
  Zpos P * 2 ^ (x - Z.min x e) = Zpos m * 2 ^ (e - Z.min x e) ->
  binary_round prec emax s P x = S754_finite s m e.
Proof.
  intros Hm He HP. unfold binary_round.
  assert (Hfexp : fexp prec emax (Zpos (digits2_pos P) + x) = e).
  { rewrite digits2_log2.
    assert (Hlog : Z.log2 (Zpos P) + (x - Z.min x e) = 52 + (e - Z.min x e)).
    { pose proof (Z.log2_mul_pow2 (Zpos P) (x - Z.min x e) ltac:(lia) ltac:(lia)) as H1.
      pose proof (Z.log2_mul_pow2 (Zpos m) (e - Z.min x e) ltac:(lia) ltac:(lia)) as H2.
      rewrite HP in H1. lia. }
    unfold fexp, emin, prec, emax. lia. }
  rewrite Hfexp. unfold shl_align.
  destruct (e - x) as [| d | d] eqn:Hd.
  - apply round_aux_exact; try assumption; try lia.
    replace (Z.min x e) with x in HP by lia.
    rewrite Z.sub_diag, Z.mul_1_r in HP. exact HP.
  - apply round_aux_exact; try assumption; try lia.
    replace (Z.min x e) with x in HP by lia.
    rewrite Z.sub_diag, Z.mul_1_r in HP. exact HP.
  - replace (Z.min x e) with e in HP by lia.
    rewrite Z.sub_diag, Z.mul_1_r in HP.
    rewrite Pos2Nat.inj_iter.
    change (nat_rect (fun _ => positive) P (fun _ => xO) (Pos.to_nat d))
      with (Nat.iter (Pos.to_nat d) xO P).
    apply round_aux_exact; try assumption; try lia.
    rewrite Z.sub_diag, Z.mul_1_r, Zpos_iter_xO, positive_nat_Z, <- HP.
    f_equal. f_equal. lia.
Qed.

Lemma canon_m_val (z : Z) :
  0 < z < 2 ^ 53 ->
  Zpos (Spec.canon_m z) = z * 2 ^ (52 - Z.log2 z) /\ 0 <= Z.log2 z <= 52.
Proof.
  intros Hz.
  assert (Hl : 0 <= Z.log2 z <= 52).
  { split; [apply Z.log2_nonneg |].
    assert (Z.log2 z < 53) by (apply Z.log2_lt_pow2; lia). lia. }
  split; [| exact Hl].
  unfold Spec.canon_m. rewrite Z2Pos.id; [reflexivity |].
  apply Z.mul_pos_pos; [lia | apply Z.pow_pos_nonneg; lia].
Qed.

Lemma canon_m_log2 (z : Z) : 0 < z < 2 ^ 53 -> Z.log2 (Zpos (Spec.canon_m z)) = 52.
Proof.
  intros Hz. destruct (canon_m_val z Hz) as [Hv Hl].
  rewrite Hv, Z.log2_mul_pow2 by lia. lia.
Qed.

Lemma normalize_canon (z : Z) :
  0 < z < 2 ^ 53 -> binary_normalize prec emax z 0 false = Spec.canon z.
Proof.
  intros Hz. destruct (canon_m_val z Hz) as [Hv Hl].
  destruct z as [| p | p]; try lia. simpl binary_normalize.
  apply round_exact.
  - now apply canon_m_log2.
  - unfold Spec.canon_e. lia.
  - rewrite Hv. unfold Spec.canon_e.
    replace (Z.min 0 (Z.log2 (Z.pos p) - 52)) with (Z.log2 (Z.pos p) - 52) by lia.
    rewrite Z.sub_diag, Z.mul_1_r. f_equal. f_equal. lia.
Qed.

Lemma canon_valid (z : Z) : 0 < z < 2 ^ 53 -> valid_binary (Spec.canon z) = true.
Proof.
  intros Hz. destruct (canon_m_val z Hz) as [Hv Hl].
  unfold Spec.canon, valid_binary, bounded, canonical_mantissa.
  rewrite digits2_log2, canon_m_log2 by assumption.
  unfold Spec.canon_e, fexp, emin, prec, emax.
  apply andb_true_intro. split; [apply Z.eqb_eq | apply Z.leb_le]; lia.
Qed.

Lemma shl_align_val (m : positive) (e ez : Z) :
  ez <= e -> Zpos (fst (shl_align m e ez)) = Zpos m * 2 ^ (e - ez).
Proof.
  intros H. unfold shl_align. destruct (ez - e) as [| d | d] eqn:Hd; try lia.
  - simpl fst. replace (e - ez) with 0 by lia. lia.
  - simpl fst. rewrite Pos2Nat.inj_iter.
    change (nat_rect (fun _ => positive) m (fun _ => xO) (Pos.to_nat d))
      with (Nat.iter (Pos.to_nat d) xO m).
    rewrite Zpos_iter_xO, positive_nat_Z. f_equal. f_equal. lia.
Qed.

(** The sum of two positive integers below [2^53] is computed exactly. *)
Lemma SFadd_canon (a b : Z) :
  0 < a -> 0 < b -> a + b < 2 ^ 53 ->
  SFadd prec emax (Spec.canon a) (Spec.canon b) = Spec.canon (a + b).
Proof.
  intros Ha Hb Hab.
  destruct (canon_m_val a ltac:(lia)) as [Hva Hla].
  destruct (canon_m_val b ltac:(lia)) as [Hvb Hlb].
  destruct (canon_m_val (a + b) ltac:(lia)) as [Hvc Hlc].
  assert (Hmono_a : Z.log2 a <= Z.log2 (a + b)) by (apply Z.log2_le_mono; lia).
  assert (Hmono_b : Z.log2 b <= Z.log2 (a + b)) by (apply Z.log2_le_mono; lia).
  unfold Spec.canon at 1 2. unfold SFadd. cbv zeta.
  set (ez := Z.min (Spec.canon_e a) (Spec.canon_e b)).
  unfold cond_Zopp.
  rewrite !shl_align_val by (unfold ez; lia).
  rewrite Hva, Hvb.
  assert (Hsum : a * 2 ^ (52 - Z.log2 a) * 2 ^ (Spec.canon_e a - ez)
                 + b * 2 ^ (52 - Z.log2 b) * 2 ^ (Spec.canon_e b - ez)
                 = (a + b) * 2 ^ (- ez)).
  { rewrite <- !Z.mul_assoc, <- !Z.pow_add_r by (unfold ez, Spec.canon_e; lia).
    replace (52 - Z.log2 a + (Spec.canon_e a - ez)) with (- ez)
      by (unfold Spec.canon_e; lia).
    replace (52 - Z.log2 b + (Spec.canon_e b - ez)) with (- ez)
      by (unfold Spec.canon_e; lia).
    ring. }
  rewrite Hsum.
  assert (Hpos : 0 < (a + b) * 2 ^ (- ez)).
  { apply Z.mul_pos_pos; [lia | apply Z.pow_pos_nonneg; unfold ez, Spec.canon_e; lia]. }
  destruct ((a + b) * 2 ^ (- ez)) as [| S | S] eqn:HS; try lia.
  simpl binary_normalize. apply round_exact.
  - apply canon_m_log2; lia.
  - unfold Spec.canon_e; lia.
  - replace (Z.min ez (Spec.canon_e (a + b))) with ez
      by (unfold ez, Spec.canon_e; lia).
    rewrite Z.sub_diag, Z.mul_1_r, <- HS, Hvc.
    rewrite <- Z.mul_assoc, <- Z.pow_add_r by (unfold ez, Spec.canon_e; lia).
    f_equal. f_equal. unfold Spec.canon_e. lia.
Qed.

Lemma float_of_int_pos (z : Z) :
  0 < z < 2 ^ 53 -> Prim2SF (PyFloat.float_of_int z) = Spec.canon z.
Proof.
  intros Hz. unfold PyFloat.float_of_int.
  rewrite normalize_canon by assumption.
  apply Prim2SF_SF2Prim, canon_valid; assumption.
Qed.

Lemma float_of_int_add (a b : Z) :
  0 <= a -> 0 <= b -> a + b < 2 ^ 53 ->
  (PyFloat.float_of_int a + PyFloat.float_of_int b)%float
  = PyFloat.float_of_int (a + b).
Proof.
  intros Ha Hb Hab.
  apply Prim2SF_inj. rewrite add_spec.
  destruct (Z.eq_dec a 0) as [-> | Ha0]; [| destruct (Z.eq_dec b 0) as [-> | Hb0]].
  - change (Prim2SF (PyFloat.float_of_int 0)) with (S754_zero false).
    rewrite Z.add_0_l.
    destruct (Z.eq_dec b 0) as [-> | Hb0]; [reflexivity |].
    rewrite float_of_int_pos by lia. reflexivity.
  - change (Prim2SF (PyFloat.float_of_int 0)) with (S754_zero false).
    rewrite Z.add_0_r, float_of_int_pos by lia. reflexivity.
  - rewrite !float_of_int_pos by lia. apply SFadd_canon; lia.
Qed.

Lemma float_of_int_mul_one (s : Z) :
  0 <= s < 2 ^ 53 ->
  (PyFloat.float_of_int s * 1.0)%float = PyFloat.float_of_int s.
Proof.
  intros Hs. apply Prim2SF_inj. rewrite mul_spec.
  change (Prim2SF 1.0%float) with (S754_finite false 4503599627370496 (-52)).
  destruct (Z.eq_dec s 0) as [-> | Hs0]; [reflexivity |].
  rewrite float_of_int_pos by lia.
  destruct (canon_m_val s ltac:(lia)) as [Hv Hl].
  unfold Spec.canon at 1. unfold SFmul. simpl xorb.
  apply round_aux_exact.
  - apply canon_m_log2; lia.
  - unfold Spec.canon_e; lia.
  - lia.
  - rewrite Pos2Z.inj_mul. f_equal.
    replace (Spec.canon_e s - (Spec.canon_e s + -52)) with 52 by lia. reflexivity.
Qed.

(** ** The aggregator *)

Lemma float_neq (x y : float) : Prim2SF x <> Prim2SF y -> x <> y.
Proof. intros H E. apply H. now rewrite E. Qed.

Lemma fold_accumulate ARCHETYPES rs acc :
  fold_left (Simulation.accumulate ARCHETYPES) rs acc
  = (fold_left (fun a x => (a + x)%float)
       (map (Simulation.weight_of ARCHETYPES) rs) (fst acc),
     fold_left (fun a x => (a + x)%float)
       (map (fun r => (PyFloat.float_of_int (Schemas.score r)
                       * Simulation.weight_of ARCHETYPES r)%float) rs) (snd acc)).
Proof.
  revert acc. induction rs as [| r rs IH]; intros [t w]; [reflexivity |].
  simpl fold_left. rewrite IH. reflexivity.
Qed.

(** The loop of [_aggregate] computes the two sums of the specification. *)
Lemma weigh_sums ARCHETYPES rs :
  Simulation.weigh ARCHETYPES rs
  = (Spec.total_weight ARCHETYPES rs, Spec.weighted_sum ARCHETYPES rs).
Proof. unfold Simulation.weigh. rewrite fold_accumulate. reflexivity. Qed.

Lemma aggregate_nonempty ARCHETYPES rs det :
  rs <> [] ->
  exists notes,
    Simulation._aggregate ARCHETYPES rs det
    = Ok {| Schemas.sentiment_score :=
              Spec.sentiment_of (Spec.total_weight ARCHETYPES rs)
                (Spec.weighted_sum ARCHETYPES rs);
            Schemas.final_score :=
              Simulation.blend det
                (Spec.sentiment_of (Spec.total_weight ARCHETYPES rs)
                   (Spec.weighted_sum ARCHETYPES rs));
            Schemas.notes := notes |}.
Proof.
  intros Hne. destruct rs as [| r rs]; [congruence |].
  unfold Simulation._aggregate. rewrite weigh_sums.
  unfold Spec.sentiment_of, PyFloat.truthy, PyFloat.truediv.
  destruct (PrimFloat.eqb (Spec.total_weight ARCHETYPES (r :: rs)) 0) eqn:Hz;
    simpl; eexists; reflexivity.
Qed.

Lemma aggregate_total ARCHETYPES rs det :
  exists a, Simulation._aggregate ARCHETYPES rs det = Ok a.
Proof.
  destruct rs as [| r rs]; [eexists; reflexivity |].
  destruct (aggregate_nonempty ARCHETYPES (r :: rs) det ltac:(discriminate)) as [n Hn].
  eexists; exact Hn.
Qed.

(** C1, as stated, fails on the empty list: the aggregator returns the
    deterministic score 80 unchanged, where the blend with the default
    sentiment 50 is 71. *)
Lemma C1_empty_list_counterexample :
  ~ (forall ARCHETYPES rs det, exists a,
       Simulation._aggregate ARCHETYPES rs det = Ok a /\
       Schemas.final_score a
       = PyFloat.round1 (Config.ALPHA * det
                         + (1 - Config.ALPHA) * Schemas.sentiment_score a)%float).
Proof.
  intros H. destruct (H Agents.ARCHETYPES [] 80%float) as (a & Ha & Hf).
  simpl in Ha. injection Ha as <-. simpl in Hf.
  revert Hf. apply float_neq. vm_compute. discriminate.
Qed.

(** C1 (amended): for every non-empty list of reactions and every
    deterministic acceptance score the aggregator returns
    [final_score = round(ALPHA * deterministic_acceptance
                         + (1 - ALPHA) * sentiment_score, 1)]
    with [ALPHA = 0.7]; for the scores 80 and 40 the blend is exactly 68.0,
    as in the aggregation of one reaction of score 40; on the empty list the
    deterministic score is returned unchanged. *)
Theorem C1_final_score_blend :
  (forall ARCHETYPES rs det, rs <> [] ->
     exists a, Simulation._aggregate ARCHETYPES rs det = Ok a /\
       Schemas.final_score a
       = PyFloat.round1 (Config.ALPHA * det
                         + (1 - Config.ALPHA) * Schemas.sentiment_score a)%float)
  /\ Config.ALPHA = 0.7%float
  /\ Simulation.blend 80 40 = 68.0%float
  /\ (exists a,
        Simulation._aggregate Agents.ARCHETYPES [Spec.reaction "city_planner" 40] 80
        = Ok a
        /\ Schemas.sentiment_score a = 40.0%float
        /\ Schemas.final_score a = 68.0%float)
  /\ (forall ARCHETYPES det, exists a,
        Simulation._aggregate ARCHETYPES [] det = Ok a
        /\ Schemas.sentiment_score a = 50%float
        /\ Schemas.final_score a = det).
Proof.
  split; [| split; [reflexivity | split; [reflexivity | split]]].
  - intros ARCHETYPES rs det Hne.
    destruct (aggregate_nonempty ARCHETYPES rs det Hne) as [n Hn].
    eexists. split; [exact Hn | reflexivity].
  - eexists. split; [vm_compute; reflexivity | split; reflexivity].
  - intros ARCHETYPES det. eexists. split; [reflexivity | split; reflexivity].
Qed.

Lemma C1_final_score_blend_witness :
  exists a,
    Simulation._aggregate Agents.ARCHETYPES [Spec.reaction "city_planner" 40] 80
    = Ok a /\
    Schemas.final_score a
    = PyFloat.round1 (Config.ALPHA * 80
                      + (1 - Config.ALPHA) * Schemas.sentiment_score a)%float.
Proof.
  apply (proj1 C1_final_score_blend). discriminate.
Defined.

(** C5, as stated, fails on a non-empty list whose weights sum to zero: the
    weighted mean does not exist (the division raises) and the aggregator
    returns 50.0. *)
Lemma C5_zero_weight_counterexample :
  ~ (forall ARCHETYPES rs det, rs <> [] ->
       exists a, Simulation._aggregate ARCHETYPES rs det = Ok a /\
                 Spec.weighted_mean ARCHETYPES rs = Ok (Schemas.sentiment_score a)).
Proof.
  intros H.
  destruct (H [Spec.archetype "city_planner" 0%float]
              [Spec.reaction "city_planner" 100]
              80%float ltac:(discriminate)) as (a & _ & Hm).
  vm_compute in Hm. discriminate.
Qed.

(** C5 (amended): for every non-empty list of reactions whose looked-up
    weights do not sum to zero, [sentiment_score] is the weighted mean
    [round(sum(score_i * weight_i) / sum(weight_i), 1)], where [weight_i] is
    the weight of the first archetype whose id is the reaction's [agent_id]
    and 1.0 when there is none; scores 100 and 0 with weights 2 and 1 give
    66.7. *)
Theorem C5_sentiment_weighted_mean :
  (forall ARCHETYPES rs det,
     rs <> [] -> PrimFloat.eqb (Spec.total_weight ARCHETYPES rs) 0%float = false ->
     exists a, Simulation._aggregate ARCHETYPES rs det = Ok a /\
               Spec.weighted_mean ARCHETYPES rs = Ok (Schemas.sentiment_score a))
  /\ (forall ARCHETYPES r,
        Simulation.weight_of ARCHETYPES r
        = match find (fun a => String.eqb (Agents.id a) (Schemas.agent_id r))
                  ARCHETYPES with
          | Some arch => Agents.weight arch
          | None => 1.0%float
          end)
  /\ (forall det, exists a,
        Simulation._aggregate
          [Spec.archetype "a" 2%float; Spec.archetype "b" 1%float]
          [Spec.reaction "a" 100; Spec.reaction "b" 0] det = Ok a
        /\ Schemas.sentiment_score a = 66.7%float).
Proof.
  split; [| split].
  - intros ARCHETYPES rs det Hne Hnz.
    destruct (aggregate_nonempty ARCHETYPES rs det Hne) as [n Hn].
    eexists. split; [exact Hn |].
    unfold Spec.weighted_mean, PyFloat.truediv, Spec.sentiment_of.
    rewrite Hnz. reflexivity.
  - reflexivity.
  - intros det.
    destruct (aggregate_nonempty
                [Spec.archetype "a" 2%float; Spec.archetype "b" 1%float]
                [Spec.reaction "a" 100; Spec.reaction "b" 0] det
                ltac:(discriminate)) as [n Hn].
    eexists. split; [exact Hn |]. vm_compute. reflexivity.
Qed.

Lemma C5_sentiment_weighted_mean_witness :
  exists a,
    Simulation._aggregate [Spec.archetype "a" 2%float; Spec.archetype "b" 1%float]
      [Spec.reaction "a" 100; Spec.reaction "b" 0] 55%float = Ok a /\
    Spec.weighted_mean [Spec.archetype "a" 2%float; Spec.archetype "b" 1%float]
      [Spec.reaction "a" 100; Spec.reaction "b" 0] = Ok (Schemas.sentiment_score a).
Proof.
  apply (proj1 C5_sentiment_weighted_mean); [discriminate | vm_compute; reflexivity].
Defined.

(** C10: the aggregator returns a result on every input, so the division is
    never applied to a zero divisor; on a non-empty list whose looked-up
    weights sum to zero [sentiment_score] is 50.0 and [final_score] is the
    blend of the deterministic score with 50.0. *)
Theorem C10_aggregate_total_zero_weight :
  forall ARCHETYPES rs det,
    exists a, Simulation._aggregate ARCHETYPES rs det = Ok a /\
      (rs <> [] ->
       PrimFloat.eqb (Spec.total_weight ARCHETYPES rs) 0%float = true ->
       Schemas.sentiment_score a = 50.0%float /\
       Schemas.final_score a
       = PyFloat.round1 (Config.ALPHA * det + (1 - Config.ALPHA) * 50.0)%float).
Proof.
  intros ARCHETYPES rs det.
  destruct rs as [| r rs].
  - eexists. split; [reflexivity | congruence].
  - destruct (aggregate_nonempty ARCHETYPES (r :: rs) det ltac:(discriminate))
      as [n Hn].
    eexists. split; [exact Hn |]. intros _ Hz. simpl.
    unfold Spec.sentiment_of. rewrite Hz. split; reflexivity.
Qed.

Lemma weight_of_unit ARCHETYPES r :
  Spec.unit_weights ARCHETYPES -> Simulation.weight_of ARCHETYPES r = 1.0%float.
Proof.
  intros H. unfold Simulation.weight_of, Simulation.find_archetype.
  destruct (find _ ARCHETYPES) as [a |] eqn:Hf; [| reflexivity].
  apply find_some in Hf. destruct Hf as [Hin _].
  unfold Spec.unit_weights in H. rewrite Forall_forall in H. now apply H.
Qed.

Lemma score_sum_bounds rs :
  Spec.valid_scores rs ->
  0 <= Spec.score_sum rs <= 100 * Z.of_nat (List.length rs).
Proof.
  induction 1 as [| r rs Hr _ IH]; simpl Spec.score_sum; simpl List.length; [lia |].
  rewrite Nat2Z.inj_succ. lia.
Qed.

(** With unit weights the loop counts the reactions and adds their scores,
    without rounding. *)
Lemma fold_accumulate_unit ARCHETYPES rs n t :
  Spec.unit_weights ARCHETYPES -> Spec.valid_scores rs ->
  0 <= n -> 0 <= t ->
  n + Z.of_nat (List.length rs) < 2 ^ 53 ->
  t + 100 * Z.of_nat (List.length rs) < 2 ^ 53 ->
  fold_left (Simulation.accumulate ARCHETYPES) rs
    (PyFloat.float_of_int n, PyFloat.float_of_int t)
  = (PyFloat.float_of_int (n + Z.of_nat (List.length rs)),
     PyFloat.float_of_int (t + Spec.score_sum rs)).
Proof.
  intros Hw Hv. revert n t.
  induction Hv as [| r rs Hr Hv IH]; intros n t Hn Ht Hnb Htb.
  - simpl. now rewrite !Z.add_0_r.
  - simpl List.length in *. rewrite Nat2Z.inj_succ in *.
    pose proof (score_sum_bounds rs Hv) as Hb.
    simpl fold_left. unfold Simulation.accumulate at 2. simpl fst. simpl snd.
    rewrite weight_of_unit by assumption.
    rewrite float_of_int_mul_one by lia.
    change 1.0%float with (PyFloat.float_of_int 1).
    rewrite !float_of_int_add by lia.
    rewrite IH by lia.
    simpl Spec.score_sum. f_equal; f_equal; lia.
Qed.

Lemma weigh_unit ARCHETYPES rs :
  Spec.unit_weights ARCHETYPES -> Spec.valid_scores rs ->
  Z.of_nat (List.length rs) <= 2 ^ 46 ->
  Simulation.weigh ARCHETYPES rs
  = (PyFloat.float_of_int (Z.of_nat (List.length rs)),
     PyFloat.float_of_int (Spec.score_sum rs)).
Proof.
  intros Hw Hv Hlen. unfold Simulation.weigh.
  change (0.0%float, 0.0%float)
    with (PyFloat.float_of_int 0, PyFloat.float_of_int 0).
  assert (2 ^ 46 * 100 < 2 ^ 53) by (vm_compute; reflexivity).
  rewrite fold_accumulate_unit by (assumption || lia).
  reflexivity.
Qed.

Lemma score_sum_perm rs rs' :
  Permutation rs rs' -> Spec.score_sum rs = Spec.score_sum rs'.
Proof. induction 1; simpl; lia. Qed.

Lemma valid_scores_perm rs rs' :
  Permutation rs rs' -> Spec.valid_scores rs -> Spec.valid_scores rs'.
Proof. intros Hp Hv. unfold Spec.valid_scores in *. now rewrite <- Hp. Qed.

(** C9, as stated, fails once the weights are not all 1.0: with the weights
    0.1, 0.3 and 0.4 and the scores 2, 0 and 0, the order (a, b, c) gives the
    sentiment 0.2 and the order (b, c, a) gives 0.3, because the float sum of
    the weights is 0.8 in the first order and 0.7999999999999999 in the
    second. *)
Lemma C9_float_sum_counterexample :
  ~ (forall ARCHETYPES rs rs' det a a',
       Permutation rs rs' ->
       Simulation._aggregate ARCHETYPES rs det = Ok a ->
       Simulation._aggregate ARCHETYPES rs' det = Ok a' ->
       Schemas.sentiment_score a = Schemas.sentiment_score a' /\
       Schemas.final_score a = Schemas.final_score a').
Proof.
  intros H.
  pose (A := [Spec.archetype "a" 0.1%float; Spec.archetype "b" 0.3%float;
              Spec.archetype "c" 0.4%float]).
  pose (ra := Spec.reaction "a" 2). pose (rb := Spec.reaction "b" 0).
  pose (rc := Spec.reaction "c" 0).
  destruct (aggregate_nonempty A [ra; rb; rc] 0%float ltac:(discriminate))
    as [n Hn].
  destruct (aggregate_nonempty A [rb; rc; ra] 0%float ltac:(discriminate))
    as [n' Hn'].
  assert (Hp : Permutation [ra; rb; rc] [rb; rc; ra]).
  { change [rb; rc; ra] with ([rb; rc] ++ [ra])%list.
    apply (Permutation_cons_app [rb; rc] [] ra). rewrite app_nil_r. reflexivity. }
  destruct (H A _ _ _ _ _ Hp Hn Hn') as [Hs _].
  revert Hs. apply float_neq. vm_compute. discriminate.
Qed.

(** C9 (amended): when every archetype has the weight 1.0, as in the shipped
    catalogue, aggregation is order-independent: for every list of at most
    2^46 reactions with scores in [0, 100] and every permutation of it, the
    two aggregations return the same [sentiment_score] and the same
    [final_score]. *)
Theorem C9_order_independent_unit_weights :
  Spec.unit_weights Agents.ARCHETYPES /\
  forall ARCHETYPES rs rs' det,
    Spec.unit_weights ARCHETYPES -> Spec.valid_scores rs ->
    Z.of_nat (List.length rs) <= 2 ^ 46 ->
    Permutation rs rs' ->
    exists a a',
      Simulation._aggregate ARCHETYPES rs det = Ok a /\
      Simulation._aggregate ARCHETYPES rs' det = Ok a' /\
      Schemas.sentiment_score a = Schemas.sentiment_score a' /\
      Schemas.final_score a = Schemas.final_score a'.
Proof.
  split; [repeat constructor |].
  intros ARCHETYPES rs rs' det Hw Hv Hlen Hp.
  destruct rs as [| r rs].
  - apply Permutation_nil in Hp. subst rs'. do 2 eexists. repeat split; reflexivity.
  - assert (Hne' : rs' <> []).
    { intros ->. apply Permutation_sym, Permutation_nil in Hp. discriminate. }
    destruct (aggregate_nonempty ARCHETYPES (r :: rs) det ltac:(discriminate))
      as [n Hn].
    destruct (aggregate_nonempty ARCHETYPES rs' det Hne') as [n' Hn'].
    assert (Hsame : Simulation.weigh ARCHETYPES (r :: rs)
                    = Simulation.weigh ARCHETYPES rs').
    { rewrite (weigh_unit ARCHETYPES (r :: rs)) by assumption.
      rewrite (weigh_unit ARCHETYPES rs').
      - now rewrite (Permutation_length Hp), (score_sum_perm _ _ Hp).
      - assumption.
      - now apply (valid_scores_perm _ _ Hp).
      - now rewrite <- (Permutation_length Hp). }
    rewrite !weigh_sums in Hsame. injection Hsame as Ht Hs.
    do 2 eexists. split; [exact Hn | split; [exact Hn' |]].
    simpl. rewrite Ht, Hs. split; reflexivity.
Qed.

Lemma C9_order_independent_unit_weights_witness :
  exists a a',
    Simulation._aggregate Agents.ARCHETYPES
      [Spec.reaction "city_planner" 70; Spec.reaction "student_renter" 35]
      61%float = Ok a /\
    Simulation._aggregate Agents.ARCHETYPES
      [Spec.reaction "student_renter" 35; Spec.reaction "city_planner" 70]
      61%float = Ok a' /\
    Schemas.sentiment_score a = Schemas.sentiment_score a' /\
    Schemas.final_score a = Schemas.final_score a'.
Proof.
  apply (proj2 C9_order_independent_unit_weights).
  - exact (proj1 C9_order_independent_unit_weights).
  - repeat constructor; simpl; lia.
  - simpl. lia.
  - apply perm_swap.
Defined.

(** ** The agent runner *)

Section Runner.
Context {RT : PyRuntime}.

Lemma run_single_agent_cases (aid dn : string) (reply : Backboard.service_reply) :
  Simulation._run_single_agent aid dn reply
  = match (raw <- Backboard.one_shot reply ;; Simulation._parse_reaction aid dn raw) with
    | Ok r => Ok r
    | Err exc => Ok (Spec.failure_fallback aid dn (exn_name exc))
    end.
Proof.
  unfold Simulation._run_single_agent.
  destruct (raw <- Backboard.one_shot reply ;; Simulation._parse_reaction aid dn raw);
    reflexivity.
Qed.

Lemma run_single_agent_total (aid dn : string) (reply : Backboard.service_reply) :
  exists r, Simulation._run_single_agent aid dn reply = Ok r.
Proof.
  rewrite run_single_agent_cases.
  destruct (raw <- Backboard.one_shot reply ;; Simulation._parse_reaction aid dn raw);
    eexists; reflexivity.
Qed.

Lemma parse_reaction_parse_error (aid dn raw : string) :
  Simulation._parse_reaction aid dn (Backboard.parse_error_dict raw)
  = Ok (Spec.parse_fallback aid dn).
Proof. reflexivity. Qed.

Lemma run_single_agent_failure (aid dn : string) (reply : Backboard.service_reply) :
  Spec.invocation_fails aid dn reply ->
  exists r, Simulation._run_single_agent aid dn reply = Ok r /\
            Spec.fallback_shape aid dn r.
Proof.
  intros Hf. rewrite run_single_agent_cases.
  destruct reply as [e | raw]; simpl in *.
  - eexists. split; [reflexivity |].
    unfold Spec.fallback_shape. simpl. repeat split; eauto.
    eexists. split; [reflexivity | discriminate].
  - destruct (json_loads (Backboard.strip_fences raw)) as [v |]; simpl.
    + destruct Hf as [exc Hexc]. rewrite Hexc.
      eexists. split; [reflexivity |].
      unfold Spec.fallback_shape. simpl. repeat split; eauto.
      eexists. split; [reflexivity | discriminate].
    + eexists. split; [reflexivity |].
      unfold Spec.fallback_shape. simpl. repeat split; eauto.
      eexists. split; [reflexivity | discriminate].
Qed.


Lemma citation_of_well_formed (c : pyobj) :
  Simulation.citation_of c <> [] <-> Spec.well_formed_citation c = true.
Proof.
  unfold Simulation.citation_of, Spec.well_formed_citation.
  destruct c as [| b | z | x | s | l | cd]; simpl; try (split; [congruence | discriminate]).
  unfold Schemas.new_DriverCitation.
  destruct (PyObj.get_default "value" (PInt 0) cd); simpl;
    split; congruence || discriminate.
Qed.

Lemma flat_map_nonempty {A B : Type} (f : A -> list B) (l : list A) :
  flat_map f l <> [] <-> exists x, In x l /\ f x <> [].
Proof.
  induction l as [| a l IH]; simpl.
  - split; [congruence | intros (x & [] & _)].
  - split.
    + intros H. destruct (f a) eqn:Hfa.
      * simpl in H. apply IH in H. destruct H as (x & Hin & Hx). eauto.
      * exists a. split; [now left | congruence].
    + intros (x & [-> | Hin] & Hx) Happ; apply app_eq_nil in Happ; destruct Happ as [H1 H2].
      * contradiction.
      * apply (proj2 IH); eauto.
Qed.

(** What [_parse_reaction] returns on a dict without the parse-error mark. *)
Lemma parse_reaction_inv (aid dn : string) (d : list (string * pyobj))
    (r : Schemas.AgentReaction) :
  PyObj.truthy (PyObj.get_default "_parse_error" PNone d) = false ->
  Simulation._parse_reaction aid dn (PDict d) = Ok r ->
  exists items z,
    PyObj.iter (PyObj.get_default "driver_citations" (PList []) d) = Ok items /\
    py_int (PyObj.get_default "score" (PInt 50) d) = Ok z /\
    Schemas.score r = Z.max 0 (Z.min 100 z) /\
    Schemas.stance r = Spec.normal_stance (PyObj.get_default "stance" (PStr "neutral") d) /\
    Schemas.driver_citations r = flat_map Simulation.citation_of items.
Proof.
  intros Ht H. unfold Simulation._parse_reaction in H. simpl in H. rewrite Ht in H.
  destruct (PyObj.iter _) as [items | e]; simpl in H; [| discriminate].
  destruct (py_int _) as [z | e]; simpl in H; [| discriminate].
  unfold Schemas.new_AgentReaction in H.
  destruct (Schemas.validate_str (PyObj.get_default "agent_id" _ d)) as [a |]; simpl in H;
    [| discriminate].
  destruct (Schemas.validate_str (PyObj.get_default "display_name" _ d)) as [n |]; simpl in H;
    [| discriminate].
  destruct ((0 <=? Z.max 0 (Z.min 100 z)) && (Z.max 0 (Z.min 100 z) <=? 100)); [| discriminate].
  injection H as <-. exists items, z. simpl. repeat split; reflexivity.
Qed.

Lemma normal_stance_allowed (v : pyobj) :
  Simulation.allowed_stance (Spec.normal_stance v) = true.
Proof.
  unfold Spec.normal_stance.
  destruct (Simulation.allowed_stance (PyStr.lower (py_str v))) eqn:H; [exact H | reflexivity].
Qed.

Lemma parse_reaction_normalised (aid dn : string) (raw : pyobj) (r : Schemas.AgentReaction) :
  Simulation._parse_reaction aid dn raw = Ok r ->
  0 <= Schemas.score r <= 100 /\ Simulation.allowed_stance (Schemas.stance r) = true.
Proof.
  intros H. destruct raw as [| b | z | x | s | l | d]; try discriminate.
  destruct (PyObj.truthy (PyObj.get_default "_parse_error" PNone d)) eqn:Ht.
  - unfold Simulation._parse_reaction in H. simpl in H. rewrite Ht in H.
    injection H as <-. simpl. split; [lia | reflexivity].
  - destruct (parse_reaction_inv aid dn d r Ht H) as (items & z & _ & _ & Hs & Hst & _).
    rewrite Hs, Hst. split; [lia | apply normal_stance_allowed].
Qed.

End Runner.

(** ** The orchestrator *)

Lemma progress_table_shipped (d : Z) :
  1 <= d <= 6 ->
  Simulation.agents_progress d 6 = Ok (20 + 70 * d / 6).
Proof.
  intros H.
  assert (Hd : d = 1 \/ d = 2 \/ d = 3 \/ d = 4 \/ d = 5 \/ d = 6) by lia.
  destruct Hd as [-> | [-> | [-> | [-> | [-> | ->]]]]]; vm_compute; reflexivity.
Qed.

Lemma remove_nth_map {S T : Type} (f : S -> T) (n : nat) (l : list S) :
  Simulation.remove_nth n (map f l) = map f (Simulation.remove_nth n l).
Proof.
  revert n. induction l as [| x l IH]; intros [| n]; simpl; try reflexivity.
  now rewrite IH.
Qed.

Lemma as_completed_fuel_map {S T : Type} (f : S -> T) (fuel : nat) (picks : list nat)
    (l : list S) :
  Simulation.as_completed_fuel fuel picks (map f l)
  = map f (Simulation.as_completed_fuel fuel picks l).
Proof.
  revert picks l. induction fuel as [| fuel IH]; intros picks [| x l]; try reflexivity.
  cbn [Simulation.as_completed_fuel map].
  change (f x :: map f l) with (map f (x :: l)).
  rewrite length_map, remove_nth_map, IH, (map_nth f). reflexivity.
Qed.

Lemma as_completed_map {S T : Type} (f : S -> T) (picks : list nat) (l : list S) :
  Simulation.as_completed picks (map f l) = map f (Simulation.as_completed picks l).
Proof.
  unfold Simulation.as_completed. rewrite length_map. apply as_completed_fuel_map.
Qed.

Lemma remove_nth_perm {T : Type} (n : nat) (l : list T) (d : T) :
  (n < List.length l)%nat ->
  Permutation (nth n l d :: Simulation.remove_nth n l) l.
Proof.
  revert n. induction l as [| x l IH]; intros [| n] H; simpl in *; try lia.
  - reflexivity.
  - rewrite perm_swap. apply perm_skip, IH. lia.
Qed.

Lemma remove_nth_length {T : Type} (n : nat) (l : list T) :
  (n < List.length l)%nat ->
  List.length (Simulation.remove_nth n l) = pred (List.length l).
Proof.
  revert n. induction l as [| x l IH]; intros [| n] H; simpl in *; try lia.
  rewrite IH by lia. lia.
Qed.

Lemma as_completed_fuel_perm {T : Type} (fuel : nat) (picks : list nat) (l : list T) :
  List.length l = fuel ->
  Permutation (Simulation.as_completed_fuel fuel picks l) l.
Proof.
  revert picks l. induction fuel as [| fuel IH]; intros picks [| x l] H;
    simpl in H; try discriminate; [reflexivity |].
  cbn [Simulation.as_completed_fuel].
  set (k := (hd 0%nat picks mod List.length (x :: l))%nat).
  assert (Hk : (k < List.length (x :: l))%nat)
    by (apply Nat.mod_upper_bound; simpl; lia).
  rewrite IH.
  - apply remove_nth_perm, Hk.
  - rewrite remove_nth_length by exact Hk. simpl. lia.
Qed.

(** The tasks are handed back in some order, each exactly once. *)
Lemma as_completed_perm {T : Type} (picks : list nat) (l : list T) :
  Permutation (Simulation.as_completed picks l) l.
Proof. now apply as_completed_fuel_perm. Qed.

Lemma replay_app (job : Simulation.Job) (t1 t2 : list Simulation.event) :
  Simulation.replay job (t1 ++ t2) = Simulation.replay (Simulation.replay job t1) t2.
Proof. apply fold_left_app. Qed.

Lemma fan_in_events_step (total : Z) (first count : nat) :
  Spec.fan_in_events total first (S count)
  = (Spec.completion_events total (Z.of_nat (S first))
     ++ Spec.fan_in_events total (S first) count)%list.
Proof. reflexivity. Qed.

Section Orchestrator.
Context {RT : PyRuntime}.

Lemma run_single_agent_reaction_of (env : Simulation.Env) (arch : Agents.AgentArchetype) :
  Simulation._run_single_agent (Agents.id arch) (Agents.display_name arch)
    (Simulation.env_reply env arch) = Ok (Spec.reaction_of env arch).
Proof.
  unfold Spec.reaction_of, Simulation._run_single_agent.
  destruct (raw <- Backboard.one_shot (Simulation.env_reply env arch) ;;
            Simulation._parse_reaction (Agents.id arch) (Agents.display_name arch) raw);
    reflexivity.
Qed.

Lemma make_tasks_ok (env : Simulation.Env) (archetypes : list Agents.AgentArchetype)
    (tasks : list (res exn Schemas.AgentReaction)) :
  Simulation.make_tasks env archetypes = Ok tasks ->
  tasks = map (fun arch => Ok (Spec.reaction_of env arch)) archetypes.
Proof.
  revert tasks. induction archetypes as [| arch rest IH]; intros tasks H; simpl in H.
  - now injection H as <-.
  - destruct (Simulation.env_system_prompt env arch); simpl in H; [| discriminate].
    destruct (Simulation.make_tasks env rest) as [ts |]; simpl in H; [| discriminate].
    injection H as <-. simpl. rewrite run_single_agent_reaction_of.
    f_equal. now apply IH.
Qed.

Lemma collect_ok (total : Z) (values : list Schemas.AgentReaction) :
  forall (rs : list Schemas.AgentReaction) (job : Simulation.Job),
    (forall d, (List.length rs < d <= List.length rs + List.length values)%nat ->
               Simulation.agents_progress (Z.of_nat d) total
               = Ok (20 + 70 * Z.of_nat d / total)) ->
    Simulation.collect total (map Ok values) rs job
    = (Spec.fan_in_events total (List.length rs) (List.length values),
       Simulation.replay job
         (Spec.fan_in_events total (List.length rs) (List.length values)),
       Ok (rs ++ values)%list).
Proof.
  induction values as [| v values IH]; intros rs job Htable.
  - simpl. unfold Simulation.ret. now rewrite app_nil_r.
  - cbn [map Simulation.collect List.length].
    assert (Hlen : List.length (rs ++ [v]) = S (List.length rs))
      by (rewrite length_app; simpl; lia).
    unfold Simulation.obind at 1. unfold Simulation.suspend.
    unfold Simulation.obind at 1. unfold Simulation.lift at 1.
    unfold Simulation.obind at 1. unfold Simulation.write at 1.
    unfold Simulation.obind at 1. unfold Simulation.lift at 1.
    rewrite Hlen, Htable by (simpl; lia).
    unfold Simulation.obind at 1. unfold Simulation.write at 1.
    unfold Simulation.obind at 1. unfold Simulation.write at 1.
    rewrite IH.
    + rewrite Hlen, fan_in_events_step, replay_app, <- app_assoc. reflexivity.
    + intros d Hd. apply Htable. rewrite Hlen in Hd. simpl. lia.
Qed.


Lemma replay_constant (job : Simulation.Job) (trace : list Simulation.event) :
  Simulation.id (Simulation.replay job trace) = Simulation.id job /\
  Simulation.model_id (Simulation.replay job trace) = Simulation.model_id job /\
  Simulation.impacts (Simulation.replay job trace) = Simulation.impacts job /\
  Simulation.agents_total (Simulation.replay job trace) = Simulation.agents_total job /\
  Simulation.created_at (Simulation.replay job trace) = Simulation.created_at job /\
  Simulation.started_at (Simulation.replay job trace) = Simulation.started_at job.
Proof.
  revert job. induction trace as [| ev trace IH]; intros job; [repeat split |].
  simpl. destruct (IH (Simulation.apply_event job ev)) as (H1 & H2 & H3 & H4 & H5 & H6).
  rewrite H1, H2, H3, H4, H5, H6.
  destruct ev as [[] |]; repeat split.
Qed.

Lemma exec_start {A : Type} (m : Simulation.Orch A) (job : Simulation.Job) :
  m job = Spec.exec [] m job.
Proof. unfold Spec.exec. simpl. now destruct (m job) as [[t j] r]. Qed.

Lemma exec_write {A : Type} evs (w : Simulation.field_write)
    (k : unit -> Simulation.Orch A) (job0 : Simulation.Job) :
  Spec.exec evs (Simulation.obind (Simulation.write w) k) job0
  = Spec.exec (evs ++ [Simulation.Wrote w]) (k tt) job0.
Proof.
  unfold Spec.exec, Simulation.obind, Simulation.write. rewrite replay_app. simpl.
  destruct (k tt _) as [[t j] r]. now rewrite <- app_assoc.
Qed.

Lemma exec_suspend {A : Type} evs (k : unit -> Simulation.Orch A)
    (job0 : Simulation.Job) :
  Spec.exec evs (Simulation.obind Simulation.suspend k) job0
  = Spec.exec (evs ++ [Simulation.Suspended]) (k tt) job0.
Proof.
  unfold Spec.exec, Simulation.obind, Simulation.suspend. rewrite replay_app. simpl.
  destruct (k tt _) as [[t j] r]. now rewrite <- app_assoc.
Qed.

Lemma exec_lift_ok {A B : Type} evs (a : A) (k : A -> Simulation.Orch B)
    (job0 : Simulation.Job) :
  Spec.exec evs (Simulation.obind (Simulation.lift (Ok a)) k) job0 = Spec.exec evs (k a) job0.
Proof.
  unfold Spec.exec, Simulation.obind, Simulation.lift. now destruct (k a _) as [[t j] r].
Qed.

Lemma exec_lift_err {A B : Type} evs (e : exn) (k : A -> Simulation.Orch B)
    (job0 : Simulation.Job) :
  Spec.exec evs (Simulation.obind (Simulation.lift (Err e)) k) job0
  = (evs, Simulation.replay job0 evs, Err e).
Proof. unfold Spec.exec, Simulation.obind, Simulation.lift. now rewrite app_nil_r. Qed.

Lemma exec_read {A B : Type} evs (f : Simulation.Job -> A) (k : A -> Simulation.Orch B)
    (job0 : Simulation.Job) :
  Spec.exec evs (Simulation.obind (Simulation.read f) k) job0
  = Spec.exec evs (k (f (Simulation.replay job0 evs))) job0.
Proof.
  unfold Spec.exec, Simulation.obind, Simulation.read. now destruct (k _ _) as [[t j] r].
Qed.

Lemma exec_bind {A B : Type} evs (m : Simulation.Orch A) (k : A -> Simulation.Orch B)
    (job0 : Simulation.Job) (t : list Simulation.event) (a : A) :
  m (Simulation.replay job0 evs) = (t, Simulation.replay (Simulation.replay job0 evs) t, Ok a) ->
  Spec.exec evs (Simulation.obind m k) job0 = Spec.exec (evs ++ t) (k a) job0.
Proof.
  intros H. unfold Spec.exec, Simulation.obind. rewrite H, replay_app.
  destruct (k a _) as [[t2 j] r]. now rewrite <- app_assoc.
Qed.

Lemma exec_last_write evs (w : Simulation.field_write) (job0 : Simulation.Job) :
  Spec.exec evs (Simulation.write w) job0
  = ((evs ++ [Simulation.Wrote w])%list,
     Simulation.replay job0 (evs ++ [Simulation.Wrote w]), Ok tt).
Proof. unfold Spec.exec, Simulation.write. now rewrite replay_app. Qed.

Section Body.
Variable ARCHETYPES : list Agents.AgentArchetype.
Variable env : Simulation.Env.
Variable job : Simulation.Job.

Lemma body_no_user_message (e : exn) :
  Simulation.env_user_message env = Err e ->
  Simulation.simulation_body ARCHETYPES env job
  = (Spec.opening_events, Simulation.replay job Spec.opening_events, Err e).
Proof.
  intros H. rewrite exec_start. unfold Simulation.simulation_body.
  rewrite !exec_write, exec_suspend, !exec_write, H, exec_lift_err.
  reflexivity.
Qed.

Lemma body_no_tasks (m : string) (e : exn) :
  Simulation.env_user_message env = Ok m ->
  Simulation.make_tasks env ARCHETYPES = Err e ->
  Simulation.simulation_body ARCHETYPES env job
  = (Spec.opening_events, Simulation.replay job Spec.opening_events, Err e).
Proof.
  intros H Ht. rewrite exec_start. unfold Simulation.simulation_body.
  rewrite !exec_write, exec_suspend, !exec_write, H, exec_lift_ok, Ht, exec_lift_err.
  reflexivity.
Qed.

Lemma reactions_of_length :
  List.length (Spec.reactions_of env ARCHETYPES) = List.length ARCHETYPES.
Proof.
  unfold Spec.reactions_of. rewrite length_map.
  apply Permutation_length, as_completed_perm.
Qed.

Lemma body_collected (m : string) (tasks : list (res exn Schemas.AgentReaction))
    (agg : Schemas.AggregateResult) :
  Spec.progress_table ARCHETYPES ->
  Simulation.env_user_message env = Ok m ->
  Simulation.make_tasks env ARCHETYPES = Ok tasks ->
  Simulation._aggregate ARCHETYPES (Spec.reactions_of env ARCHETYPES)
    (Schemas.deterministic_acceptance (Schemas.scores (Simulation.impacts job))) = Ok agg ->
  Simulation.simulation_body ARCHETYPES env job
  = match PyFloat.int_of_float
            ((Simulation.env_monotonic env - Simulation.started_at job) * 1000)%float with
    | Err e =>
        (Spec.collected_events ARCHETYPES,
         Simulation.replay job (Spec.collected_events ARCHETYPES), Err e)
    | Ok ms =>
        let r := Spec.simulate_result job (Spec.reactions_of env ARCHETYPES) agg ms in
        ((Spec.collected_events ARCHETYPES ++ Spec.closing_events r)%list,
         Simulation.replay job (Spec.collected_events ARCHETYPES ++ Spec.closing_events r),
         Ok tt)
    end.
Proof.
  intros Htable H Ht Hagg. rewrite exec_start. unfold Simulation.simulation_body.
  rewrite !exec_write, exec_suspend, !exec_write, H, exec_lift_ok, Ht, exec_lift_ok.
  rewrite (make_tasks_ok _ _ _ Ht), as_completed_map.
  rewrite <- (map_map (Spec.reaction_of env) Ok).
  fold (Spec.reactions_of env ARCHETYPES).
  erewrite exec_bind.
  2:{ apply collect_ok. intros d Hd. rewrite reactions_of_length in Hd.
      simpl in Hd. apply Htable. lia. }
  rewrite reactions_of_length.
  change (List.length (@nil Schemas.AgentReaction)) with 0%nat.
  change ([] ++ Spec.reactions_of env ARCHETYPES)%list with (Spec.reactions_of env ARCHETYPES).
  rewrite !exec_write, exec_read.
  match goal with
  | |- Spec.exec ?evs _ _ = _ =>
      destruct (replay_constant job evs) as (_ & Hm & Hi & _ & Hc & Hs);
      rewrite Hm, Hi, Hc, Hs, Hagg, exec_lift_ok
  end.
  destruct (PyFloat.int_of_float _) as [ms | e].
  - rewrite exec_lift_ok, !exec_write, exec_last_write.
    unfold Spec.collected_events, Spec.closing_events, Spec.aggregate_events, Spec.opening_events.
    cbn [app]. rewrite <- !app_assoc. cbn [app]. reflexivity.
  - rewrite exec_lift_err.
    unfold Spec.collected_events, Spec.aggregate_events, Spec.opening_events.
    cbn [app]. rewrite <- !app_assoc. cbn [app]. reflexivity.
Qed.

End Body.

End Orchestrator.

(** ** Runs of the orchestrator *)

Ltac job_simpl :=
  cbn [Simulation.apply_event Simulation.apply_write Simulation.update
       Simulation.replay fold_left Simulation.snapshots Simulation.states
       Spec.nondecreasing app
       Simulation.id Simulation.model_id Simulation.building Simulation.impacts
       Simulation.status Simulation.progress Simulation.phase Simulation.message
       Simulation.agents_done Simulation.agents_total Simulation.result
       Simulation.error Simulation.created_at Simulation.started_at
       Spec.opening_events Spec.completion_events Spec.aggregate_events
       Spec.closing_events Spec.error_events Simulation.create_job] in *.

Lemma nondecreasing_app (job : Simulation.Job) (t1 t2 : list Simulation.event) :
  Spec.nondecreasing job (t1 ++ t2)
  <-> Spec.nondecreasing job t1 /\ Spec.nondecreasing (Simulation.replay job t1) t2.
Proof.
  revert job. induction t1 as [| ev t1 IH]; intros job; simpl.
  - tauto.
  - rewrite IH. tauto.
Qed.

Lemma snapshots_app (job : Simulation.Job) (t1 t2 : list Simulation.event) :
  Simulation.snapshots job (t1 ++ t2)
  = (Simulation.snapshots job t1
     ++ Simulation.snapshots (Simulation.replay job t1) t2)%list.
Proof.
  revert job. induction t1 as [| [w |] t1 IH]; intros job; simpl.
  - reflexivity.
  - apply IH.
  - f_equal. apply IH.
Qed.

(** What the fan-in does to a running job that has counted [first]
    completions. *)
Lemma fan_in_run (total : Z) (count : nat) :
  forall (first : nat) (job : Simulation.Job),
    0 < total -> Z.of_nat (first + count) <= total ->
    Simulation.status job = "running" ->
    Simulation.agents_done job = Z.of_nat first ->
    Simulation.progress job = 20 + 70 * Z.of_nat first / total ->
    let trace := Spec.fan_in_events total first count in
    let job' := Simulation.replay job trace in
    Spec.nondecreasing job trace /\
    Forall (fun s => Simulation.status s = "running"
                     /\ Simulation.progress job <= Simulation.progress s <= 90
                     /\ Simulation.agents_done job <= Simulation.agents_done s <= total
                     /\ Simulation.result s = Simulation.result job
                     /\ Simulation.error s = Simulation.error job
                     /\ Simulation.agents_total s = Simulation.agents_total job)
           (Simulation.snapshots job trace) /\
    Simulation.status job' = "running" /\
    Simulation.agents_done job' = Z.of_nat (first + count) /\
    Simulation.progress job' = 20 + 70 * Z.of_nat (first + count) / total /\
    Simulation.phase job' = Simulation.phase job /\
    Simulation.result job' = Simulation.result job /\
    Simulation.error job' = Simulation.error job.
Proof.
  induction count as [| count IH]; intros first job Htotal Hle Hst Hdone Hprog.
  - job_simpl. cbn [Spec.fan_in_events seq flat_map]. job_simpl.
    rewrite Nat.add_0_r. repeat split; auto.
  - rewrite fan_in_events_step. cbv zeta.
    set (job1 := Simulation.replay job
                   (Spec.completion_events total (Z.of_nat (S first)))).
    assert (Hmono : 70 * Z.of_nat first / total <= 70 * Z.of_nat (S first) / total).
    { apply Z.div_le_mono; lia. }
    assert (Hup : 70 * Z.of_nat first / total <= 70).
    { apply Z.div_le_upper_bound; lia. }
    destruct (IH (S first) job1) as (Hn & Hs & Hst' & Hd' & Hp' & Hph & Hr & He);
      try (subst job1; job_simpl; auto; lia).
    rewrite nondecreasing_app, snapshots_app, replay_app. fold job1.
    replace (first + S count)%nat with (S first + count)%nat by lia.
    split; [split; [job_simpl; lia | exact Hn] |].
    split; [| repeat split; auto].
    job_simpl. constructor.
    + repeat split; auto; lia.
    + revert Hs. apply Forall_impl. subst job1. job_simpl.
      intros s (Ha & Hb & Hc & Hd & He' & Hf). repeat split; auto; lia.
Qed.

Section Run.
Context {RT : PyRuntime}.

Lemma handler_run (exc : exn) (job : Simulation.Job) :
  Simulation.simulation_handler exc job
  = (Spec.error_events exc, Simulation.replay job (Spec.error_events exc), Ok tt).
Proof. reflexivity. Qed.

Lemma run_simulation_ok ARCHETYPES env job t j :
  Simulation.simulation_body ARCHETYPES env job = (t, j, Ok tt) ->
  Simulation.run_simulation ARCHETYPES env job = (t, j, Ok tt).
Proof.
  intros H. unfold Simulation.run_simulation, Simulation.try_except. now rewrite H.
Qed.

Lemma run_simulation_err ARCHETYPES env job t j exc :
  Simulation.simulation_body ARCHETYPES env job = (t, j, Err exc) ->
  Simulation.run_simulation ARCHETYPES env job
  = ((t ++ Spec.error_events exc)%list,
     Simulation.replay j (Spec.error_events exc), Ok tt).
Proof.
  intros H. unfold Simulation.run_simulation, Simulation.try_except.
  now rewrite H, handler_run.
Qed.

Lemma run_simulation_shape ARCHETYPES env job :
  Spec.progress_table ARCHETYPES ->
  exists trace,
    Simulation.run_simulation ARCHETYPES env job
    = (trace, Simulation.replay job trace, Ok tt) /\
    Spec.run_shape ARCHETYPES env job trace.
Proof.
  intros Htable.
  destruct (Simulation.env_user_message env) as [m | e] eqn:Hm.
  2:{ eexists. split; [| apply (Spec.shape_early _ _ _ e)].
      rewrite (run_simulation_err _ _ _ _ _ _ (body_no_user_message _ _ _ e Hm)).
      now rewrite replay_app. }
  destruct (Simulation.make_tasks env ARCHETYPES) as [tasks | e] eqn:Ht.
  2:{ eexists. split; [| apply (Spec.shape_early _ _ _ e)].
      rewrite (run_simulation_err _ _ _ _ _ _ (body_no_tasks _ _ _ m e Hm Ht)).
      now rewrite replay_app. }
  destruct (aggregate_total ARCHETYPES (Spec.reactions_of env ARCHETYPES)
              (Schemas.deterministic_acceptance
                 (Schemas.scores (Simulation.impacts job)))) as [agg Hagg].
  pose proof (body_collected ARCHETYPES env job m tasks agg Htable Hm Ht Hagg) as Hb.
  destruct (PyFloat.int_of_float _) as [ms | e].
  - eexists. split; [apply run_simulation_ok, Hb | now apply Spec.shape_complete].
  - eexists. split; [| apply (Spec.shape_late _ _ _ e)].
    rewrite (run_simulation_err _ _ _ _ _ _ Hb). now rewrite replay_app.
Qed.

(** The job when aggregation starts. *)
Lemma collected_run ARCHETYPES (job : Simulation.Job) :
  Spec.fresh ARCHETYPES job ->
  let trace := Spec.collected_events ARCHETYPES in
  let job' := Simulation.replay job trace in
  Spec.nondecreasing job trace /\
  Forall Spec.in_flight (Simulation.snapshots job trace) /\
  Simulation.status job' = "running" /\ Simulation.progress job' = 92 /\
  Simulation.agents_done job' = Simulation.agents_total job' /\
  Simulation.agents_total job' = Z.of_nat (List.length ARCHETYPES) /\
  Simulation.result job' = None /\ Simulation.error job' = None.
Proof.
  intros (Hst & Hp & Hd & Ht & Hr & He). cbv zeta. unfold Spec.collected_events.
  set (n := List.length ARCHETYPES) in *.
  set (job1 := Simulation.replay job Spec.opening_events).
  assert (H1 : Simulation.status job1 = "running" /\ Simulation.progress job1 = 20 /\
               Simulation.agents_done job1 = 0 /\
               Simulation.agents_total job1 = Z.of_nat n /\
               Simulation.result job1 = None /\ Simulation.error job1 = None).
  { subst job1. job_simpl. repeat split; auto. }
  destruct H1 as (Hst1 & Hp1 & Hd1 & Ht1 & Hr1 & He1).
  set (fan := Spec.fan_in_events (Z.of_nat n) 0 n).
  set (job2 := Simulation.replay job1 fan).
  assert (Hfan :
    Spec.nondecreasing job1 fan /\
    Forall Spec.in_flight (Simulation.snapshots job1 fan) /\
    Simulation.status job2 = "running" /\
    Simulation.agents_done job2 = Z.of_nat n /\
    20 <= Simulation.progress job2 <= 90 /\
    Simulation.result job2 = None /\ Simulation.error job2 = None).
  { subst job2 fan. destruct n as [| n'] eqn:Hn.
    - cbn [Spec.fan_in_events seq flat_map]. job_simpl.
      repeat split; auto; try lia.
    - assert (Hp0 : Simulation.progress job1
                    = 20 + 70 * Z.of_nat 0 / Z.of_nat (S n')).
      { rewrite Hp1. simpl Z.of_nat. rewrite Z.mul_0_r. reflexivity. }
      destruct (fan_in_run (Z.of_nat (S n')) (S n') 0%nat job1
                  ltac:(lia) ltac:(lia) Hst1 Hd1 Hp0)
        as (Hn1 & Hs1 & Hst2 & Hd2 & Hp2 & _ & Hr2 & He2).
      simpl Nat.add in *.
      assert (Hq : 70 * Z.of_nat (S n') / Z.of_nat (S n') = 70)
        by (apply Z.div_mul; lia).
      split; [exact Hn1 |]. split.
      { revert Hs1. apply Forall_impl.
        intros s (Ha & Hb & Hc & Hd' & He' & Hf). unfold Spec.in_flight.
        rewrite Hd', He', Hf, Hr1, He1, Ht1. repeat split; auto; lia. }
      rewrite Hr2, He2, Hp2, Hq. repeat split; auto; lia. }
  destruct Hfan as (Hn2 & Hs2 & Hst2 & Hd2 & Hp2 & Hr2 & He2).
  destruct (replay_constant job1 fan) as (_ & _ & _ & Hat & _ & _). fold job2 in Hat.
  rewrite !nondecreasing_app, !snapshots_app, !replay_app.
  fold job1. fold job2.
  split; [split; [| split; [exact Hn2 |]] |].
  - job_simpl. rewrite Hp, Hd. repeat split; lia.
  - job_simpl. repeat split; lia.
  - split.
    + apply Forall_app. split; [| apply Forall_app; split; [exact Hs2 |]].
      * job_simpl. constructor; [| constructor]. unfold Spec.in_flight. job_simpl.
        rewrite Hd, Ht, Hr, He. repeat split; auto; lia.
      * job_simpl. constructor.
    + job_simpl. rewrite Hat, Ht1. repeat split; auto.
Qed.


Lemma shape_run ARCHETYPES env (job : Simulation.Job) trace :
  Spec.fresh ARCHETYPES job ->
  Spec.run_shape ARCHETYPES env job trace ->
  Spec.nondecreasing job trace /\
  Forall Spec.in_flight (Simulation.snapshots job trace) /\
  (Spec.finished_complete ARCHETYPES env job (Simulation.replay job trace)
   \/ Spec.finished_error (Simulation.replay job trace)).
Proof.
  intros Hfresh Hshape.
  destruct (collected_run ARCHETYPES job Hfresh)
    as (Hn & Hs & Hst & Hp & Hd & Ht & Hr & He).
  destruct Hfresh as (Hst0 & Hp0 & Hd0 & Ht0 & Hr0 & He0).
  destruct Hshape as [exc | exc | agg ms Hagg].
  - split; [| split].
    + job_simpl. rewrite Hp0, Hd0. repeat split; lia.
    + job_simpl. constructor; [| constructor]. unfold Spec.in_flight. job_simpl.
      rewrite Hd0, Ht0, Hr0, He0. repeat split; auto; lia.
    + right. unfold Spec.finished_error. job_simpl.
      split; [reflexivity | split; [exact Hr0 | split; [left; now split |]]].
      exists exc. split; reflexivity.
  - rewrite nondecreasing_app, snapshots_app, replay_app.
    set (job1 := Simulation.replay job (Spec.collected_events ARCHETYPES)) in *.
    split; [split; [exact Hn |] | split].
    + job_simpl. repeat split; lia.
    + apply Forall_app. split; [exact Hs | job_simpl; constructor].
    + right. unfold Spec.finished_error. job_simpl.
      split; [reflexivity | split; [exact Hr | split; [right; now split |]]].
      exists exc. split; reflexivity.
  - rewrite nondecreasing_app, snapshots_app, replay_app.
    set (job1 := Simulation.replay job (Spec.collected_events ARCHETYPES)) in *.
    split; [split; [exact Hn |] | split].
    + job_simpl. rewrite Hp. repeat split; lia.
    + apply Forall_app. split; [exact Hs | job_simpl; constructor].
    + left. unfold Spec.finished_complete. job_simpl.
      repeat split; auto. exists agg, ms. split; [exact Hagg | reflexivity].
Qed.

Lemma create_job_fresh ARCHETYPES fresh_id now clock model_id building impacts :
  Spec.fresh ARCHETYPES
    (Simulation.create_job ARCHETYPES fresh_id now clock model_id building impacts).
Proof. repeat split. Qed.

End Run.

Lemma progress_table_ARCHETYPES : Spec.progress_table Agents.ARCHETYPES.
Proof. intros d Hd. apply progress_table_shipped. exact Hd. Qed.

(** Along a trace that never decreases them, [progress] and [agents_done]
    stay between their first and their last value. *)
Lemma nondecreasing_states (job : Simulation.Job) (trace : list Simulation.event) :
  Spec.nondecreasing job trace ->
  Simulation.progress job <= Simulation.progress (Simulation.replay job trace) /\
  Simulation.agents_done job <= Simulation.agents_done (Simulation.replay job trace) /\
  Forall (fun s =>
            Simulation.progress job <= Simulation.progress s
              <= Simulation.progress (Simulation.replay job trace) /\
            Simulation.agents_done job <= Simulation.agents_done s
              <= Simulation.agents_done (Simulation.replay job trace))
         (Simulation.states job trace).
Proof.
  revert job. induction trace as [| ev trace IH]; intros job H.
  - cbn. repeat split; try lia. constructor.
  - cbn [Spec.nondecreasing] in H. destruct H as (Hp & Hd & Hn).
    destruct (IH _ Hn) as (Hp' & Hd' & Hall).
    cbn [Simulation.replay fold_left Simulation.states].
    change (fold_left Simulation.apply_event trace (Simulation.apply_event job ev))
      with (Simulation.replay (Simulation.apply_event job ev) trace).
    split; [lia | split; [lia |]].
    constructor; [lia |].
    revert Hall. apply Forall_impl. intros s Hs. lia.
Qed.

Lemma states_agents_total (job : Simulation.Job) (trace : list Simulation.event) :
  Forall (fun s => Simulation.agents_total s = Simulation.agents_total job)
         (Simulation.states job trace).
Proof.
  revert job. induction trace as [| ev trace IH]; intros job; cbn; constructor.
  - now destruct ev as [[] |].
  - specialize (IH (Simulation.apply_event job ev)).
    revert IH. apply Forall_impl. intros s ->. now destruct ev as [[] |].
Qed.

Lemma states_app (job : Simulation.Job) (t1 t2 : list Simulation.event) :
  Simulation.states job (t1 ++ t2)
  = (Simulation.states job t1
     ++ Simulation.states (Simulation.replay job t1) t2)%list.
Proof.
  revert job. induction t1 as [| ev t1 IH]; intros job; [reflexivity |].
  cbn [app Simulation.states]. f_equal. apply IH.
Qed.

Lemma recomputations_fan_in (total : Z) (count : nat) :
  forall (first : nat) (rest : list Simulation.event),
    Spec.recomputations (Spec.fan_in_events total first count ++ rest)
    = (map (fun d => (Z.of_nat d, 20 + 70 * Z.of_nat d / total)) (seq (S first) count)
       ++ Spec.recomputations rest)%list.
Proof.
  induction count as [| count IH]; intros first rest; [reflexivity |].
  rewrite fan_in_events_step, <- app_assoc.
  cbn [Spec.completion_events app Spec.recomputations seq map].
  f_equal. apply IH.
Qed.

Lemma recomputations_collected (ARCHETYPES : list Agents.AgentArchetype)
    (rest : list Simulation.event) :
  Spec.recomputations (Spec.collected_events ARCHETYPES ++ rest)
  = (map (fun d => (Z.of_nat d,
                    20 + 70 * Z.of_nat d / Z.of_nat (List.length ARCHETYPES)))
         (seq 1 (List.length ARCHETYPES))
     ++ Spec.recomputations rest)%list.
Proof.
  unfold Spec.collected_events. rewrite <- !app_assoc.
  cbn [Spec.opening_events app Spec.recomputations].
  rewrite recomputations_fan_in. reflexivity.
Qed.

(** With unit weights, the scores of the aggregate do not depend on the order
    of the reactions. *)
Lemma aggregate_unit_perm ARCHETYPES rs rs' det a a' :
  Spec.unit_weights ARCHETYPES -> Spec.valid_scores rs ->
  Z.of_nat (List.length rs) <= 2 ^ 46 ->
  Permutation rs rs' ->
  Simulation._aggregate ARCHETYPES rs det = Ok a ->
  Simulation._aggregate ARCHETYPES rs' det = Ok a' ->
  Schemas.sentiment_score a = Schemas.sentiment_score a' /\
  Schemas.final_score a = Schemas.final_score a'.
Proof.
  intros Hw Hv Hlen Hp Ha Ha'.
  destruct rs as [| r rs].
  - apply Permutation_nil in Hp. subst rs'. rewrite Ha in Ha'.
    injection Ha' as <-. split; reflexivity.
  - assert (Hne' : rs' <> []).
    { intros ->. apply Permutation_sym, Permutation_nil in Hp. discriminate. }
    destruct (aggregate_nonempty ARCHETYPES (r :: rs) det ltac:(discriminate))
      as [n Hn].
    destruct (aggregate_nonempty ARCHETYPES rs' det Hne') as [n' Hn'].
    rewrite Hn in Ha. rewrite Hn' in Ha'. injection Ha as <-. injection Ha' as <-.
    assert (Hsame : Simulation.weigh ARCHETYPES (r :: rs)
                    = Simulation.weigh ARCHETYPES rs').
    { rewrite (weigh_unit ARCHETYPES (r :: rs)) by assumption.
      rewrite (weigh_unit ARCHETYPES rs').
      - now rewrite (Permutation_length Hp), (score_sum_perm _ _ Hp).
      - assumption.
      - now apply (valid_scores_perm _ _ Hp).
      - now rewrite <- (Permutation_length Hp). }
    rewrite !weigh_sums in Hsame. injection Hsame as Ht Hs.
    simpl. rewrite Ht, Hs. split; reflexivity.
Qed.

Lemma unit_weights_ARCHETYPES : Spec.unit_weights Agents.ARCHETYPES.
Proof. repeat constructor. Qed.

Section RunnerInvariant.
Context {RT : PyRuntime}.

(** Every reaction the runner returns satisfies the bounds of the schema. *)
Lemma run_single_agent_normalised (aid dn : string) (reply : Backboard.service_reply)
    (r : Schemas.AgentReaction) :
  Simulation._run_single_agent aid dn reply = Ok r ->
  0 <= Schemas.score r <= 100 /\ Simulation.allowed_stance (Schemas.stance r) = true.
Proof.
  rewrite run_single_agent_cases.
  destruct (raw <- Backboard.one_shot reply ;; Simulation._parse_reaction aid dn raw)
    as [r' | exc] eqn:Hc; intros H; injection H as <-.
  - destruct (Backboard.one_shot reply) as [raw |]; simpl in Hc; [| discriminate].
    now apply (parse_reaction_normalised aid dn raw).
  - simpl. split; [lia | reflexivity].
Qed.

Lemma reactions_of_valid (env : Simulation.Env) (ARCHETYPES : list Agents.AgentArchetype) :
  Spec.valid_scores (Spec.reactions_of env ARCHETYPES).
Proof.
  unfold Spec.valid_scores, Spec.reactions_of. apply Forall_map, Forall_forall.
  intros arch _.
  apply (run_single_agent_normalised _ _ _ _ (run_single_agent_reaction_of env arch)).
Qed.

Lemma reactions_of_perm (env : Simulation.Env) (ARCHETYPES : list Agents.AgentArchetype) :
  Permutation (Spec.reactions_of env ARCHETYPES) (map (Spec.reaction_of env) ARCHETYPES).
Proof. unfold Spec.reactions_of. apply Permutation_map, as_completed_perm. Qed.

End RunnerInvariant.

Section ShippedRuns.
Context {RT : PyRuntime}.
Variable env : Simulation.Env.
Variables (fresh_id now : string) (clock : float) (model_id : string).
Variable building : Schemas.BuildingPayload.
Variable impacts : Schemas.ImpactPayload.

Let job : Simulation.Job :=
  Simulation.create_job Agents.ARCHETYPES fresh_id now clock model_id building impacts.
Let run := Simulation.run_simulation Agents.ARCHETYPES env job.

Lemma shipped_run :
  exists trace,
    run = (trace, Simulation.replay job trace, Ok tt) /\
    Spec.run_shape Agents.ARCHETYPES env job trace /\
    Spec.nondecreasing job trace /\
    Forall Spec.in_flight (Simulation.snapshots job trace) /\
    (Spec.finished_complete Agents.ARCHETYPES env job (Simulation.replay job trace)
     \/ Spec.finished_error (Simulation.replay job trace)).
Proof.
  destruct (run_simulation_shape Agents.ARCHETYPES env job progress_table_ARCHETYPES)
    as (trace & Hrun & Hshape).
  exists trace. split; [exact Hrun | split; [exact Hshape |]].
  apply shape_run; [apply create_job_fresh | exact Hshape].
Qed.

(** Along every run, across every field write, [progress] and [agents_done]
    never decrease, [progress] stays within 0..100 and [agents_done] within
    0..[agents_total]. *)
Theorem run_simulation_progress_monotone :
  Spec.nondecreasing job (fst (fst run)) /\
  Forall (fun s => 0 <= Simulation.progress s <= 100 /\
                   0 <= Simulation.agents_done s <= Simulation.agents_total s)
         (Simulation.states job (fst (fst run))).
Proof.
  destruct shipped_run as (trace & Hrun & _ & Hn & _ & Hfin).
  rewrite Hrun. cbn [fst].
  split; [exact Hn |].
  destruct (nondecreasing_states job trace Hn) as (_ & _ & Hall).
  pose proof (states_agents_total job trace) as Htot.
  assert (Hfinal : Simulation.progress (Simulation.replay job trace) <= 100 /\
                   Simulation.agents_done (Simulation.replay job trace)
                   <= Simulation.agents_total job).
  { destruct (replay_constant job trace) as (_ & _ & _ & Hat & _ & _).
    destruct Hfin as [(_ & Hp & _ & _ & Hd & _) | (_ & _ & [[Hp Hd] | [Hp Hd]] & _)];
      rewrite Hp, Hd, ?Hat; cbn; lia. }
  rewrite Forall_forall in *. intros s Hs.
  specialize (Hall s Hs). specialize (Htot s Hs). rewrite Htot.
  cbn [job Simulation.create_job Simulation.progress Simulation.agents_done] in Hall.
  lia.
Qed.

(** A poll during a run reads a running job, with a progress between 15 and
    90 and neither result nor error; the run never raises and leaves the job
    complete (progress 100, every archetype counted, the result set, no error)
    or in error (no result, the description of the exception in [error] and
    [message]). *)
Theorem run_simulation_poll_view :
  snd run = Ok tt /\
  Forall Spec.in_flight (Simulation.snapshots job (fst (fst run))) /\
  (Spec.finished_complete Agents.ARCHETYPES env job (snd (fst run))
   \/ Spec.finished_error (snd (fst run))).
Proof.
  destruct shipped_run as (trace & Hrun & _ & _ & Hs & Hfin).
  rewrite Hrun. cbn [fst snd]. auto.
Qed.

(** The write of [status = "complete"] comes before the write of
    [progress = 100]: every run that completes passes through a state that is
    complete with a progress of 92. *)
Theorem run_simulation_complete_before_100 :
  Simulation.status (snd (fst run)) = "complete" ->
  exists s, In s (Simulation.states job (fst (fst run))) /\
            Simulation.status s = "complete" /\ Simulation.progress s = 92.
Proof.
  destruct shipped_run as (trace & Hrun & Hshape & _ & _ & _).
  rewrite Hrun. cbn [fst snd].
  destruct (collected_run Agents.ARCHETYPES job (create_job_fresh _ _ _ _ _ _ _))
    as (_ & _ & _ & Hp & _).
  destruct Hshape as [exc | exc | agg ms Hagg]; intros Hst.
  - job_simpl. discriminate Hst.
  - rewrite replay_app in Hst. job_simpl. discriminate Hst.
  - rewrite states_app.
    set (job1 := Simulation.replay job (Spec.collected_events Agents.ARCHETYPES)) in *.
    eexists. split.
    + apply in_or_app. right. cbn [Spec.closing_events Simulation.states].
      right. left. reflexivity.
    + job_simpl. split; [reflexivity | exact Hp].
Qed.

(** Each completion writes [agents_done] and then
    [progress = 20 + 70 * agents_done // agents_total]; a run that completes
    does so once per archetype, the last time with a progress of 90. *)
Theorem run_simulation_recomputes_progress :
  Forall (fun dp => snd dp = 20 + 70 * fst dp / Simulation.agents_total job /\
                    (fst dp = Simulation.agents_total job -> snd dp = 90))
         (Spec.recomputations (fst (fst run))) /\
  (Simulation.status (snd (fst run)) = "complete" ->
   Spec.recomputations (fst (fst run))
   = [(1, 31); (2, 43); (3, 55); (4, 66); (5, 78); (6, 90)]).
Proof.
  destruct shipped_run as (trace & Hrun & Hshape & _ & _ & _).
  rewrite Hrun. cbn [fst snd].
  destruct Hshape as [exc | exc | agg ms Hagg].
  - split; [constructor |]. job_simpl. intros H; discriminate H.
  - split.
    + rewrite recomputations_collected. cbn.
      repeat constructor; cbn; intros H; try reflexivity; discriminate H.
    + rewrite replay_app. job_simpl. intros H; discriminate H.
  - rewrite recomputations_collected. cbn. split; [| reflexivity].
    repeat constructor; cbn; intros H; try reflexivity; discriminate H.
Qed.

(** A run that completes stores one reaction per archetype, in the order in
    which the tasks finished: the one its runner returned, which is the
    fallback when the invocation failed. *)
Theorem run_simulation_one_reaction_per_archetype :
  Simulation.status (snd (fst run)) = "complete" ->
  exists r,
    Simulation.result (snd (fst run)) = Some r /\
    let order := Simulation.as_completed (Simulation.env_picks env) Agents.ARCHETYPES in
    Permutation order Agents.ARCHETYPES /\
    Forall2 (fun arch reaction =>
               Simulation._run_single_agent (Agents.id arch) (Agents.display_name arch)
                 (Simulation.env_reply env arch) = Ok reaction /\
               (Spec.invocation_fails (Agents.id arch) (Agents.display_name arch)
                  (Simulation.env_reply env arch) ->
                Spec.fallback_shape (Agents.id arch) (Agents.display_name arch) reaction))
            order (Schemas.agents r).
Proof.
  destruct shipped_run as (trace & Hrun & _ & _ & _ & Hfin).
  rewrite Hrun. cbn [fst snd]. intros Hst.
  destruct Hfin as [(_ & _ & _ & _ & _ & _ & agg & ms & _ & Hres) | (Hst' & _)].
  2:{ rewrite Hst' in Hst. discriminate Hst. }
  eexists. split; [exact Hres |]. cbv zeta.
  split; [apply as_completed_perm |].
  cbn [Spec.simulate_result Schemas.agents]. unfold Spec.reactions_of.
  induction (Simulation.as_completed (Simulation.env_picks env) Agents.ARCHETYPES)
    as [| arch order IH]; cbn [map]; constructor; [| exact IH].
  split; [apply run_single_agent_reaction_of |].
  intros Hfail.
  destruct (run_single_agent_failure _ _ _ Hfail) as (r' & Hr' & Hshape').
  rewrite run_single_agent_reaction_of in Hr'. injection Hr' as <-. exact Hshape'.
Qed.

End ShippedRuns.

Section OrderIndependence.
Context {RT : PyRuntime}.

(** The scores a run aggregates do not depend on the order in which the
    agents finish. *)
Theorem run_simulation_scores_order_independent
    (env env' : Simulation.Env)
    (fresh_id now : string) (clock : float) (model_id : string)
    (building : Schemas.BuildingPayload) (impacts : Schemas.ImpactPayload)
    (r r' : Schemas.SimulateResult) :
  let job := Simulation.create_job Agents.ARCHETYPES fresh_id now clock model_id
               building impacts in
  (forall arch, Simulation.env_reply env arch = Simulation.env_reply env' arch) ->
  Simulation.result (snd (fst (Simulation.run_simulation Agents.ARCHETYPES env job)))
  = Some r ->
  Simulation.result (snd (fst (Simulation.run_simulation Agents.ARCHETYPES env' job)))
  = Some r' ->
  Schemas.sentiment_score (Schemas.aggregate r)
  = Schemas.sentiment_score (Schemas.aggregate r') /\
  Schemas.final_score (Schemas.aggregate r)
  = Schemas.final_score (Schemas.aggregate r').
Proof.
  intros job Hreply Hr Hr'.
  destruct (shipped_run env fresh_id now clock model_id building impacts)
    as (t & Hrun & _ & _ & _ & Hfin).
  destruct (shipped_run env' fresh_id now clock model_id building impacts)
    as (t' & Hrun' & _ & _ & _ & Hfin').
  fold job in Hrun, Hrun', Hfin, Hfin'.
  rewrite Hrun in Hr. rewrite Hrun' in Hr'. cbn [fst snd] in Hr, Hr'.
  destruct Hfin as [(_ & _ & _ & _ & _ & _ & agg & ms & Hagg & Hres) | (_ & Hnone & _)];
    [| rewrite Hnone in Hr; discriminate Hr].
  destruct Hfin' as [(_ & _ & _ & _ & _ & _ & agg' & ms' & Hagg' & Hres')
                    | (_ & Hnone & _)];
    [| rewrite Hnone in Hr'; discriminate Hr'].
  rewrite Hres in Hr. rewrite Hres' in Hr'. injection Hr as <-. injection Hr' as <-.
  cbn [Spec.simulate_result Schemas.aggregate].
  apply (aggregate_unit_perm Agents.ARCHETYPES
           (Spec.reactions_of env Agents.ARCHETYPES)
           (Spec.reactions_of env' Agents.ARCHETYPES)
           (Schemas.deterministic_acceptance (Schemas.scores (Simulation.impacts job)))
           agg agg' unit_weights_ARCHETYPES (reactions_of_valid env _));
    try assumption.
  - rewrite reactions_of_length. cbn. lia.
  - transitivity (map (Spec.reaction_of env) Agents.ARCHETYPES);
      [apply reactions_of_perm |].
    transitivity (map (Spec.reaction_of env') Agents.ARCHETYPES);
      [| symmetry; apply reactions_of_perm].
    assert (Heq : map (Spec.reaction_of env) Agents.ARCHETYPES
                  = map (Spec.reaction_of env') Agents.ARCHETYPES).
    { apply map_ext. intros arch. unfold Spec.reaction_of. now rewrite Hreply. }
    rewrite Heq. reflexivity.
Qed.

End OrderIndependence.

Section ErrorPath.
Context {RT : PyRuntime}.

Lemma make_tasks_total (env : Simulation.Env) (archetypes : list Agents.AgentArchetype) :
  (forall arch, In arch archetypes ->
                exists p, Simulation.env_system_prompt env arch = Ok p) ->
  exists tasks, Simulation.make_tasks env archetypes = Ok tasks.
Proof.
  induction archetypes as [| arch rest IH]; intros H.
  - eexists; reflexivity.
  - destruct (H arch (or_introl eq_refl)) as [p Hp].
    destruct IH as [tasks Ht]; [intros a Ha; apply H; now right |].
    cbn [Simulation.make_tasks]. rewrite Hp, Ht. eexists; reflexivity.
Qed.

(** When an exception escapes the body of [run_simulation], the handler
    writes [status = "error"], then the description of the exception to
    [error] and, after the prefix "Error: ", to [message]; it writes nothing
    else, so the job keeps the progress, the phase and the count it had, and
    the call returns normally. *)
Theorem run_simulation_error_path (ARCHETYPES : list Agents.AgentArchetype)
    (env : Simulation.Env) (job j : Simulation.Job) (t : list Simulation.event)
    (exc : exn) :
  Simulation.simulation_body ARCHETYPES env job = (t, j, Err exc) ->
  Simulation.run_simulation ARCHETYPES env job
  = ((t ++ [ Simulation.Wrote (Simulation.W_status "error");
             Simulation.Wrote (Simulation.W_error (exn_str exc));
             Simulation.Wrote (Simulation.W_message ("Error: " ++ exn_str exc)) ])%list,
     Simulation.update j "error" (Simulation.progress j) (Simulation.phase j)
       ("Error: " ++ exn_str exc) (Simulation.agents_done j) (Simulation.result j)
       (Some (exn_str exc)),
     Ok tt).
Proof.
  intros H. rewrite (run_simulation_err _ _ _ _ _ _ H). reflexivity.
Qed.

(** The failures of agents never fail the job: whatever the service replies,
    a run whose prompts are built and whose clock reading converts to an
    integer completes. *)
Theorem run_simulation_isolates_agent_failures
    (env : Simulation.Env)
    (fresh_id now : string) (clock : float) (model_id : string)
    (building : Schemas.BuildingPayload) (impacts : Schemas.ImpactPayload)
    (m : string) (ms : Z) :
  let job := Simulation.create_job Agents.ARCHETYPES fresh_id now clock model_id
               building impacts in
  Simulation.env_user_message env = Ok m ->
  (forall arch, In arch Agents.ARCHETYPES ->
                exists p, Simulation.env_system_prompt env arch = Ok p) ->
  PyFloat.int_of_float ((Simulation.env_monotonic env - clock) * 1000)%float = Ok ms ->
  Spec.finished_complete Agents.ARCHETYPES env job
    (snd (fst (Simulation.run_simulation Agents.ARCHETYPES env job))).
Proof.
  intros job Hm Hprompts Hclock.
  destruct (make_tasks_total env Agents.ARCHETYPES Hprompts) as [tasks Ht].
  destruct (aggregate_total Agents.ARCHETYPES (Spec.reactions_of env Agents.ARCHETYPES)
              (Schemas.deterministic_acceptance
                 (Schemas.scores (Simulation.impacts job)))) as [agg Hagg].
  pose proof (body_collected Agents.ARCHETYPES env job m tasks agg
                progress_table_ARCHETYPES Hm Ht Hagg) as Hb.
  change (Simulation.started_at job) with clock in Hb. rewrite Hclock in Hb.
  rewrite (run_simulation_ok _ _ _ _ _ Hb). cbn [fst snd].
  assert (Hshape : Spec.run_shape Agents.ARCHETYPES env job
                     (Spec.collected_events Agents.ARCHETYPES ++
                      Spec.closing_events
                        (Spec.simulate_result job
                           (Spec.reactions_of env Agents.ARCHETYPES) agg ms)))
    by now apply Spec.shape_complete.
  destruct (shape_run Agents.ARCHETYPES env job _ (create_job_fresh _ _ _ _ _ _ _) Hshape)
    as (_ & _ & [Hc | (Hst & _)]); [exact Hc |].
  rewrite replay_app in Hst. job_simpl. discriminate Hst.
Qed.

End ErrorPath.

Lemma run_simulation_error_path_witness :
  Simulation.status
    (snd (fst (Simulation.run_simulation (RT := SampleRuntime.runtime)
                 Agents.ARCHETYPES Spec.failing_env Spec.sample_job))) = "error" /\
  Simulation.error
    (snd (fst (Simulation.run_simulation (RT := SampleRuntime.runtime)
                 Agents.ARCHETYPES Spec.failing_env Spec.sample_job))) = Some "boom".
Proof.
  rewrite (run_simulation_error_path (RT := SampleRuntime.runtime)
             Agents.ARCHETYPES Spec.failing_env Spec.sample_job
             (Simulation.replay Spec.sample_job Spec.opening_events)
             Spec.opening_events (RuntimeError "boom")).
  - split; reflexivity.
  - vm_compute. reflexivity.
Defined.

Lemma run_simulation_isolates_agent_failures_witness :
  Spec.finished_complete (RT := SampleRuntime.runtime) Agents.ARCHETYPES Spec.sample_env
    Spec.sample_job
    (snd (fst (Simulation.run_simulation (RT := SampleRuntime.runtime)
                 Agents.ARCHETYPES Spec.sample_env Spec.sample_job))).
Proof.
  apply (run_simulation_isolates_agent_failures (RT := SampleRuntime.runtime)
           Spec.sample_env "job-1" "2025-01-01T00:00:00+00:00" 10%float
           "amazon/nova-micro-v1" Spec.sample_building Spec.sample_impacts
           "facts" 2500).
  - reflexivity.
  - intros arch _. exists "persona". reflexivity.
  - vm_compute. reflexivity.
Defined.

Lemma run_simulation_complete_before_100_witness :
  exists s,
    In s (Simulation.states Spec.sample_job
            (fst (fst (Simulation.run_simulation (RT := SampleRuntime.runtime)
                         Agents.ARCHETYPES Spec.sample_env Spec.sample_job)))) /\
    Simulation.status s = "complete" /\ Simulation.progress s = 92.
Proof.
  apply (run_simulation_complete_before_100 (RT := SampleRuntime.runtime)
           Spec.sample_env "job-1" "2025-01-01T00:00:00+00:00" 10%float
           "amazon/nova-micro-v1" Spec.sample_building Spec.sample_impacts).
  vm_compute. reflexivity.
Defined.

Lemma run_simulation_one_reaction_per_archetype_witness :
  exists r,
    Simulation.result
      (snd (fst (Simulation.run_simulation (RT := SampleRuntime.runtime)
                   Agents.ARCHETYPES Spec.sample_env Spec.sample_job))) = Some r /\
    map Schemas.agent_id (Schemas.agents r)
    = ["small_business_owner"; "nearby_homeowner"; "student_renter";
       "city_planner"; "accessibility_advocate"; "environmental_advocate"].
Proof.
  destruct (run_simulation_one_reaction_per_archetype (RT := SampleRuntime.runtime)
              Spec.sample_env "job-1" "2025-01-01T00:00:00+00:00" 10%float
              "amazon/nova-micro-v1" Spec.sample_building Spec.sample_impacts)
    as (r & Hr & _).
  - vm_compute. reflexivity.
  - exists r. split; [exact Hr |].
    vm_compute in Hr. injection Hr as <-. reflexivity.
Defined.

Lemma run_simulation_scores_order_independent_witness :
  exists r r',
    Simulation.result
      (snd (fst (Simulation.run_simulation (RT := SampleRuntime.runtime)
                   Agents.ARCHETYPES Spec.sample_env Spec.sample_job))) = Some r /\
    Simulation.result
      (snd (fst (Simulation.run_simulation (RT := SampleRuntime.runtime)
                   Agents.ARCHETYPES Spec.sample_env_in_order Spec.sample_job)))
    = Some r' /\
    map Schemas.agent_id (Schemas.agents r) <> map Schemas.agent_id (Schemas.agents r') /\
    Schemas.sentiment_score (Schemas.aggregate r)
    = Schemas.sentiment_score (Schemas.aggregate r') /\
    Schemas.final_score (Schemas.aggregate r)
    = Schemas.final_score (Schemas.aggregate r').
Proof.
  eexists. eexists.
  split; [vm_compute; reflexivity |].
  split; [vm_compute; reflexivity |].
  split; [vm_compute; discriminate |].
  apply (run_simulation_scores_order_independent (RT := SampleRuntime.runtime)
           Spec.sample_env Spec.sample_env_in_order
           "job-1" "2025-01-01T00:00:00+00:00" 10%float
           "amazon/nova-micro-v1" Spec.sample_building Spec.sample_impacts).
  - intros arch. reflexivity.
  - vm_compute. reflexivity.
  - vm_compute. reflexivity.
Defined.

(** ** Replies and the reactions read from them *)

Section RunnerReplies.
Context {RT : PyRuntime}.

Lemma str_list_texts (l : list string) : Simulation._str_list (PList (map PStr l)) = l.
Proof. simpl. rewrite map_map. simpl. apply map_id. Qed.

Lemma citation_of_encode (c : Schemas.DriverCitation) :
  Spec.kept_value (Schemas.value c) = true ->
  Simulation.citation_of (Spec.encode_citation c) = [c].
Proof.
  destruct c as [d v e]. simpl. intros H.
  unfold Simulation.citation_of. cbn.
  unfold Schemas.new_DriverCitation.
  destruct v; try discriminate H; reflexivity.
Qed.

Lemma citations_encode (cs : list Schemas.DriverCitation) :
  Forall (fun c => Spec.kept_value (Schemas.value c) = true) cs ->
  flat_map Simulation.citation_of (map Spec.encode_citation cs) = cs.
Proof.
  induction 1 as [| c cs Hc _ IH]; [reflexivity |].
  cbn [map flat_map]. rewrite (citation_of_encode c Hc), IH. reflexivity.
Qed.

Lemma allowed_stance_cases (s : string) :
  Simulation.allowed_stance s = true -> s = "support" \/ s = "neutral" \/ s = "oppose".
Proof.
  unfold Simulation.allowed_stance. intros H.
  apply orb_true_iff in H. destruct H as [H | H].
  - apply orb_true_iff in H. destruct H as [H | H]; apply String.eqb_eq in H; auto.
  - apply String.eqb_eq in H; auto.
Qed.

Lemma allowed_stance_lower (s : string) :
  Simulation.allowed_stance s = true -> PyStr.lower s = s.
Proof.
  intros H. destruct (allowed_stance_cases s H) as [-> | [-> | ->]]; reflexivity.
Qed.

Lemma parse_reaction_encode (aid dn : string) (r : Schemas.AgentReaction) :
  Spec.expressible r ->
  Simulation._parse_reaction aid dn (Spec.encode_reaction r) = Ok r.
Proof.
  intros (Hs & Hst & Hc). destruct r as [a n st sc co wh wo pr ci]. cbn in Hs, Hst, Hc.
  unfold Simulation._parse_reaction, Spec.encode_reaction.
  cbn [PyObj.as_dict bind Schemas.agent_id Schemas.display_name Schemas.stance
       Schemas.score Schemas.concerns Schemas.why Schemas.would_change_mind_if
       Schemas.proposed_amendments Schemas.driver_citations].
  cbn [PyObj.get_default PyObj.get String.eqb Ascii.eqb Bool.eqb PyObj.truthy].
  cbn [PyObj.iter bind py_int py_str].
  rewrite (allowed_stance_lower st Hst), Hst.
  rewrite !str_list_texts, (citations_encode ci Hc).
  replace (Z.max 0 (Z.min 100 sc)) with sc by lia.
  unfold Schemas.new_AgentReaction. cbn [Schemas.validate_str bind].
  destruct (Z.leb_spec 0 sc); [| lia]. destruct (Z.leb_spec sc 100); [| lia].
  reflexivity.
Qed.

Lemma flat_map_citations_length (items : list pyobj) :
  List.length (flat_map Simulation.citation_of items)
  = List.length (filter Spec.well_formed_citation items).
Proof.
  induction items as [| c items IH]; [reflexivity |].
  cbn [flat_map filter]. rewrite length_app, IH.
  pose proof (citation_of_well_formed c) as Hw.
  destruct (Spec.well_formed_citation c).
  - unfold Simulation.citation_of in *.
    destruct (cd <- PyObj.as_dict c ;; _); [reflexivity |].
    exfalso. apply (proj2 Hw); reflexivity.
  - destruct (Simulation.citation_of c) eqn:Hc; [reflexivity |].
    assert (Hd : false = true) by (apply (proj1 Hw); discriminate).
    discriminate Hd.
Qed.

(** The runner returns a reaction whatever the service replies, and the
    reaction satisfies the bounds of the schema: the score within 0..100 and
    the stance one of the three. *)
Theorem run_single_agent_never_raises (archetype_id display_name : string)
    (reply : Backboard.service_reply) :
  exists r,
    Simulation._run_single_agent archetype_id display_name reply = Ok r /\
    0 <= Schemas.score r <= 100 /\
    (Schemas.stance r = "support" \/ Schemas.stance r = "neutral"
     \/ Schemas.stance r = "oppose").
Proof.
  destruct (run_single_agent_total archetype_id display_name reply) as [r Hr].
  exists r. split; [exact Hr |].
  destruct (run_single_agent_normalised _ _ _ _ Hr) as [Hs Hst].
  split; [exact Hs | now apply allowed_stance_cases].
Qed.

(** A reply that does not decode, after the fences are stripped, gives the
    parse fallback of [_parse_reaction] and not the failure fallback of the
    runner: neutral with a score of 50, under the archetype's identity. *)
Theorem run_single_agent_undecodable_reply (archetype_id display_name raw : string) :
  json_loads (Backboard.strip_fences raw) = None ->
  Simulation._run_single_agent archetype_id display_name (Backboard.Delivered raw)
  = Ok {| Schemas.agent_id := archetype_id; Schemas.display_name := display_name;
          Schemas.stance := "neutral"; Schemas.score := 50;
          Schemas.concerns := ["Agent response could not be parsed."];
          Schemas.why := ["Response was not valid JSON."];
          Schemas.would_change_mind_if := []; Schemas.proposed_amendments := [];
          Schemas.driver_citations := [] |}.
Proof.
  intros H. unfold Simulation._run_single_agent, Backboard.one_shot.
  rewrite H. reflexivity.
Qed.

(** Reading is a left inverse of writing: a reply that decodes to the object
    of an expressible reaction gives back that reaction, under the identity
    the reply states and not the archetype's. *)
Theorem run_single_agent_round_trip (archetype_id display_name raw : string)
    (r : Schemas.AgentReaction) :
  Spec.expressible r ->
  json_loads (Backboard.strip_fences raw) = Some (Spec.encode_reaction r) ->
  Simulation._run_single_agent archetype_id display_name (Backboard.Delivered raw)
  = Ok r.
Proof.
  intros Hr H. unfold Simulation._run_single_agent, Backboard.one_shot.
  rewrite H. cbn [bind]. rewrite (parse_reaction_encode _ _ r Hr). reflexivity.
Qed.

(** On a decoded reply whose fields can be read, [_parse_reaction] returns
    a reaction with the identity the reply states (the archetype's by
    default), the score converted to an integer and clamped to 0..100, the
    stance lowered and replaced by neutral unless it is one of the three, and
    one citation per entry of [driver_citations] that is an object with a
    scalar value, the other entries being dropped. *)
Theorem parse_reaction_normalises (archetype_id display_name : string)
    (d : list (string * pyobj)) (items : list pyobj) (z : Z) (a n : string) :
  PyObj.truthy (PyObj.get_default "_parse_error" PNone d) = false ->
  PyObj.iter (PyObj.get_default "driver_citations" (PList []) d) = Ok items ->
  py_int (PyObj.get_default "score" (PInt 50) d) = Ok z ->
  PyObj.get_default "agent_id" (PStr archetype_id) d = PStr a ->
  PyObj.get_default "display_name" (PStr display_name) d = PStr n ->
  exists r,
    Simulation._parse_reaction archetype_id display_name (PDict d) = Ok r /\
    Schemas.agent_id r = a /\ Schemas.display_name r = n /\
    Schemas.score r = Z.max 0 (Z.min 100 z) /\
    Schemas.stance r
    = (let stance := PyStr.lower (py_str (PyObj.get_default "stance" (PStr "neutral") d)) in
       if Simulation.allowed_stance stance then stance else "neutral") /\
    List.length (Schemas.driver_citations r)
    = List.length (filter Spec.well_formed_citation items).
Proof.
  intros Ht Hi Hz Ha Hn.
  unfold Simulation._parse_reaction. cbn [PyObj.as_dict bind].
  rewrite Ht, Hi. cbn [bind]. rewrite Hz. cbn [bind]. rewrite Ha, Hn.
  unfold Schemas.new_AgentReaction. cbn [Schemas.validate_str bind].
  destruct (Z.leb_spec 0 (Z.max 0 (Z.min 100 z))); [| lia].
  destruct (Z.leb_spec (Z.max 0 (Z.min 100 z)) 100); [| lia].
  cbn [andb]. eexists. split; [reflexivity |].
  cbn [Schemas.agent_id Schemas.display_name Schemas.score Schemas.stance
       Schemas.driver_citations].
  repeat split. apply flat_map_citations_length.
Qed.

(** A decoded reply with a field that cannot be read loses all its fields:
    the runner returns the failure fallback, neutral with a score of 50 under
    the archetype's identity, naming the class of the exception. *)
Theorem run_single_agent_discards_unreadable_reply
    (archetype_id display_name raw : string) (d : list (string * pyobj))
    (cls : string) :
  json_loads (Backboard.strip_fences raw) = Some (PDict d) ->
  PyObj.truthy (PyObj.get_default "_parse_error" PNone d) = false ->
  Spec.bad_field archetype_id display_name d cls ->
  Simulation._run_single_agent archetype_id display_name (Backboard.Delivered raw)
  = Ok {| Schemas.agent_id := archetype_id; Schemas.display_name := display_name;
          Schemas.stance := "neutral"; Schemas.score := 50;
          Schemas.concerns := ["Agent timed out or failed: " ++ cls];
          Schemas.why := ["Could not generate a reaction in time."];
          Schemas.would_change_mind_if := []; Schemas.proposed_amendments := [];
          Schemas.driver_citations := [] |}.
Proof.
  intros H Ht Hbad. unfold Simulation._run_single_agent, Backboard.one_shot.
  rewrite H. cbn [bind]. unfold Simulation._parse_reaction.
  cbn [PyObj.as_dict bind]. rewrite Ht.
  destruct Hbad as [exc Hi | items exc Hi Hz | items z Hi Hz Hid].
  - rewrite Hi. reflexivity.
  - rewrite Hi. cbn [bind]. rewrite Hz. reflexivity.
  - rewrite Hi. cbn [bind]. rewrite Hz. cbn [bind].
    unfold Schemas.new_AgentReaction.
    destruct (PyObj.get_default "agent_id" (PStr archetype_id) d) eqn:Ea;
      try reflexivity.
    destruct (PyObj.get_default "display_name" (PStr display_name) d) eqn:En;
      try reflexivity.
    destruct Hid as [Hid | Hid]; discriminate Hid.
Qed.

End RunnerReplies.

Lemma run_single_agent_undecodable_reply_witness :
  Simulation._run_single_agent (RT := SampleRuntime.runtime)
    "city_planner" "James Rivera" (Backboard.Delivered "I cannot answer.")
  = Ok (Spec.parse_fallback "city_planner" "James Rivera").
Proof.
  apply (run_single_agent_undecodable_reply (RT := SampleRuntime.runtime)).
  vm_compute. reflexivity.
Defined.

Lemma run_single_agent_round_trip_witness :
  Simulation._run_single_agent (RT := SampleRuntime.runtime)
    "city_planner" "James Rivera" (Backboard.Delivered Spec.sample_reaction_text)
  = Ok Spec.sample_reaction.
Proof.
  apply (run_single_agent_round_trip (RT := SampleRuntime.runtime)).
  - split; [cbn; lia | split; [reflexivity | repeat constructor]].
  - vm_compute. reflexivity.
Defined.

Lemma parse_reaction_normalises_witness :
  exists r,
    Simulation._parse_reaction (RT := SampleRuntime.runtime) "city_planner" "James Rivera"
      (PDict [("score", PInt 150); ("stance", PStr "OPPOSE");
              ("driver_citations",
               PList [PDict [("driver", PStr "intensity"); ("value", PInt 7)];
                      PInt 5; PDict [("value", PNone)]])]) = Ok r /\
    Schemas.agent_id r = "city_planner" /\ Schemas.score r = 100 /\
    Schemas.stance r = "oppose" /\
    List.length (Schemas.driver_citations r) = 1%nat.
Proof.
  destruct (parse_reaction_normalises (RT := SampleRuntime.runtime)
              "city_planner" "James Rivera"
              [("score", PInt 150); ("stance", PStr "OPPOSE");
               ("driver_citations",
                PList [PDict [("driver", PStr "intensity"); ("value", PInt 7)];
                       PInt 5; PDict [("value", PNone)]])]
              [PDict [("driver", PStr "intensity"); ("value", PInt 7)];
               PInt 5; PDict [("value", PNone)]]
              150 "city_planner" "James Rivera")
    as (r & Hr & Ha & _ & Hs & Hst & Hc); try reflexivity.
  exists r. repeat split; assumption.
Defined.

Lemma run_single_agent_discards_unreadable_reply_witness :
  Simulation._run_single_agent (RT := SampleRuntime.runtime)
    "city_planner" "James Rivera" (Backboard.Delivered Spec.null_citations_reply)
  = Ok (Spec.failure_fallback "city_planner" "James Rivera" "TypeError").
Proof.
  apply (run_single_agent_discards_unreadable_reply (RT := SampleRuntime.runtime)
           "city_planner" "James Rivera" Spec.null_citations_reply
           [("score", PInt 80); ("driver_citations", PNone)] "TypeError").
  - vm_compute. reflexivity.
  - reflexivity.
  - apply (Spec.bad_citations (RT := SampleRuntime.runtime) _ _ _ TypeError). reflexivity.
Defined.

(** ** Fences around a reply *)

Lemma rstrip_app (s t : string) :
  PyStr.rstrip t <> "" -> PyStr.rstrip (s ++ t) = s ++ PyStr.rstrip t.
Proof.
  intros Ht. induction s as [| c s IH]; [reflexivity |].
  cbn [append PyStr.rstrip]. rewrite IH.
  destruct (s ++ PyStr.rstrip t) eqn:E; [| reflexivity].
  destruct s; [| discriminate E]. cbn in E. contradiction.
Qed.

Lemma rstrip_app_space (s : string) (c : ascii) :
  PyStr.is_space c = true -> PyStr.rstrip (s ++ String c "") = PyStr.rstrip s.
Proof.
  intros Hc. induction s as [| d s IH].
  - cbn. now rewrite Hc.
  - cbn [append PyStr.rstrip]. now rewrite IH.
Qed.

Lemma rstrip_idem (s : string) : PyStr.rstrip (PyStr.rstrip s) = PyStr.rstrip s.
Proof.
  induction s as [| c s IH]; [reflexivity |].
  cbn [PyStr.rstrip]. destruct (PyStr.rstrip s) as [| d u] eqn:E.
  - destruct (PyStr.is_space c) eqn:Hc; [reflexivity |]. cbn. now rewrite Hc.
  - cbn [PyStr.rstrip] in *. rewrite IH. reflexivity.
Qed.

Lemma lstrip_app (s t : string) :
  PyStr.lstrip s <> "" -> PyStr.lstrip (s ++ t) = PyStr.lstrip s ++ t.
Proof.
  induction s as [| c s IH]; intros H; [now contradiction H |].
  cbn [append PyStr.lstrip] in *. destruct (PyStr.is_space c); [now apply IH | reflexivity].
Qed.

Lemma lstrip_app_blank (s t : string) :
  PyStr.lstrip s = "" -> PyStr.lstrip (s ++ t) = PyStr.lstrip t.
Proof.
  induction s as [| c s IH]; intros H; [reflexivity |].
  cbn [append PyStr.lstrip] in *. destruct (PyStr.is_space c); [now apply IH | discriminate H].
Qed.

Lemma lstrip_head (s : string) :
  match PyStr.lstrip s with
  | String c _ => PyStr.is_space c = false
  | EmptyString => True
  end.
Proof.
  induction s as [| c s IH]; [exact I |].
  cbn [PyStr.lstrip]. destruct (PyStr.is_space c) eqn:Hc; [exact IH | exact Hc].
Qed.

Lemma rstrip_head (c : ascii) (s : string) :
  PyStr.is_space c = false -> exists u, PyStr.rstrip (String c s) = String c u.
Proof.
  intros Hc. cbn [PyStr.rstrip]. rewrite Hc. destruct (PyStr.rstrip s); eauto.
Qed.

Lemma strip_idem (s : string) : PyStr.strip (PyStr.strip s) = PyStr.strip s.
Proof.
  unfold PyStr.strip. pose proof (lstrip_head s) as Hh.
  destruct (PyStr.lstrip s) as [| c t] eqn:E; [reflexivity |].
  destruct (rstrip_head c t Hh) as [u Hu].
  assert (Hl : PyStr.lstrip (PyStr.rstrip (String c t)) = PyStr.rstrip (String c t)).
  { rewrite Hu. cbn [PyStr.lstrip]. now rewrite Hh. }
  rewrite Hl. apply rstrip_idem.
Qed.

Lemma strip_app_space (s : string) (c : ascii) :
  PyStr.is_space c = true -> PyStr.strip (s ++ String c "") = PyStr.strip s.
Proof.
  intros Hc. unfold PyStr.strip.
  destruct (PyStr.lstrip s) as [| d t] eqn:E.
  - rewrite lstrip_app_blank by exact E. cbn. now rewrite Hc.
  - rewrite lstrip_app by (rewrite E; discriminate). rewrite E.
    now apply rstrip_app_space.
Qed.

Lemma index_char_app (c : ascii) (s t : string) :
  PyStr.index_char c s = None ->
  PyStr.index_char c (s ++ String c t) = Some (String.length s).
Proof.
  induction s as [| d s IH]; intros H.
  - cbn. now rewrite Ascii.eqb_refl.
  - cbn [append PyStr.index_char String.length] in *.
    destruct (Ascii.eqb c d); [discriminate H |].
    destruct (PyStr.index_char c s); [discriminate H |].
    now rewrite IH.
Qed.

Lemma index_char_app_none (c : ascii) (s t : string) :
  PyStr.index_char c s = None -> PyStr.index_char c t = None ->
  PyStr.index_char c (s ++ t) = None.
Proof.
  induction s as [| d s IH]; intros Hs Ht; [exact Ht |].
  cbn [append PyStr.index_char] in *.
  destruct (Ascii.eqb c d); [discriminate Hs |].
  destruct (PyStr.index_char c s); [discriminate Hs |].
  now rewrite IH.
Qed.

Lemma drop_app (s t : string) : PyStr.drop (String.length s) (s ++ t) = t.
Proof. induction s as [| c s IH]; [reflexivity | exact IH]. Qed.

Lemma substring_app_l (s t : string) :
  String.substring 0 (String.length s) (s ++ t) = s.
Proof.
  induction s as [| c s IH]; cbn [append String.length String.substring].
  - destruct t; reflexivity.
  - now rewrite IH.
Qed.

Lemma append_empty_r (s : string) : s ++ "" = s.
Proof. induction s as [| c s IH]; [reflexivity |]. cbn. now rewrite IH. Qed.

Lemma length_append (s t : string) :
  String.length (s ++ t) = (String.length s + String.length t)%nat.
Proof. induction s as [| c s IH]; [reflexivity |]. cbn. now rewrite IH. Qed.

Lemma append_assoc (s t u : string) : (s ++ t) ++ u = s ++ t ++ u.
Proof. induction s as [| c s IH]; [reflexivity |]. cbn. now rewrite IH. Qed.

Lemma substring_app_r (s t : string) :
  String.substring (String.length s) (String.length t) (s ++ t) = t.
Proof.
  induction s as [| c s IH]; cbn [append String.length String.substring].
  - pose proof (substring_app_l t "") as H. now rewrite append_empty_r in H.
  - exact IH.
Qed.

Lemma endswith_app (s p : string) : PyStr.endswith (s ++ p) p = true.
Proof.
  unfold PyStr.endswith. rewrite length_append.
  replace (String.length s + String.length p - String.length p)%nat
    with (String.length s) by lia.
  rewrite substring_app_r, String.eqb_refl.
  destruct (Nat.leb_spec (String.length p) (String.length s + String.length p)); [reflexivity | lia].
Qed.

Lemma drop_last_app (s p : string) :
  PyStr.drop_last (String.length p) (s ++ p) = s.
Proof.
  unfold PyStr.drop_last. rewrite length_append.
  replace (String.length s + String.length p - String.length p)%nat
    with (String.length s) by lia.
  apply substring_app_l.
Qed.

Lemma startswith_app (p s : string) : PyStr.startswith (p ++ s) p = true.
Proof.
  unfold PyStr.startswith. induction p as [| c p IH]; [now destruct s |].
  cbn [append String.prefix]. destruct (ascii_dec c c) as [_ | N]; [exact IH |].
  now contradiction N.
Qed.

(** A reply fenced as a code block, with or without a language tag, is
    cleaned to its body without the surrounding white space. *)
Theorem strip_fences_fenced_block (tag body : string) :
  Spec.lacks PyStr.newline tag ->
  Backboard.strip_fences
    (Backboard.fence ++ tag ++ Spec.newline_text ++ body ++ Spec.newline_text ++ Backboard.fence)
  = PyStr.strip body.
Proof.
  intros Htag. unfold Backboard.strip_fences.
  set (raw := Backboard.fence ++ tag ++ Spec.newline_text ++ body ++ Spec.newline_text
              ++ Backboard.fence).
  assert (Hstrip : PyStr.strip raw = raw).
  { unfold PyStr.strip. replace (PyStr.lstrip raw) with raw by reflexivity.
    unfold raw. rewrite <- !append_assoc. rewrite rstrip_app; [reflexivity |].
    cbv. discriminate. }
  rewrite Hstrip.
  assert (Hsw : PyStr.startswith raw Backboard.fence = true)
    by apply startswith_app.
  rewrite Hsw.
  assert (Hidx : PyStr.index_char PyStr.newline raw
                 = Some (String.length (Backboard.fence ++ tag))).
  { unfold raw, Spec.newline_text. rewrite <- append_assoc. cbn [append].
    apply index_char_app.
    apply index_char_app_none; [reflexivity | exact Htag]. }
  rewrite Hidx.
  replace (String.length (Backboard.fence ++ tag) + 1)%nat
    with (String.length ((Backboard.fence ++ tag) ++ Spec.newline_text))
    by (rewrite length_append; reflexivity).
  replace raw
    with (((Backboard.fence ++ tag) ++ Spec.newline_text)
          ++ (body ++ Spec.newline_text) ++ Backboard.fence)
    by (unfold raw; now rewrite !append_assoc).
  rewrite drop_app, endswith_app.
  change 3%nat with (String.length Backboard.fence).
  rewrite drop_last_app.
  apply strip_app_space. reflexivity.
Qed.

(** A fenced reply on one line loses the first character of its payload: the
    code takes the fence to end at the fourth character when the text has no
    line break. *)
Theorem strip_fences_one_line (c : ascii) (body : string) :
  c <> PyStr.newline -> Spec.lacks PyStr.newline body ->
  Backboard.strip_fences (Backboard.fence ++ String c body ++ Backboard.fence)
  = PyStr.strip body.
Proof.
  intros Hc Hbody. unfold Backboard.strip_fences.
  set (raw := Backboard.fence ++ String c body ++ Backboard.fence).
  assert (Hstrip : PyStr.strip raw = raw).
  { unfold PyStr.strip. replace (PyStr.lstrip raw) with raw by reflexivity.
    unfold raw. rewrite <- !append_assoc. rewrite rstrip_app; [reflexivity |].
    cbv. discriminate. }
  rewrite Hstrip.
  assert (Hsw : PyStr.startswith raw Backboard.fence = true)
    by apply startswith_app.
  rewrite Hsw.
  assert (Hidx : PyStr.index_char PyStr.newline raw = None).
  { unfold raw. apply index_char_app_none; [reflexivity |].
    cbn [append PyStr.index_char].
    destruct (Ascii.eqb_spec PyStr.newline c) as [E | _]; [now contradiction Hc |].
    rewrite index_char_app_none; [reflexivity | exact Hbody | reflexivity]. }
  rewrite Hidx.
  replace (PyStr.drop (3 + 1) raw) with (body ++ Backboard.fence) by reflexivity.
  rewrite endswith_app.
  change 3%nat with (String.length Backboard.fence).
  now rewrite drop_last_app.
Qed.

(** A reply that, trimmed, neither starts nor ends with a fence is only
    trimmed. *)
Theorem strip_fences_plain_text (raw : string) :
  PyStr.startswith (PyStr.strip raw) Backboard.fence = false ->
  PyStr.endswith (PyStr.strip raw) Backboard.fence = false ->
  Backboard.strip_fences raw = PyStr.strip raw.
Proof.
  intros Hs He. unfold Backboard.strip_fences. rewrite Hs, He. apply strip_idem.
Qed.

Lemma strip_fences_fenced_block_witness :
  Backboard.strip_fences
    (Backboard.fence ++ "json" ++ Spec.newline_text ++ "  {}" ++ Spec.newline_text ++ Backboard.fence)
  = "{}".
Proof.
  rewrite (strip_fences_fenced_block "json" "  {}").
  - reflexivity.
  - reflexivity.
Defined.

Lemma strip_fences_one_line_witness :
  Backboard.strip_fences "```{}```" = "}".
Proof.
  apply (strip_fences_one_line "{" "}").
  - discriminate.
  - reflexivity.
Defined.

Lemma strip_fences_plain_text_witness :
  Backboard.strip_fences "  {}  " = "{}".
Proof.
  rewrite (strip_fences_plain_text "  {}  "); reflexivity.
Defined.

(** ** The notes and the mean of the aggregate *)

Lemma insert_by_score_in (r x : Schemas.AgentReaction) (l : list Schemas.AgentReaction) :
  In x (Simulation.insert_by_score r l) <-> x = r \/ In x l.
Proof.
  induction l as [| y l IH]; cbn [Simulation.insert_by_score].
  - cbn. intuition.
  - destruct (Schemas.score r <=? Schemas.score y); cbn [In]; [intuition |].
    rewrite IH. intuition.
Qed.

Lemma sorted_by_score_in (x : Schemas.AgentReaction) (rs : list Schemas.AgentReaction) :
  In x (Simulation.sorted_by_score rs) <-> In x rs.
Proof.
  induction rs as [| r rs IH]; [reflexivity |].
  unfold Simulation.sorted_by_score in *. cbn [fold_right].
  rewrite insert_by_score_in, IH. cbn. intuition.
Qed.

Lemma insert_by_score_nonempty (r : Schemas.AgentReaction) (l : list Schemas.AgentReaction) :
  Simulation.insert_by_score r l <> [].
Proof.
  destruct l as [| y l]; cbn; [discriminate |].
  destruct (Schemas.score r <=? Schemas.score y); discriminate.
Qed.

Lemma last_cons_nonempty {A : Type} (x d : A) (l : list A) :
  l <> [] -> last (x :: l) d = last l d.
Proof. destruct l; [congruence | reflexivity]. Qed.

Lemma last_default {A : Type} (d d' : A) (l : list A) :
  l <> [] -> last l d = last l d'.
Proof.
  induction l as [| x l IH]; [congruence |]. intros _.
  destruct l as [| y l]; [reflexivity |].
  cbn [last] in *. apply IH. discriminate.
Qed.

Lemma last_insert_by_score (r d : Schemas.AgentReaction) (l : list Schemas.AgentReaction) :
  last (Simulation.insert_by_score r l) d
  = if existsb (fun x => Schemas.score r <=? Schemas.score x) l then last l d else r.
Proof.
  induction l as [| x l IH]; [reflexivity |].
  cbn [Simulation.insert_by_score existsb].
  destruct (Schemas.score r <=? Schemas.score x) eqn:E; cbn [orb].
  - reflexivity.
  - rewrite last_cons_nonempty by apply insert_by_score_nonempty.
    rewrite IH. destruct (existsb _ l) eqn:Ex; [| reflexivity].
    symmetry. apply last_cons_nonempty. intros ->. discriminate Ex.
Qed.

Lemma sorted_head_first_lowest (r : Schemas.AgentReaction) (rs : list Schemas.AgentReaction) :
  exists lo rest,
    Simulation.sorted_by_score (r :: rs) = lo :: rest /\ Spec.first_lowest lo (r :: rs).
Proof.
  revert r. induction rs as [| r' rs IH]; intros r.
  - exists r, []. split; [reflexivity |]. exists [], []. repeat split; constructor.
  - destruct (IH r') as (lo & rest & Hs & before & after & Heq & Hb & Ha).
    change (Simulation.sorted_by_score (r :: r' :: rs))
      with (Simulation.insert_by_score r (Simulation.sorted_by_score (r' :: rs))).
    rewrite Hs. cbn [Simulation.insert_by_score].
    destruct (Z.leb_spec (Schemas.score r) (Schemas.score lo)) as [Hle | Hgt].
    + exists r, (lo :: rest). split; [reflexivity |].
      exists [], (r' :: rs). split; [reflexivity |]. split; [constructor |].
      rewrite Heq. apply Forall_app. split.
      * eapply Forall_impl; [| exact Hb]. cbn. intros; lia.
      * constructor; [exact Hle |].
        eapply Forall_impl; [| exact Ha]. cbn. intros; lia.
    + exists lo, (Simulation.insert_by_score r rest). split; [reflexivity |].
      exists (r :: before), after. rewrite Heq. split; [reflexivity |].
      split; [constructor; [exact Hgt | exact Hb] | exact Ha].
Qed.

Lemma sorted_last_highest (r d : Schemas.AgentReaction) (rs : list Schemas.AgentReaction) :
  Spec.last_highest (last (Simulation.sorted_by_score (r :: rs)) d) (r :: rs).
Proof.
  revert r. induction rs as [| r' rs IH]; intros r.
  - exists [], []. repeat split; constructor.
  - specialize (IH r').
    change (Simulation.sorted_by_score (r :: r' :: rs))
      with (Simulation.insert_by_score r (Simulation.sorted_by_score (r' :: rs))).
    rewrite last_insert_by_score.
    set (hi := last (Simulation.sorted_by_score (r' :: rs)) d) in *.
    destruct IH as (before & after & Heq & Hb & Ha).
    assert (Hmax : forall x, In x (r' :: rs) -> Schemas.score x <= Schemas.score hi).
    { intros x Hx. rewrite Heq in Hx. apply in_app_or in Hx.
      rewrite Forall_forall in Hb, Ha.
      destruct Hx as [Hx | [<- | Hx]]; [now apply Hb | lia |].
      specialize (Ha x Hx). lia. }
    destruct (existsb _ (Simulation.sorted_by_score (r' :: rs))) eqn:Ex.
    + apply existsb_exists in Ex. destruct Ex as (x & Hx & Hle).
      apply (proj1 (sorted_by_score_in _ _)) in Hx. apply Hmax in Hx.
      apply Z.leb_le in Hle.
      exists (r :: before), after. rewrite Heq. split; [reflexivity |].
      split; [constructor; [lia | exact Hb] | exact Ha].
    + exists [], (r' :: rs). split; [reflexivity |]. split; [constructor |].
      apply Forall_forall. intros x Hx.
      apply (proj2 (sorted_by_score_in _ _)) in Hx.
      assert (Hn : (Schemas.score r <=? Schemas.score x) = false).
      { destruct (Schemas.score r <=? Schemas.score x) eqn:E; [| reflexivity].
        rewrite <- Ex. symmetry. apply existsb_exists. eauto. }
      apply Z.leb_gt in Hn. exact Hn.
Qed.

Lemma aggregate_nonempty_notes ARCHETYPES rs det :
  rs <> [] ->
  exists sentiment final n1 n2,
    Simulation._aggregate ARCHETYPES rs det
    = Ok {| Schemas.sentiment_score := sentiment;
            Schemas.final_score := final;
            Schemas.notes :=
              ([n1; n2] ++ Simulation.extreme_notes (Simulation.sorted_by_score rs))%list |}.
Proof.
  intros Hne. destruct rs as [| r rs]; [congruence |].
  unfold Simulation._aggregate.
  destruct (Simulation.weigh ARCHETYPES (r :: rs)) as [t w].
  unfold PyFloat.truthy, PyFloat.truediv.
  destruct (PrimFloat.eqb t 0); cbn [negb bind]; do 4 eexists; reflexivity.
Qed.

(** The notes of a non-empty aggregation are four lines, and the last two
    name the reaction with the lowest score and the one with the highest; the
    sort being stable, among equal scores the most critical is the first of
    the list and the most supportive the last. *)
Theorem aggregate_names_extremes (ARCHETYPES : list Agents.AgentArchetype)
    (reactions : list Schemas.AgentReaction) (deterministic_acceptance : float) :
  reactions <> [] ->
  exists agg n1 n2 lo hi,
    Simulation._aggregate ARCHETYPES reactions deterministic_acceptance = Ok agg /\
    Schemas.notes agg
    = [n1; n2; Spec.note_for "Most critical: " lo; Spec.note_for "Most supportive: " hi] /\
    Spec.first_lowest lo reactions /\ Spec.last_highest hi reactions.
Proof.
  intros Hne.
  destruct (aggregate_nonempty_notes ARCHETYPES reactions deterministic_acceptance Hne)
    as (s & f & n1 & n2 & Hagg).
  destruct reactions as [| r rs]; [congruence |].
  destruct (sorted_head_first_lowest r rs) as (lo & rest & Hs & Hlo).
  pose proof (sorted_last_highest r lo rs) as Hhi.
  eexists. exists n1, n2, lo, (last (Simulation.sorted_by_score (r :: rs)) lo).
  split; [exact Hagg |]. split; [| split; assumption].
  cbn [Schemas.notes]. rewrite Hs. reflexivity.
Qed.

Lemma sentiment_of_unit (ARCHETYPES : list Agents.AgentArchetype)
    (reactions : list Schemas.AgentReaction) :
  Spec.unit_weights ARCHETYPES -> Spec.valid_scores reactions ->
  reactions <> [] -> Z.of_nat (List.length reactions) <= 2 ^ 46 ->
  Spec.sentiment_of (Spec.total_weight ARCHETYPES reactions)
    (Spec.weighted_sum ARCHETYPES reactions)
  = PyFloat.round1 (PyFloat.float_of_int (Spec.score_sum reactions)
                    / PyFloat.float_of_int (Z.of_nat (List.length reactions)))%float.
Proof.
  intros Hw Hv Hne Hlen.
  pose proof (weigh_unit ARCHETYPES reactions Hw Hv Hlen) as Hweigh.
  rewrite weigh_sums in Hweigh. injection Hweigh as Ht Hs. rewrite Ht, Hs.
  unfold Spec.sentiment_of.
  assert (Hnz : PrimFloat.eqb (PyFloat.float_of_int (Z.of_nat (List.length reactions))) 0
                = false).
  { rewrite FloatAxioms.eqb_spec, float_of_int_pos.
    - reflexivity.
    - destruct reactions; [congruence |]. cbn [List.length] in *.
      assert (2 ^ 46 < 2 ^ 53) by (vm_compute; reflexivity). lia. }
  rewrite Hnz. reflexivity.
Qed.

(** With unit weights, as in the shipped catalogue, the sentiment is the
    plain mean of the scores: the sum of the scores, computed without
    rounding, divided by the number of reactions and rounded to one
    decimal. *)
Theorem aggregate_unit_weights_plain_mean (ARCHETYPES : list Agents.AgentArchetype)
    (reactions : list Schemas.AgentReaction) (deterministic_acceptance : float) :
  Spec.unit_weights ARCHETYPES -> Spec.valid_scores reactions ->
  reactions <> [] -> Z.of_nat (List.length reactions) <= 2 ^ 46 ->
  exists agg,
    Simulation._aggregate ARCHETYPES reactions deterministic_acceptance = Ok agg /\
    Schemas.sentiment_score agg
    = PyFloat.round1 (PyFloat.float_of_int (Spec.score_sum reactions)
                      / PyFloat.float_of_int (Z.of_nat (List.length reactions)))%float /\
    Schemas.final_score agg
    = Simulation.blend deterministic_acceptance (Schemas.sentiment_score agg).
Proof.
  intros Hw Hv Hne Hlen.
  destruct (aggregate_nonempty ARCHETYPES reactions deterministic_acceptance Hne)
    as [notes Hagg].
  eexists. split; [exact Hagg |].
  cbn [Schemas.sentiment_score Schemas.final_score].
  split; [| reflexivity].
  now apply sentiment_of_unit.
Qed.

Lemma aggregate_names_extremes_witness :
  exists agg,
    Simulation._aggregate Agents.ARCHETYPES
      [Spec.reaction "a" 40; Spec.reaction "b" 70; Spec.reaction "c" 40;
       Spec.reaction "d" 70] 80%float = Ok agg /\
    nth 2 (Schemas.notes agg) "" = "Most critical: a (40)" /\
    nth 3 (Schemas.notes agg) "" = "Most supportive: d (70)".
Proof.
  destruct (aggregate_names_extremes Agents.ARCHETYPES
              [Spec.reaction "a" 40; Spec.reaction "b" 70; Spec.reaction "c" 40;
               Spec.reaction "d" 70] 80%float ltac:(discriminate))
    as (agg & n1 & n2 & lo & hi & Hagg & _).
  exists agg. split; [exact Hagg |].
  vm_compute in Hagg. injection Hagg as <-. split; reflexivity.
Defined.

Lemma aggregate_unit_weights_plain_mean_witness :
  exists agg,
    Simulation._aggregate Agents.ARCHETYPES
      [Spec.reaction "student_renter" 100; Spec.reaction "city_planner" 0;
       Spec.reaction "unknown" 0] 80%float = Ok agg /\
    Schemas.sentiment_score agg = 33.3%float /\
    Schemas.final_score agg = 66%float.
Proof.
  destruct (aggregate_unit_weights_plain_mean Agents.ARCHETYPES
              [Spec.reaction "student_renter" 100; Spec.reaction "city_planner" 0;
               Spec.reaction "unknown" 0] 80%float)
    as (agg & Hagg & Hs & Hf).
  - repeat constructor.
  - repeat constructor; cbn; lia.
  - discriminate.
  - cbn. lia.
  - exists agg. split; [exact Hagg |].
    rewrite Hf, Hs. split; vm_compute; reflexivity.
Defined.

(** ** Degraded runs *)

Lemma score_sum_constant (rs : list Schemas.AgentReaction) (z : Z) :
  Forall (fun r => Schemas.score r = z) rs ->
  Spec.score_sum rs = z * Z.of_nat (List.length rs).
Proof.
  induction 1 as [| r rs Hr _ IH]; cbn [Spec.score_sum fold_right List.length]; [lia |].
  fold (Spec.score_sum rs). rewrite IH, Hr. lia.
Qed.

Section Degraded.
Context {RT : PyRuntime}.

Lemma reactions_of_fallbacks (env : Simulation.Env)
    (ARCHETYPES : list Agents.AgentArchetype) :
  (forall arch, In arch ARCHETYPES ->
                Spec.invocation_fails (Agents.id arch) (Agents.display_name arch)
                  (Simulation.env_reply env arch)) ->
  Forall (fun r => Schemas.score r = 50 /\ Schemas.stance r = "neutral" /\
                   Schemas.driver_citations r = [])
         (Spec.reactions_of env ARCHETYPES).
Proof.
  intros Hfail. unfold Spec.reactions_of. apply Forall_map, Forall_forall.
  intros arch Hin.
  apply (Permutation_in _ (as_completed_perm _ _)) in Hin.
  destruct (run_single_agent_failure _ _ _ (Hfail arch Hin))
    as (r & Hr & _ & _ & Hst & Hs & _ & _ & _ & Hc).
  rewrite run_single_agent_reaction_of in Hr. injection Hr as <-. auto.
Qed.

(** A run in which every agent fails still completes: each stored reaction is
    the neutral fallback with a score of 50, the sentiment is 50.0, and the
    final score blends the deterministic acceptance with it. *)
Theorem run_simulation_all_agents_failing
    (env : Simulation.Env)
    (fresh_id now : string) (clock : float) (model_id : string)
    (building : Schemas.BuildingPayload) (impacts : Schemas.ImpactPayload)
    (m : string) (ms : Z) :
  let job := Simulation.create_job Agents.ARCHETYPES fresh_id now clock model_id
               building impacts in
  Simulation.env_user_message env = Ok m ->
  (forall arch, In arch Agents.ARCHETYPES ->
                exists p, Simulation.env_system_prompt env arch = Ok p) ->
  PyFloat.int_of_float ((Simulation.env_monotonic env - clock) * 1000)%float = Ok ms ->
  (forall arch, In arch Agents.ARCHETYPES ->
                Spec.invocation_fails (Agents.id arch) (Agents.display_name arch)
                  (Simulation.env_reply env arch)) ->
  let final := snd (fst (Simulation.run_simulation Agents.ARCHETYPES env job)) in
  Simulation.status final = "complete" /\
  exists r,
    Simulation.result final = Some r /\
    Forall (fun a => Schemas.score a = 50 /\ Schemas.stance a = "neutral" /\
                     Schemas.driver_citations a = [])
           (Schemas.agents r) /\
    Schemas.sentiment_score (Schemas.aggregate r) = 50%float /\
    Schemas.final_score (Schemas.aggregate r)
    = PyFloat.round1
        (Config.ALPHA
         * Schemas.deterministic_acceptance (Schemas.scores impacts)
         + (1 - Config.ALPHA) * 50)%float /\
    Schemas.run_ms (Schemas.metadata r) = ms.
Proof.
  intros job Hm Hprompts Hclock Hfail.
  destruct (make_tasks_total env Agents.ARCHETYPES Hprompts) as [tasks Ht].
  pose proof (reactions_of_fallbacks env Agents.ARCHETYPES Hfail) as Hfb.
  assert (Hne : Spec.reactions_of env Agents.ARCHETYPES <> []).
  { intros E. apply (f_equal (@List.length _)) in E.
    rewrite reactions_of_length in E. discriminate E. }
  destruct (aggregate_nonempty Agents.ARCHETYPES (Spec.reactions_of env Agents.ARCHETYPES)
              (Schemas.deterministic_acceptance (Schemas.scores impacts)) Hne)
    as [notes Hagg].
  set (agg := {| Schemas.sentiment_score := _ |}) in Hagg.
  assert (Hsent : Schemas.sentiment_score agg
                  = PyFloat.round1
                      (PyFloat.float_of_int
                         (Spec.score_sum (Spec.reactions_of env Agents.ARCHETYPES))
                       / PyFloat.float_of_int
                           (Z.of_nat (List.length (Spec.reactions_of env Agents.ARCHETYPES))))%float).
  { apply sentiment_of_unit;
      [exact unit_weights_ARCHETYPES | apply reactions_of_valid | exact Hne |].
    rewrite reactions_of_length. cbn. lia. }
  assert (Hfinal : Schemas.final_score agg
                   = Simulation.blend
                       (Schemas.deterministic_acceptance (Schemas.scores impacts))
                       (Schemas.sentiment_score agg)) by reflexivity.
  clearbody agg.
  pose proof (body_collected Agents.ARCHETYPES env job m tasks agg
                progress_table_ARCHETYPES Hm Ht Hagg) as Hb.
  change (Simulation.started_at job) with clock in Hb. rewrite Hclock in Hb.
  cbv zeta. rewrite (run_simulation_ok _ _ _ _ _ Hb). cbn [fst snd].
  rewrite replay_app.
  set (job1 := Simulation.replay job (Spec.collected_events Agents.ARCHETYPES)).
  split; [reflexivity |].
  eexists. split; [reflexivity |].
  cbn [Spec.simulate_result Schemas.agents Schemas.aggregate Schemas.metadata
       Schemas.run_ms].
  split; [exact Hfb |].
  assert (Hs50 : Schemas.sentiment_score agg = 50%float).
  { rewrite Hsent, (score_sum_constant _ 50), reactions_of_length.
    - vm_compute. reflexivity.
    - revert Hfb. apply Forall_impl. intros r (H & _). exact H. }
  split; [exact Hs50 |]. split; [| reflexivity].
  rewrite Hfinal, Hs50. reflexivity.
Qed.

End Degraded.

Lemma run_simulation_all_agents_failing_witness :
  exists r,
    Simulation.result
      (snd (fst (Simulation.run_simulation (RT := SampleRuntime.runtime)
                   Agents.ARCHETYPES Spec.silent_env Spec.sample_job))) = Some r /\
    Schemas.sentiment_score (Schemas.aggregate r) = 50%float /\
    Schemas.final_score (Schemas.aggregate r) = 71%float /\
    Schemas.run_ms (Schemas.metadata r) = 25500.
Proof.
  destruct (run_simulation_all_agents_failing (RT := SampleRuntime.runtime)
              Spec.silent_env "job-1" "2025-01-01T00:00:00+00:00" 10%float
              "amazon/nova-micro-v1" Spec.sample_building Spec.sample_impacts
              "facts" 25500)
    as (_ & r & Hr & _ & Hs & Hf & Hms).
  - reflexivity.
  - intros arch _. exists "persona". reflexivity.
  - vm_compute. reflexivity.
  - intros arch _. exact I.
  - exists r. split; [exact Hr |]. split; [exact Hs |]. split; [| exact Hms].
    rewrite Hf. vm_compute. reflexivity.
Defined.

(** ** The job store and the endpoints *)

Lemma get_job_store_job (_jobs : Simulation.job_store) (job : Simulation.Job) :
  Simulation.get_job (Simulation.store_job _jobs job) (Simulation.id job) = Some job.
Proof.
  induction _jobs as [| [k j] rest IH]; cbn [Simulation.store_job Simulation.get_job].
  - now rewrite String.eqb_refl.
  - destruct (String.eqb k (Simulation.id job)) eqn:E; cbn [Simulation.get_job]; rewrite E;
      [reflexivity | exact IH].
Qed.

Lemma get_job_store_job_other (_jobs : Simulation.job_store) (job : Simulation.Job)
    (job_id : string) :
  job_id <> Simulation.id job ->
  Simulation.get_job (Simulation.store_job _jobs job) job_id = Simulation.get_job _jobs job_id.
Proof.
  intros Hne. induction _jobs as [| [k j] rest IH]; cbn [Simulation.store_job Simulation.get_job].
  - destruct (String.eqb_spec (Simulation.id job) job_id); [congruence | reflexivity].
  - destruct (String.eqb_spec k (Simulation.id job)) as [-> | Hk]; cbn [Simulation.get_job].
    + destruct (String.eqb_spec (Simulation.id job) job_id); [congruence | reflexivity].
    + destruct (String.eqb k job_id); [reflexivity | exact IH].
Qed.

Lemma contains_In (l : list string) (x : string) :
  Main.contains l x = true <-> In x l.
Proof.
  unfold Main.contains. rewrite existsb_exists. split.
  - intros (y & Hy & E). apply String.eqb_eq in E. now subst.
  - intros H. exists x. split; [exact H | apply String.eqb_refl].
Qed.

Lemma apply_event_id (job : Simulation.Job) (ev : Simulation.event) :
  Simulation.id (Simulation.apply_event job ev) = Simulation.id job.
Proof. now destruct ev as [[] |]. Qed.

Lemma states_id (job : Simulation.Job) (trace : list Simulation.event) :
  Forall (fun s => Simulation.id s = Simulation.id job) (Simulation.states job trace).
Proof.
  revert job. induction trace as [| ev trace IH]; intros job; cbn; constructor.
  - apply apply_event_id.
  - specialize (IH (Simulation.apply_event job ev)).
    revert IH. apply Forall_impl. intros s ->. apply apply_event_id.
Qed.

Lemma snapshots_id (job : Simulation.Job) (trace : list Simulation.event) :
  Forall (fun s => Simulation.id s = Simulation.id job) (Simulation.snapshots job trace).
Proof.
  revert job. induction trace as [| [w |] trace IH]; intros job;
    cbn [Simulation.snapshots].
  - constructor.
  - specialize (IH (Simulation.apply_write job w)).
    revert IH. apply Forall_impl. intros s ->. now destruct w.
  - constructor; [reflexivity | apply IH].
Qed.

Lemma simulation_status_in_bounds (_jobs : Simulation.job_store) (s : Simulation.Job) :
  0 <= Simulation.progress s <= 100 ->
  Main.simulation_status (Simulation.store_job _jobs s) (Simulation.id s) = Ok (Spec.status_of s).
Proof.
  intros Hp. unfold Main.simulation_status, Schemas.new_SimulateStatus.
  rewrite get_job_store_job.
  destruct (Z.leb_spec 0 (Simulation.progress s)); [| lia].
  destruct (Z.leb_spec (Simulation.progress s) 100); [| lia].
  reflexivity.
Qed.

Lemma simulation_result_in_flight (_jobs : Simulation.job_store) (s : Simulation.Job) :
  Simulation.result s = None -> Simulation.status s <> "error" ->
  Main.simulation_result (Simulation.store_job _jobs s) (Simulation.id s)
  = Err Spec.not_yet_complete.
Proof.
  intros Hr Hs. unfold Main.simulation_result. rewrite get_job_store_job, Hr.
  destruct (String.eqb_spec (Simulation.status s) "error"); [contradiction |].
  now destruct (String.eqb (Simulation.status s) "complete").
Qed.

Section Endpoints.
Context {RT : PyRuntime}.
Variable _jobs : Simulation.job_store.
Variable env : Simulation.Env.
Variables (fresh_id now : string) (clock : float) (model_id : string).
Variable building : Schemas.BuildingPayload.
Variable impacts : Schemas.ImpactPayload.

Let job : Simulation.Job :=
  Simulation.create_job Agents.ARCHETYPES fresh_id now clock model_id building impacts.
Let run := Simulation.run_simulation Agents.ARCHETYPES env job.

Lemma shipped_states_bounds :
  Forall (fun s => 0 <= Simulation.progress s <= 100)
         (Simulation.states job (fst (fst run))).
Proof.
  destruct (shipped_run env fresh_id now clock model_id building impacts)
    as (trace & Hrun & _ & Hn & _ & Hfin).
  fold job in Hrun, Hn, Hfin. fold run in Hrun.
  rewrite Hrun. cbn [fst].
  destruct (nondecreasing_states job trace Hn) as (_ & _ & Hall).
  assert (Hfinal : Simulation.progress (Simulation.replay job trace) <= 100).
  { destruct Hfin as [(_ & Hp & _) | (_ & _ & [[Hp _] | [Hp _]] & _)];
      rewrite Hp; lia. }
  revert Hall. apply Forall_impl. intros s Hs.
  cbn [job Simulation.create_job Simulation.progress] in Hs. lia.
Qed.

(** The status endpoint never fails on a job that exists: before the run and
    after each of its writes, the progress passes the validation of the
    response model, and the response shows the fields of the job as they
    are. *)
Theorem simulation_status_always_valid :
  Forall (fun s => Main.simulation_status (Simulation.store_job _jobs s) fresh_id
                   = Ok (Spec.status_of s))
         (job :: Simulation.states job (fst (fst run))).
Proof.
  constructor.
  - apply (simulation_status_in_bounds _jobs job). cbn. lia.
  - pose proof shipped_states_bounds as Hb. pose proof (states_id job (fst (fst run))) as Hi.
    rewrite Forall_forall in *. intros s Hs.
    specialize (Hb s Hs). specialize (Hi s Hs). cbn in Hi. rewrite <- Hi.
    now apply simulation_status_in_bounds.
Qed.

(** The result endpoint over the life of a job: it answers 409 before the
    run and at every suspension of the run; once the run has ended it answers
    with the stored result, or with 500 and the description of the exception
    (the words "Simulation failed" when the description is empty). *)
Theorem simulation_result_gate :
  Forall (fun s => Main.simulation_result (Simulation.store_job _jobs s) fresh_id
                   = Err Spec.not_yet_complete)
         (job :: Simulation.snapshots job (fst (fst run))) /\
  let final := snd (fst run) in
  (exists r, Simulation.result final = Some r /\
             List.length (Schemas.agents r) = List.length Agents.ARCHETYPES /\
             Main.simulation_result (Simulation.store_job _jobs final) fresh_id = Ok r)
  \/ (exists exc,
        Main.simulation_result (Simulation.store_job _jobs final) fresh_id
        = Err (Main.HTTPException 500
                 (if String.eqb (exn_str exc) "" then "Simulation failed"
                  else exn_str exc))).
Proof.
  destruct (shipped_run env fresh_id now clock model_id building impacts)
    as (trace & Hrun & _ & _ & Hs & Hfin).
  fold job in Hrun, Hs, Hfin. fold run in Hrun.
  rewrite Hrun. cbn [fst snd]. split.
  - constructor.
    + apply (simulation_result_in_flight _jobs job); [reflexivity | discriminate].
    + pose proof (snapshots_id job trace) as Hi.
      rewrite Forall_forall in *. intros s Hin.
      specialize (Hs s Hin). specialize (Hi s Hin). cbn in Hi. rewrite <- Hi.
      destruct Hs as (Hst & _ & _ & Hr & _).
      apply simulation_result_in_flight; [exact Hr |].
      rewrite Hst. discriminate.
  - cbv zeta.
    destruct (replay_constant job trace) as (Hid & _). cbn in Hid.
    rewrite <- Hid.
    destruct Hfin as [(Hst & _ & _ & _ & _ & _ & agg & ms & _ & Hres)
                     | (Hst & Hres & _ & exc & Herr & _)].
    + left. eexists. split; [exact Hres |]. split.
      * cbn [Spec.simulate_result Schemas.agents]. apply reactions_of_length.
      * unfold Main.simulation_result. rewrite get_job_store_job, Hst, Hres.
        reflexivity.
    + right. exists exc.
      unfold Main.simulation_result. rewrite get_job_store_job, Hst, Herr.
      reflexivity.
Qed.

End Endpoints.

(** A request for a model of the allow-list stores a queued job under the
    fresh identifier, schedules its run and answers with the identifier; the
    other jobs of the store are as they were, and the two polling endpoints
    find the job at once. *)
Theorem start_simulation_registers_job (_jobs : Simulation.job_store)
    (fresh_id now : string) (clock : float) (req : Main.SimulateRequest) :
  In (Main.model_id req) Config.ALLOWED_MODELS ->
  exists _jobs' job,
    Main.start_simulation _jobs Agents.ARCHETYPES fresh_id now clock req
    = (_jobs', Some job, Ok {| Schemas.job_id := fresh_id |}) /\
    job = Simulation.create_job Agents.ARCHETYPES fresh_id now clock
            (Main.model_id req) (Main.building req) (Main.impacts req) /\
    Simulation.get_job _jobs' fresh_id = Some job /\
    (forall job_id, job_id <> fresh_id ->
                    Simulation.get_job _jobs' job_id = Simulation.get_job _jobs job_id) /\
    Main.simulation_status _jobs' fresh_id
    = Ok {| Schemas.status := "queued"; Schemas.progress := 0;
            Schemas.phase := ""; Schemas.message := "";
            Schemas.partial :=
              Some {| Schemas.agents_done := 0; Schemas.agents_total := 6 |} |} /\
    Main.simulation_result _jobs' fresh_id = Err Spec.not_yet_complete.
Proof.
  intros Hin. apply contains_In in Hin.
  unfold Main.start_simulation, Simulation.create_job_in. rewrite Hin. cbn [negb].
  set (job := Simulation.create_job Agents.ARCHETYPES fresh_id now clock
                (Main.model_id req) (Main.building req) (Main.impacts req)).
  exists (Simulation.store_job _jobs job), job.
  split; [reflexivity | split; [reflexivity |]].
  split; [apply (get_job_store_job _jobs job) |].
  split; [intros k Hk; now apply get_job_store_job_other |].
  split.
  - apply (simulation_status_in_bounds _jobs job). cbn. lia.
  - apply (simulation_result_in_flight _jobs job); [reflexivity | discriminate].
Qed.

(** A request for a model outside the allow-list is refused with status 400:
    no job is stored and no run is scheduled. *)
Theorem start_simulation_rejects_unlisted_model (_jobs : Simulation.job_store)
    (ARCHETYPES : list Agents.AgentArchetype)
    (fresh_id now : string) (clock : float) (req : Main.SimulateRequest) :
  ~ In (Main.model_id req) Config.ALLOWED_MODELS ->
  Main.start_simulation _jobs ARCHETYPES fresh_id now clock req
  = (_jobs, None,
     Err (Main.HTTPException 400
            ("Model '" ++ Main.model_id req ++ "' is not in the allowlist. Allowed: "
             ++ "['amazon/nova-micro-v1', 'amazon/nova-lite-v1', "
             ++ "'anthropic/claude-3-haiku', 'anthropic/claude-3.5-sonnet', "
             ++ "'gemini-2.0-flash-lite-001', 'gemini-2.0-flash', "
             ++ "'meta/llama-3.1-8b-instruct', 'mistral/mistral-small-latest']"))).
Proof.
  intros Hin. unfold Main.start_simulation.
  destruct (Main.contains Config.ALLOWED_MODELS (Main.model_id req)) eqn:E.
  - apply contains_In in E. contradiction.
  - reflexivity.
Qed.

Lemma start_simulation_registers_job_witness :
  exists _jobs' job,
    Main.start_simulation [] Agents.ARCHETYPES "job-1" "2025-01-01T00:00:00+00:00"
      10%float (Spec.sample_request "gemini-2.0-flash")
    = (_jobs', Some job, Ok {| Schemas.job_id := "job-1" |}) /\
    Simulation.get_job _jobs' "job-1" = Some job /\
    Simulation.status job = "queued".
Proof.
  destruct (start_simulation_registers_job [] "job-1" "2025-01-01T00:00:00+00:00"
              10%float (Spec.sample_request "gemini-2.0-flash"))
    as (_jobs' & job & Hs & Hj & Hg & _).
  - cbn. auto 10.
  - exists _jobs', job. split; [exact Hs | split; [exact Hg |]].
    rewrite Hj. reflexivity.
Defined.

Lemma start_simulation_rejects_unlisted_model_witness :
  fst (Main.start_simulation [] Agents.ARCHETYPES "job-1" "2025-01-01T00:00:00+00:00"
         10%float (Spec.sample_request "gpt-4"))
  = ([], None).
Proof.
  rewrite (start_simulation_rejects_unlisted_model [] Agents.ARCHETYPES "job-1"
             "2025-01-01T00:00:00+00:00" 10%float (Spec.sample_request "gpt-4")).
  - reflexivity.
  - cbn. intros H. repeat (destruct H as [H | H]; [discriminate H |]). exact H.
Defined.

(** ** The assistant cache and the provider *)

Lemma get_set_same (key : string) (v : pyobj) (d : list (string * pyobj)) :
  PyObj.get key (PyObj.set key v d) = Some v.
Proof.
  induction d as [| [k v'] d IH]; cbn [PyObj.set PyObj.get].
  - now rewrite String.eqb_refl.
  - destruct (String.eqb k key) eqn:E; cbn [PyObj.get]; rewrite E; [reflexivity | exact IH].
Qed.

Lemma get_set_other (key key' : string) (v : pyobj) (d : list (string * pyobj)) :
  key' <> key -> PyObj.get key' (PyObj.set key v d) = PyObj.get key' d.
Proof.
  intros Hne. induction d as [| [k v'] d IH]; cbn [PyObj.set PyObj.get].
  - destruct (String.eqb_spec key key'); [congruence | reflexivity].
  - destruct (String.eqb_spec k key) as [-> | Hk]; cbn [PyObj.get].
    + destruct (String.eqb_spec key key'); [congruence | reflexivity].
    + destruct (String.eqb k key'); [reflexivity | exact IH].
Qed.

(** The cache keeps successes only.  A call that raises leaves the cache as
    it was, so that the next call asks the service again; a call that returns
    an identifier leaves it under the key, where every later call finds it
    without a request, whatever the service would answer, and leaves the
    other keys as they were. *)
Theorem get_or_create_assistant_caches_successes (base_url : string)
    (post : Backboard.transport) (cache : Backboard.assistant_cache)
    (cache_key name system_prompt : string) :
  match Backboard.get_or_create_assistant base_url post cache cache_key name system_prompt with
  | (cache', Err _) => cache' = cache
  | (cache', Ok assistant_id) =>
      (forall post' name' system_prompt',
         Backboard.get_or_create_assistant base_url post' cache' cache_key name' system_prompt'
         = (cache', Ok assistant_id)) /\
      (forall key, key <> cache_key -> PyObj.get key cache' = PyObj.get key cache)
  end.
Proof.
  unfold Backboard.get_or_create_assistant at 1.
  destruct (PyObj.get cache_key cache) as [hit |] eqn:Hc.
  - split; [| reflexivity]. intros post' name' system_prompt'.
    unfold Backboard.get_or_create_assistant. now rewrite Hc.
  - destruct (post _ _) as [resp | exc]; [| reflexivity].
    destruct (negb _); [reflexivity |].
    destruct (data <- Backboard.json resp ;; _) as [assistant_id | exc]; [| reflexivity].
    split.
    + intros post' name' system_prompt'.
      unfold Backboard.get_or_create_assistant. now rewrite get_set_same.
    + intros key Hk. now apply get_set_other.
Qed.

Lemma before_slash_app (p rest : string) :
  PyStr.index_char "/" p = None ->
  Backboard.before_slash (p ++ String "/" rest) = p.
Proof.
  induction p as [| c p IH]; intros H; [reflexivity |].
  cbn [append Backboard.before_slash PyStr.index_char] in *.
  rewrite Ascii.eqb_sym. destruct (Ascii.eqb "/" c); [discriminate H |].
  destruct (PyStr.index_char "/" p); [discriminate H |].
  now rewrite IH.
Qed.

Lemma index_char_app_some (c : ascii) (s t : string) :
  exists n, PyStr.index_char c (s ++ String c t) = Some n.
Proof.
  induction s as [| d s [n IH]]; cbn [append PyStr.index_char].
  - rewrite Ascii.eqb_refl. eauto.
  - destruct (Ascii.eqb c d); [eauto |]. rewrite IH. eauto.
Qed.

(** The provider sent with a message is the part of the model identifier
    before its first slash, and "amazon" for an identifier without a
    slash, whatever the model is. *)
Theorem send_message_provider (p rest : string) :
  PyStr.index_char "/" p = None ->
  Backboard.provider (p ++ String "/" rest) = p /\ Backboard.provider p = "amazon".
Proof.
  intros H. unfold Backboard.provider. rewrite H. split; [| reflexivity].
  destruct (index_char_app_some "/" p rest) as [n ->]. now apply before_slash_app.
Qed.

Lemma send_message_provider_witness :
  Backboard.provider "gemini-2.0-flash/exp" = "gemini-2.0-flash" /\
  Backboard.provider "gemini-2.0-flash" = "amazon".
Proof.
  apply (send_message_provider "gemini-2.0-flash" "exp"). reflexivity.
Defined.
